(** * magento-downloader: the catalog sync scripts, embedded and verified

    A shallow embedding of [downloader.py] and [sync.py].  Both scripts read
    a JSON catalog, walk it category by category and file by file, check
    the local copy of every file against its MD5 digest and download what
    is missing or stale.

    The embedding keeps the Python data as the scripts see it: the catalog
    is a tree of JSON values (dicts keep their insertion order), the file
    system is a finite map from paths to nodes, and every function that
    touches the file system, the network or standard output is a
    computation in a state-and-exception monad over a [world].  The
    library calls follow CPython 3.11 on Linux: [int] with its limit of
    4300 digits and the decimal digits of Unicode 14.0, path names with
    [NAME_MAX] 255 and [PATH_MAX] 4096.  [sync.py] installs
    [requests_cache], so its requests go through a cache that the world
    keeps; the cache is a component of the world of its own, apart from
    the map of the file system, as the database file of the library is
    no path that either script reads or writes.

    Left out: exceptions of the transport itself ([requests.get] always
    comes back with a response), errors of the disk while a file is being
    written, permissions of directories, and two spellings of one file.
    The download root of [downloader.py] is the [realpath] of the
    script's directory followed by [/downloaded], and file names with a
    ['/'] are skipped, so a path the scripts use has its [.] and [..]
    components and its doubled slashes, if any, at its end, where the
    model resolves them; there are no symbolic links below the root, and
    the working directory is not one of the category directories.  The
    [assert] of [sync.py] is taken to be enabled. *)

From Stdlib Require Import ZArith QArith Lia List Bool Ascii String.
From Stdlib.Strings Require Import Byte.
From stdpp Require Import base option list gmap strings sorting.

Import ListNotations.
Local Open Scope string_scope.
Local Open Scope list_scope.
Local Open Scope Z_scope.

(** ** Python [str] operations used by the scripts

    A [string] holds the UTF-8 encoding of a Python [str].  The characters
    the scripts look for (['/'], ['.'], ASCII suffixes) never occur inside a
    multi-byte sequence, so searching bytes and searching code points
    agree, and byte-wise comparison orders strings as code points do. *)

Module PyStr.

(** [c in s] for a one-character [c]. *)
Fixpoint contains_char (c : ascii) (s : string) : bool :=
  match s with
  | EmptyString => false
  | String a s' => Ascii.eqb a c || contains_char c s'
  end.

(** One step of [rpartition], scanning from the left: the result for
    [String a s'] from the result for [s']. *)
Definition rpartition_cons (sep a : ascii) (s' : string)
    (r : string * string * string) : string * string * string :=
  match r with
  | (hd, mid, tl) =>
      match mid with
      | EmptyString =>
          (* no separator in [s']: [tl] is [s'] itself *)
          if Ascii.eqb a sep
          then (EmptyString, String sep EmptyString, s')
          else (EmptyString, EmptyString, String a s')
      | _ => (String a hd, mid, tl)
      end
  end.

(** [s.rpartition(sep)] for a one-character separator: split at the LAST
    occurrence; without one the result is [('', '', s)]. *)
Fixpoint rpartition (sep : ascii) (s : string) : string * string * string :=
  match s with
  | EmptyString => (EmptyString, EmptyString, EmptyString)
  | String a s' => rpartition_cons sep a s' (rpartition sep s')
  end.

(** [s.endswith(suffix)]. *)
Definition endswith (s suffix : string) : bool :=
  let n := String.length s in
  let k := String.length suffix in
  (k <=? n)%nat && String.eqb (String.substring (n - k) k s) suffix.

(** [x in (a, b, ...)] for strings. *)
Definition in_tuple (x : string) (t : list string) : bool :=
  existsb (String.eqb x) t.

Definition hex_upper (n : N) : ascii :=
  ascii_of_N (if (n <? 10)%N then 48 + n else 55 + n)%N.

(** The characters [urllib.parse.quote] never escapes: letters, digits,
    ["_.-~"], and its default [safe='/']. *)
Definition quote_safe (a : ascii) : bool :=
  let n := N_of_ascii a in
  ((65 <=? n) && (n <=? 90) || (97 <=? n) && (n <=? 122)
   || (48 <=? n) && (n <=? 57))%N
  || existsb (Ascii.eqb a) ["_"; "."; "-"; "~"; "/"]%char.

(** [urllib.parse.quote(s)]: every other byte of the UTF-8 encoding
    becomes [%XX] with upper-case hex digits. *)
Fixpoint quote (s : string) : string :=
  match s with
  | EmptyString => EmptyString
  | String a s' =>
      if quote_safe a then String a (quote s')
      else
        let n := N_of_ascii a in
        String "%" (String (hex_upper (n / 16)) (String (hex_upper (n mod 16)) (quote s')))
  end.

End PyStr.

(** ** [hashlib.md5(data).hexdigest()]

    MD5 as RFC 1321 defines it, on 32-bit words held in [Z] with the
    wrap-around written out. *)

Module MD5.

Definition w32 (x : Z) : Z := x mod 2 ^ 32.

Definition rotl32 (x s : Z) : Z :=
  w32 (Z.lor (Z.shiftl x s) (Z.shiftr x (32 - s))).

Definition notw (x : Z) : Z := Z.lxor x 0xffffffff.

(** Per-round shift amounts. *)
Definition S_tab : list Z :=
  [7; 12; 17; 22; 7; 12; 17; 22; 7; 12; 17; 22; 7; 12; 17; 22;
   5; 9; 14; 20; 5; 9; 14; 20; 5; 9; 14; 20; 5; 9; 14; 20;
   4; 11; 16; 23; 4; 11; 16; 23; 4; 11; 16; 23; 4; 11; 16; 23;
   6; 10; 15; 21; 6; 10; 15; 21; 6; 10; 15; 21; 6; 10; 15; 21].

(** [floor(abs(sin(i + 1)) * 2^32)]. *)
Definition K_tab : list Z :=
  [0xd76aa478; 0xe8c7b756; 0x242070db; 0xc1bdceee;
   0xf57c0faf; 0x4787c62a; 0xa8304613; 0xfd469501;
   0x698098d8; 0x8b44f7af; 0xffff5bb1; 0x895cd7be;
   0x6b901122; 0xfd987193; 0xa679438e; 0x49b40821;
   0xf61e2562; 0xc040b340; 0x265e5a51; 0xe9b6c7aa;
   0xd62f105d; 0x02441453; 0xd8a1e681; 0xe7d3fbc8;
   0x21e1cde6; 0xc33707d6; 0xf4d50d87; 0x455a14ed;
   0xa9e3e905; 0xfcefa3f8; 0x676f02d9; 0x8d2a4c8a;
   0xfffa3942; 0x8771f681; 0x6d9d6122; 0xfde5380c;
   0xa4beea44; 0x4bdecfa9; 0xf6bb4b60; 0xbebfbc70;
   0x289b7ec6; 0xeaa127fa; 0xd4ef3085; 0x04881d05;
   0xd9d4d039; 0xe6db99e5; 0x1fa27cf8; 0xc4ac5665;
   0xf4292244; 0x432aff97; 0xab9423a7; 0xfc93a039;
   0x655b59c3; 0x8f0ccc92; 0xffeff47d; 0x85845dd1;
   0x6fa87e4f; 0xfe2ce6e0; 0xa3014314; 0x4e0811a1;
   0xf7537e82; 0xbd3af235; 0x2ad7d2bb; 0xeb86d391].

Definition state : Type := Z * Z * Z * Z.

Definition init : state := (0x67452301, 0xefcdab89, 0x98badcfe, 0x10325476).

(** Little-endian word from four bytes. *)
Definition word_le (bs : list Z) : Z :=
  fold_right (fun b acc => b + 256 * acc) 0 bs.

(** The sixteen message words of a 64-byte block. *)
Fixpoint words (n : nat) (bs : list Z) : list Z :=
  match n with
  | O => []
  | S n' => word_le (firstn 4 bs) :: words n' (skipn 4 bs)
  end.

Definition step (M : list Z) (st : state) (i : nat) : state :=
  let '(a, b, c, d) := st in
  let iz := Z.of_nat i in
  let '(f, g) :=
    if iz <? 16 then (Z.lor (Z.land b c) (Z.land (notw b) d), iz)
    else if iz <? 32 then (Z.lor (Z.land d b) (Z.land (notw d) c), (5 * iz + 1) mod 16)
    else if iz <? 48 then (Z.lxor (Z.lxor b c) d, (3 * iz + 5) mod 16)
    else (Z.lxor c (Z.lor b (notw d)), (7 * iz) mod 16) in
  let f' := w32 (f + a + nth i K_tab 0 + nth (Z.to_nat g) M 0) in
  (d, w32 (b + rotl32 f' (nth i S_tab 0)), b, c).

Definition compress (st : state) (block : list Z) : state :=
  let M := words 16 block in
  let '(a, b, c, d) := fold_left (step M) (seq 0 64) st in
  let '(a0, b0, c0, d0) := st in
  (w32 (a0 + a), w32 (b0 + b), w32 (c0 + c), w32 (d0 + d)).

(** The eight bytes of the message length in bits, little-endian,
    modulo [2^64]. *)
Fixpoint bytes_le (n : nat) (x : Z) : list Z :=
  match n with
  | O => []
  | S n' => x mod 256 :: bytes_le n' (x / 256)
  end.

Definition pad (msg : list Z) : list Z :=
  let len := Z.of_nat (List.length msg) in
  let zeros := Z.to_nat ((55 - len) mod 64) in
  msg ++ [0x80] ++ repeat 0 zeros ++ bytes_le 8 ((8 * len) mod 2 ^ 64).

Fixpoint blocks (n : nat) (st : state) (bs : list Z) : state :=
  match n with
  | O => st
  | S n' => blocks n' (compress st (firstn 64 bs)) (skipn 64 bs)
  end.

Definition digest_words (data : list byte) : state :=
  let p := pad (map (fun b => Z.of_N (Byte.to_N b)) data) in
  blocks (List.length p / 64) init p.

Definition hex_lower (n : Z) : ascii :=
  ascii_of_N (Z.to_N (if n <? 10 then 48 + n else 87 + n)).

Definition hex_byte (b : Z) : string :=
  String (hex_lower (b / 16 mod 16)) (String (hex_lower (b mod 16)) EmptyString).

Definition hex_word (w : Z) : string :=
  fold_right (fun b acc => (hex_byte b ++ acc)%string) EmptyString (bytes_le 4 w).

(** [hashlib.md5(data).hexdigest()]. *)
Definition hexdigest (data : list byte) : string :=
  let '(a, b, c, d) := digest_words data in
  (hex_word a ++ hex_word b ++ hex_word c ++ hex_word d)%string.

End MD5.

Definition bytes_of (s : string) : list byte := list_byte_of_string s.

(** ** Python values

    What [requests.get(...).json()] returns: [None], booleans, numbers,
    strings, lists, and dicts that iterate in insertion order.  A dict is
    an association list whose keys are distinct; [dict_get] reads the
    first binding of a key.  Of a number the scripts can only observe
    whether it is zero. *)

#[warnings="-register-all"] Inductive json : Type :=
| JNull
| JBool (b : bool)
| JNum (q : Q)
| JStr (s : string)
| JArr (l : list json)
| JObj (d : list (string * json)).

Definition dict : Type := list (string * json).

Fixpoint dict_get (d : dict) (k : string) : option json :=
  match d with
  | [] => None
  | (k', v) :: d' => if String.eqb k k' then Some v else dict_get d' k
  end.

Definition values (d : dict) : list json := map snd d.

(** Truth value of a Python object ([not x] is its negation). *)
Definition truthy (v : json) : bool :=
  match v with
  | JNull => false
  | JBool b => b
  | JNum q => negb (Qeq_bool q 0)
  | JStr s => negb (String.eqb s "")
  | JArr l => match l with [] => false | _ => true end
  | JObj d => match d with [] => false | _ => true end
  end.

(** [s == v] for a [str] [s]: only an equal [str] is equal to it. *)
Definition str_eq (s : string) (v : json) : bool :=
  match v with
  | JStr t => String.eqb s t
  | _ => false
  end.

Definition is_continuation (a : ascii) : bool :=
  let n := N_of_ascii a in ((128 <=? n) && (n <? 192))%N.

(** The characters of a [str]: its UTF-8 bytes grouped by code point. *)
Fixpoint chars (s : string) : list string :=
  match s with
  | EmptyString => []
  | String a s' =>
      let r := chars s' in
      match s' with
      | String b _ =>
          if is_continuation b
          then match r with
               | c :: r' => String a c :: r'
               | [] => [String a EmptyString]
               end
          else String a EmptyString :: r
      | EmptyString => [String a EmptyString]
      end
  end.

(** ** The world: file system, remote server, observable trace *)

(** A regular file with its permission to be opened for reading and for
    writing, or a directory.  Directories are taken to be searchable and
    writable by the process, and a file the process creates to be one it
    may read and write. *)
Inductive node : Type :=
| File (readable writable : bool) (data : list byte)
| Dir.

(** The part of an HTTP response the scripts read. *)
Record response : Type := mkResponse {
  status_code : Z;
  content_length : option string;   (* [headers.get('content-length')] *)
  body : list byte
}.

(** The arguments of each [print] call of the scripts, by call site. *)
Inductive message : Type :=
| MsgDownloading (url : string)
| MsgStatus (code : Z) (url : string)
| MsgSaved (path : string)
| MsgNotExist (path : string)
| MsgChecksum (path real_md5 : string)
| MsgUnknownCategory (category : string)
| MsgDeepPath (file_name : json)
| MsgRedownload (file_name : json)
| MsgTarget (target : string)
| MsgCategory (category_path : string) (n : nat)
| MsgVersion (version : string)
| MsgPatch (p : json).

(** What a run does that can be seen from outside, in order: the lines it
    prints and the HTTP requests it sends. *)
Inductive event : Type :=
| Print (m : message)
| Get (url : string).

Record world : Type := World {
  fs : gmap string node;
  remote : string -> response;      (* the server's answer to a GET *)
  cache : gmap string response      (* the store of [requests_cache] *)
}.

(** A world whose cache is empty. *)
Definition mkWorld (f : gmap string node) (r : string -> response) : world :=
  World f r ∅.

Definition with_fs (w : world) (f : gmap string node) : world :=
  World f (remote w) (cache w).

Definition with_cache (w : world) (c : gmap string response) : world :=
  World (fs w) (remote w) c.

(** ** Computations: state, exceptions and a trace

    A computation runs in a world and ends with a value or a raised
    exception, the world it leaves, and the events it produced.  The
    trace is written only: no computation can read what was printed. *)

Inductive exn : Type :=
| KeyError (key : string)
| TypeError
| AttributeError
| ValueError
| AssertionError (msg : string)
| FileNotFoundError
| FileExistsError
| IsADirectoryError
| NotADirectoryError
| PermissionError
| OSError.                          (* errno [ENAMETOOLONG] *)

Inductive result (A : Type) : Type :=
| Ok (a : A)
| Raise (e : exn).
Arguments Ok {A} a.
Arguments Raise {A} e.

Definition M (A : Type) : Type := world -> result A * world * list event.

Definition ret {A} (a : A) : M A := fun w => (Ok a, w, []).

Definition raise {A} (e : exn) : M A := fun w => (Raise e, w, []).

Definition bind {A B} (m : M A) (k : A -> M B) : M B :=
  fun w =>
    match m w with
    | (Ok a, w1, t1) =>
        match k a w1 with
        | (r, w2, t2) => (r, w2, t1 ++ t2)
        end
    | (Raise e, w1, t1) => (Raise e, w1, t1)
    end.

Notation "'let*' x ':=' m 'in' k" := (bind m (fun x => k))
  (at level 10, x name, m at level 100, k at level 200).
Notation "m ';;' k" := (bind m (fun _ => k))
  (at level 100, k at level 200, right associativity).

(** The three parts of what a run returns. *)
Definition outcome {A} (r : result A * world * list event) : result A := fst (fst r).
Definition final {A} (r : result A * world * list event) : world := snd (fst r).
Definition trace {A} (r : result A * world * list event) : list event := snd r.

(** [for x in l: body(x)]; an exception in the body leaves the loop. *)
Fixpoint for_each {A} (body : A -> M unit) (l : list A) : M unit :=
  match l with
  | [] => ret tt
  | x :: l' => body x ;; for_each body l'
  end.

(** Evaluate a list of computations left to right. *)
Fixpoint sequence {A} (ms : list (M A)) : M (list A) :=
  match ms with
  | [] => ret []
  | m :: ms' => let* a := m in let* r := sequence ms' in ret (a :: r)
  end.

Definition print (m : message) : M unit := fun w => (Ok tt, w, [Print m]).

(** *** Python object protocol *)

(** [v[key]] for a [str] key. *)
Definition getitem (v : json) (key : string) : M json :=
  match v with
  | JObj d =>
      match dict_get d key with
      | Some x => ret x
      | None => raise (KeyError key)
      end
  | _ => raise TypeError
  end.

(** [v.get(key, ())]: the default is the empty tuple, which iterates as
    the empty list does. *)
Definition get_or_empty (v : json) (key : string) : M json :=
  match v with
  | JObj d =>
      match dict_get d key with
      | Some x => ret x
      | None => ret (JArr [])
      end
  | _ => raise AttributeError
  end.

(** [iter(v)] run to the end. *)
Definition iter (v : json) : M (list json) :=
  match v with
  | JArr l => ret l
  | JStr s => ret (map JStr (chars s))
  | JObj d => ret (map (fun kv => JStr (fst kv)) d)
  | _ => raise TypeError
  end.

(** [c in v] for a one-character [str] [c]. *)
Definition py_in (c : ascii) (v : json) : M bool :=
  match v with
  | JStr s => ret (PyStr.contains_char c s)
  | JArr l => ret (existsb (str_eq (String c EmptyString)) l)
  | JObj d => ret (existsb (fun kv => String.eqb (String c EmptyString) (fst kv)) d)
  | _ => raise TypeError
  end.

(** [v.rpartition(sep)[2]]: only [str] has the method. *)
Definition rpartition_tail (v : json) (sep : ascii) : M string :=
  match v with
  | JStr s => ret (snd (PyStr.rpartition sep s))
  | _ => raise AttributeError
  end.

(** [prefix + v] for a [str] prefix. *)
Definition str_add (prefix : string) (v : json) : M string :=
  match v with
  | JStr s => ret (prefix ++ s)%string
  | _ => raise TypeError
  end.

(** [list(itertools.chain.from_iterable(d.values()))]. *)
Definition chain_values (d : dict) : M (list json) :=
  let* groups := sequence (map iter (values d)) in
  ret (concat groups).

(** *** File system

    The file system is known by the spellings of its paths: [fs] binds
    the spelling of a path whose last component is an ordinary name to
    the node found there, the working directory at [""] and the root at
    ["/"].  A path that ends in slashes or in [.] or [..] components
    names a directory reached from its core, the path before those
    components.  NUL bytes are refused by Python itself, the rest is what
    the system calls of Linux do. *)

Definition NAME_MAX : nat := 255.
Definition PATH_MAX : nat := 4096.

Definition has_nul (p : string) : bool := PyStr.contains_char "000" p.

(** What the calls refuse before they look at the file system. *)
Definition refused (p : string) : option exn :=
  if has_nul p then Some ValueError
  else if String.eqb p "" then Some FileNotFoundError
  else if (PATH_MAX <=? String.length p)%nat then Some OSError
  else None.

(** The directory a path lives in; the empty path is the directory
    relative paths start from. *)
Definition parent (p : string) : string :=
  match PyStr.rpartition "/" p with
  | (EmptyString, String _ _, _) => "/"
  | (hd, _, _) => hd
  end.

(** The components of a path: [p.split('/')]. *)
Fixpoint components (p : string) : list string :=
  match p with
  | EmptyString => [EmptyString]
  | String a p' =>
      let r := components p' in
      if Ascii.eqb a "/" then EmptyString :: r
      else match r with
           | c :: cs => String a c :: cs
           | [] => [String a EmptyString]
           end
  end.

(** The last component of a path. *)
Definition basename (p : string) : string := List.last (components p) "".

Definition is_dot (c : string) : bool := String.eqb c "." || String.eqb c "..".

(** A component that names no entry of its own. *)
Definition is_special (c : string) : bool := String.eqb c "" || is_dot c.

(** The special components a reversed path starts with, and the rest. *)
Fixpoint drop_special (rcomps : list string) : list string * list string :=
  match rcomps with
  | c :: r =>
      if is_special c
      then let '(dropped, rest) := drop_special r in (c :: dropped, rest)
      else ([], rcomps)
  | [] => ([], [])
  end.

(** The path without its trailing special components. *)
Definition core_of (p : string) : string :=
  let core := String.concat "/" (rev (snd (drop_special (rev (components p))))) in
  match core, p with
  | EmptyString, String "/" _ => "/"
  | _, _ => core
  end.

(** One of the trailing special components is [.] or [..]. *)
Definition dot_tail (p : string) : bool :=
  existsb is_dot (fst (drop_special (rev (components p)))).

Definition name_too_long (k : string) : bool :=
  (NAME_MAX <? String.length (basename k))%nat.

(** The node bound at a spelling; no directory holds a name longer than
    [NAME_MAX]. *)
Definition bound_at (f : gmap string node) (k : string) : option node :=
  if name_too_long k then None else f !! k.

(** What [os.stat(p)] finds, if anything. *)
Definition node_at (f : gmap string node) (p : string) : option node :=
  match refused p with
  | Some _ => None
  | None =>
      if is_special (basename p) then
        match bound_at f (core_of p) with
        | Some Dir => Some Dir
        | _ => None
        end
      else bound_at f p
  end.

(** The directory spelled [d], where [""] is the working directory. *)
Definition dir_of (f : gmap string node) (d : string) : option node :=
  if String.eqb d "" then f !! "" else node_at f d.

(** The directories above a path, nearest first: its parent, the
    parent of that, up to the working directory or the root.  Every step
    shortens the path, so its length is fuel enough. *)
Fixpoint ancestors (fuel : nat) (p : string) : list string :=
  match fuel with
  | O => []
  | S fuel' =>
      let a := parent p in
      a :: (if String.eqb a "" || String.eqb a "/" then []
            else ancestors fuel' a)
  end.

(** Why nothing is found at [child], whose directories are [chain]: the
    nearest one that exists decides.  In a directory the name is missing
    or too long; a regular file is no directory. *)
Fixpoint why_missing (f : gmap string node) (chain : list string)
    (child : string) : exn :=
  match chain with
  | [] => FileNotFoundError
  | a :: rest =>
      match dir_of f a with
      | Some Dir => if name_too_long child then OSError else FileNotFoundError
      | Some (File _ _ _) => NotADirectoryError
      | None => why_missing f rest a
      end
  end.

(** Why nothing is found at the spelling [k]. *)
Definition lookup_error (f : gmap string node) (k : string) : exn :=
  why_missing f (ancestors (String.length k) k) k.

(** The exception of [os.stat(p)] when it finds nothing. *)
Definition stat_error (f : gmap string node) (p : string) : exn :=
  match refused p with
  | Some e => e
  | None =>
      if is_special (basename p) then
        match bound_at f (core_of p) with
        | Some (File _ _ _) => NotADirectoryError
        | _ => lookup_error f (core_of p)
        end
      else lookup_error f p
  end.

(** [os.path.exists(p)]: [True] when [os.stat(p)] succeeds. *)
Definition path_exists (p : string) : M bool :=
  fun w => (Ok (bool_decide (is_Some (node_at (fs w) p))), w, []).

(** [os.mkdir] of an ordinary spelling: the spelling to bind, or the
    exception. *)
Definition mkdir_at (f : gmap string node) (k : string) : exn + string :=
  match bound_at f k with
  | Some _ => inl FileExistsError
  | None =>
      match dir_of f (parent k) with
      | Some Dir => if name_too_long k then inl OSError else inr k
      | _ => inl (lookup_error f k)
      end
  end.

(** [os.mkdir(p)] ignores trailing slashes. *)
Definition mkdir_check (f : gmap string node) (p : string) : exn + string :=
  match refused p with
  | Some e => inl e
  | None =>
      if is_special (basename p) then
        if dot_tail p then
          match bound_at f (core_of p) with
          | Some Dir => inl FileExistsError
          | Some (File _ _ _) => inl NotADirectoryError
          | None => inl (lookup_error f (core_of p))
          end
        else mkdir_at f (core_of p)
      else mkdir_at f p
  end.

(** [os.mkdir(p)]. *)
Definition mkdir (p : string) : M unit :=
  fun w =>
    match mkdir_check (fs w) p with
    | inl e => (Raise e, w, [])
    | inr k => (Ok tt, with_fs w (<[k := Dir]> (fs w)), [])
    end.

(** [with open(p, 'rb') as fh: data = fh.read()]. *)
Definition read_file (p : string) : M (list byte) :=
  fun w =>
    match node_at (fs w) p with
    | Some (File true _ data) => (Ok data, w, [])
    | Some (File false _ _) => (Raise PermissionError, w, [])
    | Some Dir => (Raise IsADirectoryError, w, [])
    | None => (Raise (stat_error (fs w) p), w, [])
    end.

(** [open(p, 'wb')]: the exception, or the read permission of the file
    it leaves open: kept when the file was there, granted when it is
    new.  With a trailing slash [open] reports a directory whatever the
    core is. *)
Definition open_wb_check (f : gmap string node) (p : string) : exn + bool :=
  match refused p with
  | Some e => inl e
  | None =>
      if is_special (basename p) then
        if dot_tail p then
          match bound_at f (core_of p) with
          | Some Dir => inl IsADirectoryError
          | Some (File _ _ _) => inl NotADirectoryError
          | None => inl (lookup_error f (core_of p))
          end
        else
          match bound_at f (core_of p) with
          | Some _ => inl IsADirectoryError
          | None =>
              match dir_of f (parent (core_of p)) with
              | Some Dir => inl IsADirectoryError
              | _ => inl (lookup_error f (core_of p))
              end
          end
      else
        match bound_at f p with
        | Some (File r true _) => inr r
        | Some (File _ false _) => inl PermissionError
        | Some Dir => inl IsADirectoryError
        | None =>
            match dir_of f (parent p) with
            | Some Dir => if name_too_long p then inl OSError else inr true
            | _ => inl (lookup_error f p)
            end
        end
  end.

(** [open(p, 'wb')]: truncates the file or creates it. *)
Definition open_wb (p : string) : M unit :=
  fun w =>
    match open_wb_check (fs w) p with
    | inl e => (Raise e, w, [])
    | inr r => (Ok tt, with_fs w (<[p := File r true []]> (fs w)), [])
    end.

(** [fh.write(chunk)] on the file opened at [p]. *)
Definition write (p : string) (chunk : list byte) : M unit :=
  fun w =>
    match fs w !! p with
    | Some (File r wr data) =>
        (Ok tt, with_fs w (<[p := File r wr (data ++ chunk)]> (fs w)), [])
    | _ => (Raise ValueError, w, [])
    end.

(** *** Network *)

(** [requests.get(url, stream=True, auth=(MAGEID, TOKEN))]. *)
Definition requests_get (url : string) : M response :=
  fun w => (Ok (remote w url), w, [Get url]).

(** [resp.iter_content()]: the body in chunks of one byte. *)
Definition iter_content (r : response) : list (list byte) :=
  map (fun b => [b]) (body r).

Module PyInt.

(** The code points of a [str], from its UTF-8 encoding: [pending]
    continuation bytes are still to come for the code point begun in
    [acc]. *)
Fixpoint code_points (pending : nat) (acc : N) (s : string) : option (list N) :=
  match s with
  | EmptyString => match pending with O => Some [] | S _ => None end
  | String a s' =>
      let n := N_of_ascii a in
      match pending with
      | O =>
          if (n <? 128)%N then option_map (cons n) (code_points 0 0 s')
          else if ((192 <=? n) && (n <? 224))%N then code_points 1 (n - 192) s'
          else if ((224 <=? n) && (n <? 240))%N then code_points 2 (n - 224) s'
          else if ((240 <=? n) && (n <? 248))%N then code_points 3 (n - 240) s'
          else None
      | S k =>
          if is_continuation a then
            let acc' := (acc * 64 + (n - 128))%N in
            match k with
            | O => option_map (cons acc') (code_points 0 0 s')
            | S _ => code_points k acc' s'
            end
          else None
      end
  end.

(** The white space [int] strips: the six ASCII characters of C's
    [isspace], and the white space of Unicode beyond ASCII.  The
    separators U+001C to U+001F are not among them. *)
Definition is_space (c : N) : bool :=
  existsb (N.eqb c)
    [9; 10; 11; 12; 13; 32; 0x85; 0xA0; 0x1680; 0x2028; 0x2029; 0x202F;
     0x205F; 0x3000]%N
  || ((0x2000 <=? c) && (c <=? 0x200A))%N.

(** The first code point of every run of ten decimal digits (category
    [Nd] of Unicode 14.0); a digit's value is its offset in its run. *)
Definition digit_runs : list N :=
  [0x30; 0x660; 0x6F0; 0x7C0; 0x966; 0x9E6; 0xA66; 0xAE6; 0xB66; 0xBE6;
   0xC66; 0xCE6; 0xD66; 0xDE6; 0xE50; 0xED0; 0xF20; 0x1040; 0x1090;
   0x17E0; 0x1810; 0x1946; 0x19D0; 0x1A80; 0x1A90; 0x1B50; 0x1BB0;
   0x1C40; 0x1C50; 0xA620; 0xA8D0; 0xA900; 0xA9D0; 0xA9F0; 0xAA50;
   0xABF0; 0xFF10; 0x104A0; 0x10D30; 0x11066; 0x110F0; 0x11136; 0x111D0;
   0x112F0; 0x11450; 0x114D0; 0x11650; 0x116C0; 0x11730; 0x118E0;
   0x11950; 0x11C50; 0x11D50; 0x11DA0; 0x16A60; 0x16AC0; 0x16B50;
   0x1D7CE; 0x1D7D8; 0x1D7E2; 0x1D7EC; 0x1D7F6; 0x1E140; 0x1E2F0;
   0x1E950; 0x1FBF0]%N.

Definition digit (c : N) : option Z :=
  match List.find (fun a => ((a <=? c) && (c <? a + 10))%N) digit_runs with
  | Some a => Some (Z.of_N (c - a))
  | None => None
  end.

(** [sys.get_int_max_str_digits()] as the interpreter starts. *)
Definition MAX_STR_DIGITS : nat := 4300.

Fixpoint lstrip (l : list N) : list N :=
  match l with
  | c :: l' => if is_space c then lstrip l' else l
  | [] => l
  end.

Fixpoint rstrip (l : list N) : list N :=
  match l with
  | c :: l' =>
      match rstrip l' with
      | [] => if is_space c then [] else [c]
      | r => c :: r
      end
  | [] => l
  end.

(** Decimal digits, single underscores allowed between them: the value
    and the number of digits. *)
Fixpoint digits (acc : Z) (count : nat) (after_digit : bool) (l : list N)
    : option (Z * nat) :=
  match l with
  | [] => if after_digit then Some (acc, count) else None
  | c :: l' =>
      match digit c with
      | Some d => digits (10 * acc + d) (S count) true l'
      | None =>
          if (c =? 95)%N && after_digit then digits acc count false l' else None
      end
  end.

(** The digits after the sign, within the limit. *)
Definition magnitude (l : list N) : option Z :=
  match digits 0 0 false l with
  | Some (n, count) => if (count <=? MAX_STR_DIGITS)%nat then Some n else None
  | None => None
  end.

(** [int(s)] for a [str]; [None] is Python's [ValueError]. *)
Definition parse (s : string) : option Z :=
  match code_points 0 0 s with
  | None => None
  | Some l =>
      match rstrip (lstrip l) with
      | 45%N :: l' => option_map Z.opp (magnitude l')
      | 43%N :: l' => magnitude l'
      | l' => magnitude l'
      end
  end.

End PyInt.

(** [int(x)] for the value of a header lookup: [int(None)] is a
    [TypeError]. *)
Definition py_int (x : option string) : M Z :=
  match x with
  | None => raise TypeError
  | Some s =>
      match PyInt.parse s with
      | Some n => ret n
      | None => raise ValueError
      end
  end.

(** ** Functions the two scripts share

    [downloader.py] and [sync.py] define [download_file] and
    [verify_md5sum] with the same text; [download_file] of [sync.py],
    whose [requests.get] is the cached one, is in [Sync]. *)

Definition FILE_URL : string :=
  "https://www.magentocommerce.com/products/downloads/file/".

(** [urllib.parse.quote(filename)]: a [TypeError] unless [filename] is a
    [str]. *)
Definition quote (filename : json) : M string :=
  match filename with
  | JStr s => ret (PyStr.quote s)
  | _ => raise TypeError
  end.

(** [download_file(filename, path)]; the result is [False] on a status
    other than 200 and [None] at the end of the body. *)
Definition download_file (filename : json) (path : string) : M json :=
  let* quoted := quote filename in
  let url := (FILE_URL ++ quoted)%string in
  print (MsgDownloading url) ;;
  let* resp := requests_get url in
  if negb (status_code resp =? 200) then
    print (MsgStatus (status_code resp) url) ;;
    ret (JBool false)
  else
    let* totalsize := py_int (content_length resp) in
    open_wb path ;;
    for_each (write path) (iter_content resp) ;;
    print (MsgSaved path) ;;
    ret JNull.

(** [verify_md5sum(path, want_md5)]. *)
Definition verify_md5sum (path : string) (want_md5 : json) : M bool :=
  let* there := path_exists path in
  if negb there then
    print (MsgNotExist path) ;;
    ret false
  else if negb (truthy want_md5) then
    ret true
  else
    let* data := read_file path in
    let real_md5 := MD5.hexdigest data in
    let same := str_eq real_md5 want_md5 in
    (if negb same then print (MsgChecksum path real_md5) else ret tt) ;;
    ret same.

(** [isinstance(files, dict)] and the flattening that follows it. *)
Definition flatten (files : json) : M json :=
  match files with
  | JObj d => let* l := chain_values d in ret (JArr l)
  | _ => ret files
  end.

(** [len(v)]. *)
Definition len (v : json) : M nat :=
  match v with
  | JArr l => ret (List.length l)
  | JStr s => ret (List.length (chars s))
  | JObj d => ret (List.length d)
  | _ => raise TypeError
  end.

(** ** [downloader.py] *)

Module Downloader.

Definition CATEGORIES : list string :=
  ["ee-full"; "ce-full"; "ee-patch"; "ce-patch"].

Section WithDownloadPath.

(** [os.path.dirname(os.path.realpath(__file__)) + '/downloaded'] *)
Variable DOWNLOAD_PATH : string.

(** The body of [for file in files]; [continue] ends it early. *)
Definition sync_file (category_path : string) (file : json) : M unit :=
  let* name := getitem file "file_name" in
  let* deep := py_in "/" name in
  if deep then
    let* name := getitem file "file_name" in
    print (MsgDeepPath name)
  else
    let* name := getitem file "file_name" in
    let* ext := rpartition_tail name "." in
    if PyStr.in_tuple ext ["zip"; "bz2"] then ret tt
    else
      let* name := getitem file "file_name" in
      let* target := str_add (category_path ++ "/")%string name in
      let* md5 := getitem file "md5" in
      let* same := verify_md5sum target md5 in
      (if negb same then
         let* name := getitem file "file_name" in
         print (MsgRedownload name) ;;
         let* name := getitem file "file_name" in
         download_file name target ;;
         ret tt
       else ret tt) ;;
      print (MsgTarget target).

(** The body of [for category, files in all_files.items()]. *)
Definition sync_category (item : string * json) : M unit :=
  let '(category, files) := item in
  if negb (PyStr.in_tuple category CATEGORIES) then
    print (MsgUnknownCategory category)
  else
    let category_path := (DOWNLOAD_PATH ++ "/" ++ category)%string in
    let* there := path_exists category_path in
    (if negb there then mkdir category_path else ret tt) ;;
    let* files := flatten files in
    let* entries := iter files in
    for_each (sync_file category_path) entries ;;
    let* n := len files in
    print (MsgCategory category_path n).

Definition sync_everything (all_files : dict) : M unit :=
  for_each sync_category all_files.

End WithDownloadPath.

End Downloader.

(** ** [calc_req_patches], the same text in both scripts *)

(** [x == y] for hashable values: numbers and booleans compare by value. *)
Definition py_eq (x y : json) : bool :=
  let num v :=
    match v with
    | JBool b => Some (if b then 1%Q else 0%Q)
    | JNum q => Some q
    | _ => None
    end in
  match x, y with
  | JNull, JNull => true
  | JStr s, JStr t => String.eqb s t
  | _, _ =>
      match num x, num y with
      | Some p, Some q => Qeq_bool p q
      | _, _ => false
      end
  end.

Definition hashable (v : json) : bool :=
  match v with
  | JArr _ | JObj _ => false
  | _ => true
  end.

(** A Python [set] of hashable values: its elements without repetition,
    here in the order they were added.  Python does not fix the order in
    which a set iterates; nothing below depends on it. *)
Abbreviation pyset := (list json) (only parsing).

Definition set_mem (x : json) (s : pyset) : bool := existsb (py_eq x) s.

(** [s.add(x)]. *)
Definition set_add (x : json) (s : pyset) : M pyset :=
  if hashable x then ret (if set_mem x s then s else (s ++ [x])%list)
  else raise TypeError.

(** The order of [(version, patches)] pairs: the keys of a dict are
    distinct, so two of its pairs compare as their keys do, and strings
    compare by code point. *)
Definition key_le (a b : string * pyset) : Prop := String.le (fst a) (fst b).

#[global] Instance key_le_dec : RelDecision key_le :=
  fun a b => String.le_dec (fst a) (fst b).

(** [sorted(v2p.items())]. *)
Definition sorted_items (v2p : gmap string pyset) : list (string * pyset) :=
  merge_sort key_le (map_to_list v2p).

Section CalcReqPatches.

(** ["{}".format(x)], which is [x] itself for a [str]. *)
Variable py_format : json -> string.

(** [[prefix.format(x) for x in file.get(key, ())]] *)
Definition version_keys (prefix : string) (file : json) (key : string)
    : M (list string) :=
  let* versions := get_or_empty file key in
  let* xs := iter versions in
  ret (map (fun x => (prefix ++ py_format x)%string) xs).

(** [v2p[v].add(file['file_name'])] on a [defaultdict(set)]. *)
Definition add_patch (file : json) (v2p : gmap string pyset) (v : string)
    : M (gmap string pyset) :=
  let patches := default [] (v2p !! v) in
  let* name := getitem file "file_name" in
  let* patches' := set_add name patches in
  ret (<[v := patches']> v2p).

(** A loop that threads the dict through its iterations. *)
Fixpoint fold_m {A S} (body : S -> A -> M S) (l : list A) (s : S) : M S :=
  match l with
  | [] => ret s
  | x :: l' => let* s' := body s x in fold_m body l' s'
  end.

(** The body of [for file in files]. *)
Definition index_file (v2p : gmap string pyset) (file : json)
    : M (gmap string pyset) :=
  let* ee := version_keys "EE " file "ee_versions" in
  let* ce := version_keys "CE " file "ce_versions" in
  fold_m (add_patch file) (ee ++ ce)%list v2p.

(** The body of [for category, files in all_files.items()]. *)
Definition index_category (v2p : gmap string pyset) (item : string * json)
    : M (gmap string pyset) :=
  let '(category, files) := item in
  if negb (PyStr.endswith category "-patch") then ret v2p
  else
    let* files := flatten files in
    let* entries := iter files in
    fold_m index_file entries v2p.

(** The first loop of [calc_req_patches]: the dict [v2p] it builds. *)
Definition req_patches (all_files : dict) : M (gmap string pyset) :=
  fold_m index_category all_files ∅.

(** The body of [for version, patches in sorted(v2p.items())]. *)
Definition print_version (item : string * pyset) : M unit :=
  print (MsgVersion (fst item)) ;;
  for_each (fun p => print (MsgPatch p)) (snd item).

Definition calc_req_patches (all_files : dict) : M unit :=
  let* v2p := req_patches all_files in
  for_each print_version (sorted_items v2p).

End CalcReqPatches.

(** ** [sync.py]

    The second script syncs into the working directory, also syncs the
    category ['other'], asserts that every category is known, and sends
    its requests through [requests_cache]. *)

Module Sync.

(** [requests.get] after [requests_cache.install_cache()]: a URL whose
    answer is in the cache is answered from it and nothing is sent;
    otherwise the server is asked, and an answer with status 200 is
    stored.  Nothing in the cache expires. *)
Definition requests_get (url : string) : M response :=
  fun w =>
    match cache w !! url with
    | Some resp => (Ok resp, w, [])
    | None =>
        let resp := remote w url in
        (Ok resp,
         if status_code resp =? 200
         then with_cache w (<[url := resp]> (cache w))
         else w,
         [Get url])
    end.

(** [download_file(filename, path)], the text of [downloader.py] over
    the cached [requests.get]. *)
Definition download_file (filename : json) (path : string) : M json :=
  let* quoted := quote filename in
  let url := (FILE_URL ++ quoted)%string in
  print (MsgDownloading url) ;;
  let* resp := requests_get url in
  if negb (status_code resp =? 200) then
    print (MsgStatus (status_code resp) url) ;;
    ret (JBool false)
  else
    let* totalsize := py_int (content_length resp) in
    open_wb path ;;
    for_each (write path) (iter_content resp) ;;
    print (MsgSaved path) ;;
    ret JNull.

Definition KNOWN : list string :=
  ["other"; "ee-full"; "ce-full"; "ee-patch"; "ce-patch"].

Definition sync_file (category : string) (file : json) : M unit :=
  let* name := getitem file "file_name" in
  let* deep := py_in "/" name in
  if deep then
    let* name := getitem file "file_name" in
    print (MsgDeepPath name)
  else
    let* name := getitem file "file_name" in
    let* ext := rpartition_tail name "." in
    if PyStr.in_tuple ext ["zip"; "bz2"] then ret tt
    else
      let* name := getitem file "file_name" in
      let* target := str_add (category ++ "/")%string name in
      let* md5 := getitem file "md5" in
      let* same := verify_md5sum target md5 in
      (if negb same then
         let* name := getitem file "file_name" in
         download_file name target ;;
         ret tt
       else ret tt) ;;
      print (MsgTarget target).

Definition sync_category (item : string * json) : M unit :=
  let '(category, files) := item in
  if negb (PyStr.in_tuple category KNOWN) then
    raise (AssertionError ("unknown category: " ++ category)%string)
  else
    let* there := path_exists category in
    (if negb there then mkdir category else ret tt) ;;
    let* files := flatten files in
    let* entries := iter files in
    for_each (sync_file category) entries ;;
    let* n := len files in
    print (MsgCategory category n).

Definition sync_everything (all_files : dict) : M unit :=
  for_each sync_category all_files.

End Sync.

(** ** [main] of the two scripts

    [resp.json()] and [json.dumps] belong to the JSON codec of the
    standard library, which is taken as a parameter. *)

Definition INFO_URL : string :=
  "https://www.magentocommerce.com/products/downloads/info/json".

(** [all_files.items()]: only a dict has the method. *)
Definition items (v : json) : M dict :=
  match v with
  | JObj d => ret d
  | _ => raise AttributeError
  end.

(** [with open(p, 'w') as fh: fh.write(text)], the text encoded as
    UTF-8. *)
Definition write_text (p text : string) : M unit :=
  open_wb p ;;
  write p (bytes_of text).

Section WithJson.

(** [json.loads] on the body of a response; [None] is its [ValueError]. *)
Variable json_loads : list byte -> option json.

(** [json.dumps(blob, indent=2, sort_keys=True)]. *)
Variable json_dumps : json -> string.

(** [resp.json()]. *)
Definition response_json (resp : response) : M json :=
  match json_loads (body resp) with
  | Some v => ret v
  | None => raise ValueError
  end.

(** [main()] of [downloader.py]. *)
Definition downloader_main (DOWNLOAD_PATH : string) : M unit :=
  let* there := path_exists DOWNLOAD_PATH in
  (if negb there then mkdir DOWNLOAD_PATH else ret tt) ;;
  let* resp := requests_get INFO_URL in
  let* blob := response_json resp in
  write_text "info.json" (json_dumps blob) ;;
  let* all_files := items blob in
  Downloader.sync_everything DOWNLOAD_PATH all_files.

(** [main()] of [sync.py]. *)
Definition sync_main : M unit :=
  let* resp := Sync.requests_get INFO_URL in
  let* blob := response_json resp in
  let* all_files := items blob in
  Sync.sync_everything all_files.

End WithJson.

(** * Vocabulary of the properties *)

(** One of [0-9a-f]. *)
Definition is_lower_hex (a : ascii) : bool :=
  let n := N_of_ascii a in
  ((48 <=? n) && (n <=? 57) || (97 <=? n) && (n <=? 102))%N.

(** Every character of [s] is a lower-case hex digit. *)
Fixpoint lower_hex (s : string) : bool :=
  match s with
  | EmptyString => true
  | String a s' => is_lower_hex a && lower_hex s'
  end.

(** The extension the scripts test: [file_name.rpartition('.')[2]]. *)
Definition ext (name : string) : string := snd (PyStr.rpartition "." name).

(** [category_path + '/' + file_name]. *)
Definition target_of (category_path name : string) : string :=
  ((category_path ++ "/") ++ name)%string.

(** The URL [download_file] requests for a file name. *)
Definition url_of (name : string) : string :=
  (FILE_URL ++ PyStr.quote name)%string.

(** The entry is one the scripts sync: no ['/'] in its name, and an
    extension other than [zip] and [bz2]. *)
Definition eligible (name : string) : bool :=
  negb (PyStr.contains_char "/" name)
  && negb (PyStr.in_tuple (ext name) ["zip"; "bz2"]).

(** The URLs requested in a trace, in order. *)
Fixpoint requests (t : list event) : list string :=
  match t with
  | [] => []
  | Get url :: t' => url :: requests t'
  | Print _ :: t' => requests t'
  end.

(** [keeps R T m]: from every world, [m] ends in a world related to it by
    [R] with a trace in [T].  With [R] a preorder and [T] closed under
    concatenation this passes through [bind] and loops. *)
Definition keeps (R : world -> world -> Prop) (T : list event -> Prop)
    {A} (m : M A) : Prop :=
  forall w, R w (final (m w)) /\ T (trace (m w)).

(** No request is sent. *)
Definition offline (t : list event) : Prop := requests t = [].

(** The world is left as it was. *)
Definition same_world (w w' : world) : Prop := w' = w.

(** Nothing changes but what is at [path]. *)
Definition only_at (path : string) (w w' : world) : Prop :=
  remote w' = remote w /\ forall p, p <> path -> fs w' !! p = fs w !! p.

(** [reads m]: [m] leaves the world alone and sends nothing. *)
Definition reads {A} (m : M A) : Prop := keeps same_world offline m.

(** [writes_at path m]: [m] changes at most [path] and sends nothing. *)
Definition writes_at (path : string) {A} (m : M A) : Prop :=
  keeps (only_at path) offline m.

(** What [download_file] does with the response it got. *)
Definition after_get (resp : response) (url path : string) : M json :=
  if negb (status_code resp =? 200) then
    print (MsgStatus (status_code resp) url) ;;
    ret (JBool false)
  else
    let* totalsize := py_int (content_length resp) in
    open_wb path ;;
    for_each (write path) (iter_content resp) ;;
    print (MsgSaved path) ;;
    ret JNull.

Definition recognized (item : string * json) : bool :=
  PyStr.in_tuple (fst item) Downloader.CATEGORIES.

(** [skips_removed t t']: [t'] is [t] without some of its lines
    [unknown category: c, skipping...] for categories [c] outside
    [CATEGORIES]. *)
Inductive skips_removed : list event -> list event -> Prop :=
| sr_nil : skips_removed [] []
| sr_keep e t t' : skips_removed t t' -> skips_removed (e :: t) (e :: t')
| sr_skip c t t' :
    PyStr.in_tuple c Downloader.CATEGORIES = false ->
    skips_removed t t' ->
    skips_removed (Print (MsgUnknownCategory c) :: t) t'.

(** [touches path m]: [m] changes nothing but what is at [path]. *)
Definition touches (path : string) {A} (m : M A) : Prop :=
  keeps (only_at path) (fun _ => True) m.

(** A grouped category value: a dict from grouping keys to entry lists. *)
Definition grouped (groups : list (string * list json)) : dict :=
  map (fun g => (fst g, JArr (snd g))) groups.

(** A server that answers every request with status 200, a body, and no
    [content-length] header. *)
Definition no_length_server (url : string) : response :=
  mkResponse 200 None (bytes_of "x").

Definition entry (name md5 : string) : json :=
  JObj [("file_name", JStr name); ("md5", JStr md5)].

(** Two files in one category, neither of them on disk. *)
Definition two_files : dict :=
  [("ce-full", JArr [entry "a.bin" "9dd4e461268c8034f5c8564e155c67a6";
                     entry "b.bin" "9dd4e461268c8034f5c8564e155c67a6"])].

Definition empty_root : gmap string node :=
  {[ "/srv" := Dir; "/srv/downloaded" := Dir ]}.

(** One file whose entry has no [md5] key, already on disk. *)
Definition no_md5_key : dict :=
  [("ce-full", JArr [JObj [("file_name", JStr "a.bin")]])].

Definition a_bin_on_disk : gmap string node :=
  {[ "/srv" := Dir; "/srv/downloaded" := Dir;
     "/srv/downloaded/ce-full" := Dir;
     "/srv/downloaded/ce-full/a.bin" := File true true (bytes_of "x") ]}.

(** The same file, which may not be read. *)
Definition locked_a_bin : gmap string node :=
  {[ "/srv" := Dir; "/srv/downloaded" := Dir;
     "/srv/downloaded/ce-full" := Dir;
     "/srv/downloaded/ce-full/a.bin" := File false true (bytes_of "x") ]}.

(** What exists at a path but cannot be opened for reading. *)
Definition unreadable (n : node) : Prop :=
  match n with
  | Dir => True
  | File readable _ _ => readable = false
  end.

(** [x] is in the set that the index holds for version [v]. *)
Definition has (v2p : gmap string pyset) (v : string) (x : json) : Prop :=
  exists s, v2p !! v = Some s /\ set_mem x s = true.

(** Nothing is ever taken out of the index. *)
Definition grows (a b : gmap string pyset) : Prop :=
  forall v x, has a v x -> has b v x.

(** A classified catalog as the scripts receive it: every category holds
    a list of entries. *)
Definition catalog_of (classified : list (string * list json)) : dict :=
  map (fun ce => (fst ce, JArr (snd ce))) classified.

Definition patch_category (c : string) : bool := PyStr.endswith c "-patch".

(** The version lines of a trace, in order. *)
Fixpoint versions_printed (t : list event) : list string :=
  match t with
  | [] => []
  | Print (MsgVersion v) :: t' => v :: versions_printed t'
  | _ :: t' => versions_printed t'
  end.

(** An entry of a patch category the indexer can process: a dict with a
    hashable [file_name] whose version fields, where present, are lists. *)
Definition wf_versions (d : dict) (key : string) : bool :=
  match dict_get d key with
  | None | Some (JArr _) => true
  | _ => false
  end.

Definition wf_patch (e : json) : bool :=
  match e with
  | JObj d =>
      match dict_get d "file_name" with
      | Some name => hashable name
      | None => false
      end
      && wf_versions d "ee_versions" && wf_versions d "ce_versions"
  | _ => false
  end.

Definition wf_classified (classified : list (string * list json)) : bool :=
  forallb (fun ce => negb (patch_category (fst ce)) || forallb wf_patch (snd ce))
          classified.

(** The two patch entries of the example. *)
Definition patch_example : list (string * list json) :=
  [("ee-patch",
    [JObj [("file_name", JStr "p1"); ("ee_versions", JArr [JStr "1.14.0"])];
     JObj [("file_name", JStr "p2"); ("ee_versions", JArr [JStr "1.14.0"]);
           ("ce_versions", JArr [JStr "1.9.0"])]])].

(** [returns m a]: from every world [m] ends with [a], leaves the world
    as it was and prints nothing. *)
Definition returns {A} (m : M A) (a : A) : Prop :=
  forall w, m w = (Ok a, w, []).

(** The version list of an entry, empty when the key is missing. *)
Definition versions_of (d : dict) (key : string) : list json :=
  match dict_get d key with
  | Some (JArr vs) => vs
  | _ => []
  end.

(** A server that answers every request with status 200, a length and a
    one-byte body. *)
Definition ok_server (url : string) : response :=
  mkResponse 200 (Some "1") (bytes_of "x").

(** A server that knows no file. *)
Definition not_found_server (url : string) : response :=
  mkResponse 404 None [].

Definition ce_full : string := "/srv/downloaded/ce-full".

Definition a_bin : dict :=
  [("file_name", JStr "a.bin"); ("md5", JStr "9dd4e461268c8034f5c8564e155c67a6")].

(** The category directory exists and is empty. *)
Definition empty_category : gmap string node :=
  {[ "/srv" := Dir; "/srv/downloaded" := Dir; "/srv/downloaded/ce-full" := Dir ]}.

Definition evil : dict :=
  [("file_name", JStr "sub/dir/evil.bin"); ("md5", JStr "")].

Definition bundle : dict :=
  [("file_name", JStr "bundle.zip"); ("md5", JStr "")].

(** An entry whose digest is the empty string. *)
Definition a_bin_no_digest : dict :=
  [("file_name", JStr "a.bin"); ("md5", JStr "")].

(** The working directory of [sync.py], empty. *)
Definition empty_cwd : gmap string node := {[ "" := Dir ]}.

(** The working directory with the directory of ['other'] in it. *)
Definition other_in_cwd : gmap string node := {[ "" := Dir; "other" := Dir ]}.

(** The category directory with a stale copy of [a.bin]. *)
Definition stale_a_bin : gmap string node :=
  {[ "/srv" := Dir; "/srv/downloaded" := Dir;
     "/srv/downloaded/ce-full" := Dir;
     "/srv/downloaded/ce-full/a.bin" := File true true (bytes_of "y") ]}.

(** A catalog with a key the scripts do not know, the feed's fifth
    category, and a recognized one. *)
Definition mixed_catalog : dict :=
  [("legacy", JArr [JObj a_bin]); ("other", JArr [JObj a_bin]);
   ("ce-full", JArr [JObj a_bin])].

(** A [format] that is the identity on strings. *)
Definition format_str (x : json) : string :=
  match x with
  | JStr s => s
  | _ => ""
  end.

(** A path the calls accept whose last component is an ordinary name:
    no NUL byte, shorter than [PATH_MAX], the name not empty, not [.] or
    [..], and no longer than [NAME_MAX]. *)
Definition ordinary (p : string) : bool :=
  match refused p with
  | Some _ => false
  | None => negb (is_special (basename p)) && negb (name_too_long p)
  end.

(** [open(path, 'wb')] would succeed: an ordinary path to a file that
    may be written, or to a free name in a directory. *)
Definition writable_target (f : gmap string node) (path : string) : bool :=
  ordinary path
  && match f !! path with
     | Some (File _ wr _) => wr
     | Some Dir => false
     | None =>
         match dir_of f (parent path) with
         | Some Dir => true
         | _ => false
         end
     end.

(** The read permission of the file at [path] once it has been written:
    kept when the file was there, granted when it is new. *)
Definition readable_after (f : gmap string node) (path : string) : bool :=
  match f !! path with
  | Some (File r _ _) => r
  | _ => true
  end.

(** The header lets [int(...)] return. *)
Definition length_ok (resp : response) : bool :=
  match content_length resp with
  | Some s => match PyInt.parse s with Some _ => true | None => false end
  | None => false
  end.

(** The entry is an eligible one named [name]. *)
Definition names_eligible (file : json) (name : string) : Prop :=
  exists d,
    file = JObj d
    /\ dict_get d "file_name" = Some (JStr name)
    /\ eligible name = true.

(** A trace without its [md5 mismatch ..., redownloading!] lines. *)
Fixpoint without_redownload (t : list event) : list event :=
  match t with
  | [] => []
  | Print (MsgRedownload _) :: t' => without_redownload t'
  | e :: t' => e :: without_redownload t'
  end.

(** The same kind of node with the same permissions. *)
Definition same_kind (n n' : node) : Prop :=
  match n, n' with
  | Dir, Dir => True
  | File r wr _, File r' wr' _ => r = r' /\ wr = wr'
  | _, _ => False
  end.

(** Every path of [w] is still there in [w'], as the same kind of node,
    and the server is the same. *)
Definition persists (w w' : world) : Prop :=
  remote w' = remote w
  /\ forall p n, fs w !! p = Some n ->
       exists n', fs w' !! p = Some n' /\ same_kind n n'.

(** [stays m]: whatever [m] does, nothing that was there is lost. *)
Definition stays {A} (m : M A) : Prop := keeps persists (fun _ => True) m.

(** [iter(v)] does not raise. *)
Definition iterable (v : json) : bool :=
  match v with
  | JArr _ | JStr _ | JObj _ => true
  | _ => false
  end.

(** The value of a category cannot be walked as a list of entries:
    it is not iterable, or it is a dict with a group that is not. *)
Definition bad_shape (files : json) : bool :=
  match files with
  | JObj d => existsb (fun v => negb (iterable v)) (values d)
  | v => negb (iterable v)
  end.

(** The pair of a version key and a name comes from a patch entry of the
    catalog: the entry has that [file_name] and lists a version that
    formats to the key. *)
Definition origin (py_format : json -> string)
    (classified : list (string * list json)) (k : string) (x : json) : Prop :=
  exists c es d y,
    In (c, es) classified
    /\ patch_category c = true
    /\ In (JObj d) es
    /\ dict_get d "file_name" = Some x
    /\ ((In y (versions_of d "ee_versions") /\ k = ("EE " ++ py_format y)%string)
        \/ (In y (versions_of d "ce_versions") /\ k = ("CE " ++ py_format y)%string)).

(** Every name in every set of the index has an origin. *)
Definition justified (py_format : json -> string)
    (classified : list (string * list json)) (v2p : gmap string (list json)) : Prop :=
  forall k s x, v2p !! k = Some s -> In x s -> origin py_format classified k x.

(** The world once [main] of [downloader.py] has written its snapshot
    of the catalog. *)
Definition with_snapshot (w : world) (text : string) : world :=
  with_fs w (<["info.json" :=
                 File (readable_after (fs w) "info.json") true (bytes_of text)]> (fs w)).

Definition a_bin_path : string := "/srv/downloaded/ce-full/a.bin".

(** A catalog response whose body always parses to the same catalog. *)
Definition loads_two_files (body : list byte) : option json :=
  Some (JObj two_files).

Definition loads_nothing (body : list byte) : option json := None.

Definition dumps_braces (v : json) : string := "{}".

(** A download root, a working directory, and nothing else. *)
Definition fresh_root : gmap string node :=
  {[ "" := Dir; "/srv" := Dir; "/srv/downloaded" := Dir ]}.

(** The world once [requests_cache] has seen the server's answer to a
    request for [url]: an answer with status 200 is in the cache. *)
Definition remember (w : world) (url : string) : world :=
  if status_code (remote w url) =? 200
  then with_cache w (<[url := remote w url]> (cache w))
  else w.

(** [blind m]: [m] neither reads the cache nor changes it. *)
Definition blind {A} (m : M A) : Prop :=
  forall w c,
    m (with_cache w c) = (outcome (m w), with_cache (final (m w)) c, trace (m w)).

(** * Properties *)

(** ** The building blocks on known inputs *)

Example md5_empty : MD5.hexdigest [] = "d41d8cd98f00b204e9800998ecf8427e".
Proof. vm_compute. reflexivity. Qed.

Example md5_abc : MD5.hexdigest (bytes_of "abc") = "900150983cd24fb0d6963f7d28e17f72".
Proof. vm_compute. reflexivity. Qed.

Example md5_x : MD5.hexdigest (bytes_of "x") = "9dd4e461268c8034f5c8564e155c67a6".
Proof. vm_compute. reflexivity. Qed.

Example md5_55 : MD5.hexdigest (repeat "a"%byte 55) = "ef1772b6dff9a122358552954ad0df65".
Proof. vm_compute. reflexivity. Qed.

Example md5_56 : MD5.hexdigest (repeat "a"%byte 56) = "3b0c8ac703f828b04c6c197006d17218".
Proof. vm_compute. reflexivity. Qed.

Example md5_120 : MD5.hexdigest (repeat "a"%byte 120) = "5f61c0ccad4cac44c75ff505e1f1e537".
Proof. vm_compute. reflexivity. Qed.

Example quote_ex : PyStr.quote "a b/c~d.e-f_g%" = "a%20b/c~d.e-f_g%25".
Proof. vm_compute. reflexivity. Qed.

Example rpartition_ex1 : PyStr.rpartition "." "a.tar.gz" = ("a.tar", ".", "gz").
Proof. reflexivity. Qed.

Example rpartition_ex2 : PyStr.rpartition "." "zip" = ("", "", "zip").
Proof. reflexivity. Qed.

Example py_int_ex1 : PyInt.parse " 1_000 " = Some 1000.
Proof. reflexivity. Qed.
Example py_int_ex2 : PyInt.parse "12_" = None.
Proof. reflexivity. Qed.
Example py_int_ex3 : PyInt.parse "-42" = Some (-42).
Proof. reflexivity. Qed.

(** [int] strips the white space of Unicode (here U+00A0 before and
    U+0085 after), but not the separators U+001C to U+001F. *)
Example py_int_ex4 :
  PyInt.parse (String "194" (String "160" "12" ++ String "194" (String "133" "")))
  = Some 12.
Proof. vm_compute. reflexivity. Qed.
Example py_int_ex5 : PyInt.parse (String "028" "12") = None.
Proof. vm_compute. reflexivity. Qed.

(** The digits of any script count: U+0663 U+0661 is 31. *)
Example py_int_ex6 :
  PyInt.parse (String "217" (String "163" (String "217" (String "161" "")))) = Some 31.
Proof. vm_compute. reflexivity. Qed.

(** 4300 digits are read, 4301 are refused, leading zeros included. *)
Example py_int_ex7 :
  PyInt.parse (string_of_list_ascii (repeat "1"%char 4300)) <> None
  /\ PyInt.parse (string_of_list_ascii (repeat "1"%char 4301)) = None
  /\ PyInt.parse (string_of_list_ascii (repeat "0"%char 4301)) = None.
Proof. vm_compute. repeat split. discriminate. Qed.

Example chars_ex : chars "a.b" = ["a"; "."; "b"].
Proof. reflexivity. Qed.

(** A directory answers under its name followed by ['/'], ['/.'] and
    ['/..'] as well; a regular file does not, and [''] names nothing. *)
Example node_at_ex :
  node_at a_bin_on_disk "/srv/downloaded/ce-full" = Some Dir
  /\ node_at a_bin_on_disk "/srv/downloaded/ce-full/" = Some Dir
  /\ node_at a_bin_on_disk "/srv/downloaded/ce-full/." = Some Dir
  /\ node_at a_bin_on_disk "/srv/downloaded/ce-full/.." = Some Dir
  /\ node_at a_bin_on_disk "/srv/downloaded/ce-full/a.bin/" = None
  /\ node_at a_bin_on_disk "" = None.
Proof. vm_compute. repeat split. Qed.

(** What [open(path, 'wb')] refuses. *)
Example open_wb_ex :
  let w := mkWorld a_bin_on_disk ok_server in
  outcome (open_wb (String "000" "") w) = Raise ValueError
  /\ outcome (open_wb "" w) = Raise FileNotFoundError
  /\ outcome (open_wb "/srv/downloaded/ce-full/" w) = Raise IsADirectoryError
  /\ outcome (open_wb "/srv/downloaded/ce-full/." w) = Raise IsADirectoryError
  /\ outcome (open_wb "/srv/downloaded/ce-full/.." w) = Raise IsADirectoryError
  /\ outcome (open_wb "/srv/downloaded/ce-full/a.bin/b" w) = Raise NotADirectoryError
  /\ outcome (open_wb "/srv/downloaded/none/b" w) = Raise FileNotFoundError
  /\ outcome (open_wb ("/srv/downloaded/ce-full/"
                       ++ string_of_list_ascii (repeat "a"%char 256)) w)
     = Raise OSError
  /\ outcome (open_wb ("/srv/downloaded/ce-full/"
                       ++ string_of_list_ascii (repeat "a"%char 255)) w)
     = Ok tt.
Proof. vm_compute. repeat split. Qed.

(** ** The digest is 32 lower-case hex digits *)

Lemma lower_hex_app s t : lower_hex (s ++ t)%string = lower_hex s && lower_hex t.
Proof.
  induction s as [|a s IH]; simpl; [reflexivity|].
  rewrite IH. apply andb_assoc.
Qed.

Lemma length_app_string s t :
  String.length (s ++ t)%string = (String.length s + String.length t)%nat.
Proof.
  induction s as [|a s IH]; [reflexivity|].
  simpl. f_equal. exact IH.
Qed.

Lemma hex_lower_ok n : 0 <= n < 16 -> is_lower_hex (MD5.hex_lower n) = true.
Proof.
  intros Hn.
  assert (Hall : forallb (fun k => is_lower_hex (MD5.hex_lower (Z.of_nat k)))
                         (seq 0 16) = true) by reflexivity.
  rewrite forallb_forall in Hall.
  specialize (Hall (Z.to_nat n)). rewrite Z2Nat.id in Hall by lia.
  apply Hall, in_seq. lia.
Qed.

Lemma hex_byte_ok b :
  lower_hex (MD5.hex_byte b) = true /\ String.length (MD5.hex_byte b) = 2%nat.
Proof.
  split; [|reflexivity].
  unfold MD5.hex_byte. cbn [lower_hex].
  rewrite !hex_lower_ok by (apply Z.mod_pos_bound; lia).
  reflexivity.
Qed.

Lemma hex_word_ok w :
  lower_hex (MD5.hex_word w) = true /\ String.length (MD5.hex_word w) = 8%nat.
Proof.
  unfold MD5.hex_word. cbn [MD5.bytes_le fold_right].
  rewrite !lower_hex_app, !length_app_string.
  split.
  - rewrite !(proj1 (hex_byte_ok _)). reflexivity.
  - rewrite !(proj2 (hex_byte_ok _)). reflexivity.
Qed.

Lemma hexdigest_ok data :
  lower_hex (MD5.hexdigest data) = true
  /\ String.length (MD5.hexdigest data) = 32%nat.
Proof.
  unfold MD5.hexdigest.
  destruct (MD5.digest_words data) as [[[a b] c] d].
  rewrite !lower_hex_app, !length_app_string.
  split.
  - rewrite !(proj1 (hex_word_ok _)). reflexivity.
  - rewrite !(proj2 (hex_word_ok _)). reflexivity.
Qed.

(** ** Running computations *)

Lemma bind_ok {A B} (m : M A) (k : A -> M B) w a w1 t1 :
  m w = (Ok a, w1, t1) ->
  bind m k w = (outcome (k a w1), final (k a w1), t1 ++ trace (k a w1)).
Proof.
  intros H. unfold bind. rewrite H.
  destruct (k a w1) as [[r w2] t2]. reflexivity.
Qed.

Lemma bind_raise {A B} (m : M A) (k : A -> M B) w e w1 t1 :
  m w = (Raise e, w1, t1) -> bind m k w = (Raise e, w1, t1).
Proof. intros H. unfold bind. rewrite H. reflexivity. Qed.

Lemma bind_ok_nil {A B} (m : M A) (k : A -> M B) w a w1 :
  m w = (Ok a, w1, []) -> bind m k w = k a w1.
Proof.
  intros H. unfold bind. rewrite H. destruct (k a w1) as [[r w2] t2]. reflexivity.
Qed.

Lemma bind_ext {A B} (m : M A) (k k' : A -> M B) w :
  (forall a w1, k a w1 = k' a w1) -> bind m k w = bind m k' w.
Proof.
  intros H. unfold bind. destruct (m w) as [[[a|e] w1] t1]; [|reflexivity].
  rewrite H. reflexivity.
Qed.

Lemma bind_ret_l {A B} (a : A) (k : A -> M B) w : bind (ret a) k w = k a w.
Proof. unfold bind, ret. destruct (k a w) as [[r w2] t2]. reflexivity. Qed.

Lemma run_eta {A} (r : result A * world * list event) :
  r = (outcome r, final r, trace r).
Proof. destruct r as [[? ?] ?]. reflexivity. Qed.

Lemma str_eq_true s v : str_eq s v = true <-> v = JStr s.
Proof.
  destruct v; simpl; try (split; [discriminate | intros [=]]).
  rewrite String.eqb_eq. split; [intros ->; reflexivity | intros [= ->]; reflexivity].
Qed.

(** ** Paths *)

(** At an ordinary path the calls look up the spelling itself. *)
Lemma node_at_ordinary f p : ordinary p = true -> node_at f p = f !! p.
Proof.
  unfold ordinary, node_at, bound_at. destruct (refused p); [discriminate|].
  intros [Hs Hl]%andb_true_iff.
  apply negb_true_iff in Hs, Hl. rewrite Hs, Hl. reflexivity.
Qed.

(** Only an ordinary path leads to a regular file. *)
Lemma node_at_file f p r wr data :
  node_at f p = Some (File r wr data) ->
  ordinary p = true /\ f !! p = Some (File r wr data).
Proof.
  unfold ordinary, node_at, bound_at. destruct (refused p); [discriminate|].
  destruct (is_special (basename p)).
  - destruct (name_too_long (core_of p)); [discriminate|].
    destruct (f !! core_of p) as [[]|]; discriminate.
  - destruct (name_too_long p); [discriminate|]. auto.
Qed.

Lemma path_exists_some p w n :
  node_at (fs w) p = Some n -> path_exists p w = (Ok true, w, []).
Proof.
  intros H. unfold path_exists.
  rewrite bool_decide_eq_true_2; [reflexivity | rewrite H; eauto].
Qed.

Lemma path_exists_none p w :
  node_at (fs w) p = None -> path_exists p w = (Ok false, w, []).
Proof.
  intros H. unfold path_exists.
  rewrite bool_decide_eq_false_2; [reflexivity | rewrite H; apply is_Some_None].
Qed.

(** ** [verify_md5sum] *)

Lemma verify_missing path want w :
  node_at (fs w) path = None ->
  verify_md5sum path want w = (Ok false, w, [Print (MsgNotExist path)]).
Proof.
  intros H. unfold verify_md5sum.
  rewrite (bind_ok _ _ _ _ _ _ (path_exists_none _ _ H)). reflexivity.
Qed.

Lemma verify_no_digest path want w n :
  node_at (fs w) path = Some n -> truthy want = false ->
  verify_md5sum path want w = (Ok true, w, []).
Proof.
  intros H Hw. unfold verify_md5sum.
  rewrite (bind_ok _ _ _ _ _ _ (path_exists_some _ _ _ H)).
  cbn [negb]. rewrite Hw. reflexivity.
Qed.

Lemma verify_readable path want w wr data :
  node_at (fs w) path = Some (File true wr data) -> truthy want = true ->
  verify_md5sum path want w =
    (Ok (str_eq (MD5.hexdigest data) want), w,
     if str_eq (MD5.hexdigest data) want then []
     else [Print (MsgChecksum path (MD5.hexdigest data))]).
Proof.
  intros H Hw. unfold verify_md5sum.
  rewrite (bind_ok _ _ _ _ _ _ (path_exists_some _ _ _ H)).
  cbn [negb]. rewrite Hw. cbn [negb].
  assert (Hr : read_file path w = (Ok data, w, [])).
  { unfold read_file. rewrite H. reflexivity. }
  rewrite (bind_ok _ _ _ _ _ _ Hr).
  destruct (str_eq (MD5.hexdigest data) want); reflexivity.
Qed.

(** With a digest to check, what exists but cannot be read makes [open]
    raise, and nothing catches it. *)
Lemma verify_unreadable path want w n :
  node_at (fs w) path = Some n ->
  unreadable n ->
  truthy want = true ->
  verify_md5sum path want w
    = (Raise (match n with
              | Dir => IsADirectoryError
              | File _ _ _ => PermissionError
              end), w, []).
Proof.
  intros Hfs Hn Hw. unfold verify_md5sum.
  rewrite (bind_ok _ _ _ _ _ _ (path_exists_some _ _ _ Hfs)).
  cbn [negb]. rewrite Hw. cbn [negb].
  unfold bind, read_file. rewrite Hfs.
  destruct n as [r wr data|]; [|reflexivity].
  simpl in Hn. subst r. reflexivity.
Qed.

(** The claim C1 fails on a file that holds the expected content but
    may not be read: the digests are equal, and [verify_md5sum] raises
    [PermissionError] instead of returning [True]. *)
Lemma C1_counterexample :
  let w := mkWorld locked_a_bin ok_server in
  node_at (fs w) a_bin_path = Some (File false true (bytes_of "x"))
  /\ MD5.hexdigest (bytes_of "x") = "9dd4e461268c8034f5c8564e155c67a6"
  /\ verify_md5sum a_bin_path (JStr "9dd4e461268c8034f5c8564e155c67a6") w
     = (Raise PermissionError, w, []).
Proof. vm_compute. repeat split. Qed.

(** C1, amended. [verify_md5sum(path, want_md5)] is [False] when nothing
    exists at [path]; [True] when something exists there and [want_md5]
    is [None] or empty; for a file that can be read and a digest to
    check, [True] exactly when [want_md5] is the string
    [hashlib.md5(data).hexdigest()] of the file's content, which is 32
    lower-case hex digits, a mismatch printing one line and raising
    nothing; and for a directory or a file that may not be read, with a
    digest to check, the exception of [open] leaves [verify_md5sum].  The
    file system is never changed. *)
Theorem C1_verify_md5sum (path : string) (want : json) (w : world) :
  (node_at (fs w) path = None ->
     verify_md5sum path want w = (Ok false, w, [Print (MsgNotExist path)]))
  /\ (is_Some (node_at (fs w) path) -> truthy want = false ->
        verify_md5sum path want w = (Ok true, w, []))
  /\ (forall wr data,
        node_at (fs w) path = Some (File true wr data) -> truthy want = true ->
        exists same : bool,
          verify_md5sum path want w =
            (Ok same, w,
             if same then []
             else [Print (MsgChecksum path (MD5.hexdigest data))])
          /\ (same = true <-> want = JStr (MD5.hexdigest data))
          /\ lower_hex (MD5.hexdigest data) = true
          /\ String.length (MD5.hexdigest data) = 32%nat)
  /\ (forall n,
        node_at (fs w) path = Some n -> unreadable n -> truthy want = true ->
        verify_md5sum path want w
          = (Raise (match n with
                    | Dir => IsADirectoryError
                    | File _ _ _ => PermissionError
                    end), w, [])).
Proof.
  split; [apply verify_missing|].
  split; [|split].
  - intros [n Hn]. eauto using verify_no_digest.
  - intros wr data Hf Hw.
    exists (str_eq (MD5.hexdigest data) want).
    split; [eauto using verify_readable|].
    split; [apply str_eq_true|apply hexdigest_ok].
  - intros n. apply verify_unreadable.
Qed.

(** ** One catalog entry *)

Lemma requests_app t1 t2 : requests (t1 ++ t2) = requests t1 ++ requests t2.
Proof.
  induction t1 as [|[m|u] t1 IH]; simpl; [reflexivity|exact IH|].
  f_equal. exact IH.
Qed.

Lemma eligible_inv name :
  eligible name = true ->
  PyStr.contains_char "/" name = false
  /\ PyStr.in_tuple (ext name) ["zip"; "bz2"] = false.
Proof.
  unfold eligible. rewrite andb_true_iff, !negb_true_iff. tauto.
Qed.

(** What is left of the loop body of [downloader.py] for an entry that
    passes both checks. *)
Lemma sync_file_eligible cp d name md5 w :
  dict_get d "file_name" = Some (JStr name) ->
  dict_get d "md5" = Some md5 ->
  eligible name = true ->
  Downloader.sync_file cp (JObj d) w =
    (let* same := verify_md5sum (target_of cp name) md5 in
     (if negb same then
        print (MsgRedownload (JStr name)) ;;
        download_file (JStr name) (target_of cp name) ;;
        ret tt
      else ret tt) ;;
     print (MsgTarget (target_of cp name))) w.
Proof.
  intros Hn Hm [Hs He]%eligible_inv.
  unfold Downloader.sync_file, getitem. rewrite Hn, Hm.
  rewrite bind_ret_l. unfold py_in. rewrite bind_ret_l, Hs.
  rewrite bind_ret_l. unfold rpartition_tail. rewrite bind_ret_l.
  fold (ext name). rewrite He.
  rewrite bind_ret_l. unfold str_add. rewrite bind_ret_l.
  fold (target_of cp name). rewrite bind_ret_l.
  unfold bind.
  destruct (verify_md5sum (target_of cp name) md5 w) as [[[[|]|e] w1] t1];
    try reflexivity.
  cbv beta iota delta [negb ret print].
  destruct (download_file (JStr name) (target_of cp name) w1) as [[[j|e] w2] t2];
    cbv beta iota; rewrite ?app_nil_r; reflexivity.
Qed.

(** The same for [sync.py], which prints no line before downloading. *)
Lemma sync_py_file_eligible c d name md5 w :
  dict_get d "file_name" = Some (JStr name) ->
  dict_get d "md5" = Some md5 ->
  eligible name = true ->
  Sync.sync_file c (JObj d) w =
    (let* same := verify_md5sum (target_of c name) md5 in
     (if negb same then
        Sync.download_file (JStr name) (target_of c name) ;;
        ret tt
      else ret tt) ;;
     print (MsgTarget (target_of c name))) w.
Proof.
  intros Hn Hm [Hs He]%eligible_inv.
  unfold Sync.sync_file, getitem. rewrite Hn, Hm.
  rewrite bind_ret_l. unfold py_in. rewrite bind_ret_l, Hs.
  rewrite bind_ret_l. unfold rpartition_tail. rewrite bind_ret_l.
  fold (ext name). rewrite He.
  rewrite bind_ret_l. unfold str_add. rewrite bind_ret_l.
  fold (target_of c name). rewrite bind_ret_l.
  unfold bind.
  destruct (verify_md5sum (target_of c name) md5 w) as [[[[|]|e] w1] t1];
    try reflexivity.
  cbv beta iota delta [negb ret print].
  destruct (Sync.download_file (JStr name) (target_of c name) w1) as [[[j|e] w2] t2];
    cbv beta iota; rewrite ?app_nil_r; reflexivity.
Qed.

(** An entry whose name has a ['/'] in it: one line, nothing else. *)
Lemma sync_file_deep cp d name w :
  dict_get d "file_name" = Some (JStr name) ->
  PyStr.contains_char "/" name = true ->
  Downloader.sync_file cp (JObj d) w = (Ok tt, w, [Print (MsgDeepPath (JStr name))]).
Proof.
  intros Hn Hs. unfold Downloader.sync_file, getitem. rewrite Hn.
  rewrite bind_ret_l. unfold py_in. rewrite bind_ret_l, Hs.
  rewrite bind_ret_l. reflexivity.
Qed.

(** An entry with an excluded extension: nothing at all. *)
Lemma sync_file_excluded cp d name w :
  dict_get d "file_name" = Some (JStr name) ->
  PyStr.contains_char "/" name = false ->
  PyStr.in_tuple (ext name) ["zip"; "bz2"] = true ->
  Downloader.sync_file cp (JObj d) w = (Ok tt, w, []).
Proof.
  intros Hn Hs He. unfold Downloader.sync_file, getitem. rewrite Hn.
  rewrite bind_ret_l. unfold py_in. rewrite bind_ret_l, Hs.
  rewrite bind_ret_l. unfold rpartition_tail. rewrite bind_ret_l.
  fold (ext name). rewrite He. reflexivity.
Qed.

(** An eligible entry without an [md5] key: [file['md5']] raises before
    the verifier is called. *)
Lemma sync_file_no_md5 cp d name w :
  dict_get d "file_name" = Some (JStr name) ->
  eligible name = true ->
  dict_get d "md5" = None ->
  Downloader.sync_file cp (JObj d) w = (Raise (KeyError "md5"), w, []).
Proof.
  intros Hn [Hs He]%eligible_inv Hm.
  unfold Downloader.sync_file, getitem. rewrite Hn, Hm.
  rewrite bind_ret_l. unfold py_in. rewrite bind_ret_l, Hs.
  rewrite bind_ret_l. unfold rpartition_tail. rewrite bind_ret_l.
  fold (ext name). rewrite He. rewrite bind_ret_l.
  unfold str_add. rewrite bind_ret_l. reflexivity.
Qed.

Lemma sync_py_file_excluded c d name w :
  dict_get d "file_name" = Some (JStr name) ->
  PyStr.contains_char "/" name = false ->
  PyStr.in_tuple (ext name) ["zip"; "bz2"] = true ->
  Sync.sync_file c (JObj d) w = (Ok tt, w, []).
Proof.
  intros Hn Hs He. unfold Sync.sync_file, getitem. rewrite Hn.
  rewrite bind_ret_l. unfold py_in. rewrite bind_ret_l, Hs.
  rewrite bind_ret_l. unfold rpartition_tail. rewrite bind_ret_l.
  fold (ext name). rewrite He. reflexivity.
Qed.

(** ** What a computation may touch *)

Section Keeps.

Variable R : world -> world -> Prop.
Variable T : list event -> Prop.
Hypothesis R_refl : forall w, R w w.
Hypothesis R_trans : forall w1 w2 w3, R w1 w2 -> R w2 w3 -> R w1 w3.
Hypothesis T_nil : T [].
Hypothesis T_app : forall t1 t2, T t1 -> T t2 -> T (t1 ++ t2).

Lemma keeps_ret {A} (a : A) : keeps R T (ret a).
Proof. intros w. split; [apply R_refl | apply T_nil]. Qed.

Lemma keeps_raise {A} (e : exn) : keeps R T (@raise A e).
Proof. intros w. split; [apply R_refl | apply T_nil]. Qed.

Lemma keeps_bind {A B} (m : M A) (k : A -> M B) :
  keeps R T m -> (forall a, keeps R T (k a)) -> keeps R T (bind m k).
Proof.
  intros Hm Hk w. specialize (Hm w). unfold bind.
  destruct (m w) as [[[a|e] w1] t1]; [|exact Hm].
  specialize (Hk a w1). destruct (k a w1) as [[r w2] t2].
  unfold final, trace in *. simpl in *.
  destruct Hm as [Hm1 Hm2], Hk as [Hk1 Hk2]. eauto.
Qed.

Lemma keeps_for_each {A} (body : A -> M unit) (l : list A) :
  (forall x, keeps R T (body x)) -> keeps R T (for_each body l).
Proof.
  intros Hb. induction l as [|x l IH]; simpl.
  - apply keeps_ret.
  - apply keeps_bind; [apply Hb | intros _; exact IH].
Qed.

Lemma keeps_if {A} (b : bool) (m1 m2 : M A) :
  keeps R T m1 -> keeps R T m2 -> keeps R T (if b then m1 else m2).
Proof. destruct b; auto. Qed.

End Keeps.

Lemma offline_nil : offline [].
Proof. reflexivity. Qed.

Lemma offline_app t1 t2 : offline t1 -> offline t2 -> offline (t1 ++ t2).
Proof. unfold offline. rewrite requests_app. intros -> ->. reflexivity. Qed.

Lemma only_at_refl path w : only_at path w w.
Proof. split; reflexivity. Qed.

Lemma only_at_trans path w1 w2 w3 :
  only_at path w1 w2 -> only_at path w2 w3 -> only_at path w1 w3.
Proof.
  intros [Hr1 Hf1] [Hr2 Hf2]. split; [congruence|].
  intros p Hp. rewrite Hf2, Hf1 by exact Hp. reflexivity.
Qed.

Lemma same_world_trans w1 w2 w3 :
  same_world w1 w2 -> same_world w2 w3 -> same_world w1 w3.
Proof. unfold same_world. congruence. Qed.

Create HintDb frame.

Lemma reads_ret {A} (a : A) : reads (ret a).
Proof. apply keeps_ret; [reflexivity | apply offline_nil]. Qed.

Lemma reads_raise {A} (e : exn) : reads (@raise A e).
Proof. apply keeps_raise; [reflexivity | apply offline_nil]. Qed.

Lemma reads_bind {A B} (m : M A) (k : A -> M B) :
  reads m -> (forall a, reads (k a)) -> reads (bind m k).
Proof. apply keeps_bind; [apply same_world_trans | apply offline_app]. Qed.

Lemma reads_if {A} (b : bool) (m1 m2 : M A) :
  reads m1 -> reads m2 -> reads (if b then m1 else m2).
Proof. apply keeps_if. Qed.

Lemma writes_at_ret path {A} (a : A) : writes_at path (ret a).
Proof. apply keeps_ret; [apply only_at_refl | apply offline_nil]. Qed.

Lemma writes_at_bind path {A B} (m : M A) (k : A -> M B) :
  writes_at path m -> (forall a, writes_at path (k a)) -> writes_at path (bind m k).
Proof. apply keeps_bind; [apply only_at_trans | apply offline_app]. Qed.

Lemma writes_at_for_each path {A} (body : A -> M unit) (l : list A) :
  (forall x, writes_at path (body x)) -> writes_at path (for_each body l).
Proof.
  apply keeps_for_each;
    [apply only_at_refl | apply only_at_trans | apply offline_nil | apply offline_app].
Qed.

Lemma reads_writes_at path {A} (m : M A) : reads m -> writes_at path m.
Proof.
  intros H w. destruct (H w) as [Hw Ht]. split; [|exact Ht].
  unfold same_world in Hw. rewrite Hw. apply only_at_refl.
Qed.

Lemma reads_print msg : reads (print msg).
Proof. intros w. split; reflexivity. Qed.

Lemma reads_path_exists p : reads (path_exists p).
Proof. intros w. split; reflexivity. Qed.

Lemma reads_read_file p : reads (read_file p).
Proof.
  intros w. unfold read_file.
  destruct (node_at (fs w) p) as [[[] ? ?|]|]; split; reflexivity.
Qed.

Lemma reads_py_int x : reads (py_int x).
Proof.
  intros w. unfold py_int.
  destruct x as [s|]; [destruct (PyInt.parse s)|]; split; reflexivity.
Qed.

#[local] Hint Resolve reads_ret reads_raise reads_bind reads_if reads_print
  reads_path_exists reads_read_file reads_py_int : frame.

Lemma reads_verify path want : reads (verify_md5sum path want).
Proof.
  unfold verify_md5sum.
  apply reads_bind; [auto with frame|].
  intros there. destruct there; cbn [negb]; [|auto with frame].
  destruct (truthy want); cbn [negb]; auto 6 with frame.
Qed.

(** ** [download_file] *)

Lemma writes_at_open_wb path : writes_at path (open_wb path).
Proof.
  intros w. unfold open_wb.
  destruct (open_wb_check (fs w) path) as [e|r];
    (split; [|reflexivity]); [apply only_at_refl|].
  split; [reflexivity|]. intros p Hp. simpl.
  rewrite lookup_insert_ne by congruence. reflexivity.
Qed.

Lemma writes_at_write path chunk : writes_at path (write path chunk).
Proof.
  intros w. unfold write.
  destruct (fs w !! path) as [[r wr data|]|];
    (split; [|reflexivity]); try apply only_at_refl.
  split; [reflexivity|]. intros p Hp. simpl.
  rewrite lookup_insert_ne by congruence. reflexivity.
Qed.

Lemma download_file_unfold name path w :
  download_file (JStr name) path w =
    (outcome (after_get (remote w (url_of name)) (url_of name) path w),
     final (after_get (remote w (url_of name)) (url_of name) path w),
     [Print (MsgDownloading (url_of name)); Get (url_of name)]
       ++ trace (after_get (remote w (url_of name)) (url_of name) path w)).
Proof.
  unfold download_file, quote. rewrite bind_ret_l. fold (url_of name).
  unfold bind at 1 2, print at 1, requests_get.
  fold (after_get (remote w (url_of name)) (url_of name) path).
  destruct (after_get _ _ _ w) as [[r w2] t2]. reflexivity.
Qed.

Lemma writes_at_after_get resp url path : writes_at path (after_get resp url path).
Proof.
  unfold after_get.
  destruct (negb (status_code resp =? 200)).
  - apply reads_writes_at. auto with frame.
  - apply writes_at_bind; [apply reads_writes_at; auto with frame|]. intros _.
    apply writes_at_bind; [apply writes_at_open_wb|]. intros _.
    apply writes_at_bind;
      [apply writes_at_for_each; intros c; apply writes_at_write|].
    intros _. apply reads_writes_at. auto with frame.
Qed.

(** Every call sends exactly one request, whatever the answer. *)
Lemma download_requests name path w :
  requests (trace (download_file (JStr name) path w)) = [url_of name].
Proof.
  rewrite download_file_unfold. unfold trace at 1. cbn [snd].
  rewrite requests_app.
  rewrite (proj2 (writes_at_after_get _ _ _ w)). reflexivity.
Qed.

(** A call changes nothing but the file it was asked to write. *)
Lemma download_only_at name path w :
  only_at path w (final (download_file (JStr name) path w)).
Proof.
  rewrite download_file_unfold. unfold final at 1. cbn [fst snd].
  apply (proj1 (writes_at_after_get _ _ _ w)).
Qed.

(** A status other than 200 is reported; nothing is written. *)
Lemma download_bad_status name path w :
  status_code (remote w (url_of name)) <> 200 ->
  download_file (JStr name) path w =
    (Ok (JBool false), w,
     [Print (MsgDownloading (url_of name)); Get (url_of name);
      Print (MsgStatus (status_code (remote w (url_of name))) (url_of name))]).
Proof.
  intros Hs. rewrite download_file_unfold. unfold after_get.
  apply Z.eqb_neq in Hs. rewrite Hs. reflexivity.
Qed.

(** Status 200 without a [content-length] header: [int(None)] raises. *)
Lemma download_no_length name path w :
  status_code (remote w (url_of name)) = 200 ->
  content_length (remote w (url_of name)) = None ->
  download_file (JStr name) path w =
    (Raise TypeError, w,
     [Print (MsgDownloading (url_of name)); Get (url_of name)]).
Proof.
  intros Hs Hl. rewrite download_file_unfold. unfold after_get.
  rewrite Hs, Hl. reflexivity.
Qed.

(** ** The fetch decision for one entry *)

Lemma verify_final path want w : final (verify_md5sum path want w) = w.
Proof. apply (proj1 (reads_verify path want w)). Qed.

Lemma verify_offline path want w :
  requests (trace (verify_md5sum path want w)) = [].
Proof. apply (proj2 (reads_verify path want w)). Qed.

Lemma verify_true_silent path want w w1 t1 :
  verify_md5sum path want w = (Ok true, w1, t1) -> w1 = w /\ t1 = [].
Proof.
  intros H. split.
  - pose proof (verify_final path want w) as Hf. rewrite H in Hf. exact Hf.
  - revert H. unfold verify_md5sum, bind, path_exists, print, ret.
    destruct (bool_decide (is_Some (node_at (fs w) path))); cbn [negb]; cbv beta iota;
      [|intros [=]].
    destruct (truthy want); cbn [negb]; cbv beta iota;
      [|intros [=]; subst; reflexivity].
    unfold read_file.
    destruct (node_at (fs w) path) as [[[] ? data|]|]; cbv beta iota;
      [|intros [=]..].
    destruct (str_eq (MD5.hexdigest data) want); cbn [negb]; cbv beta iota;
      intros [=]; subst; reflexivity.
Qed.

(** The claim C2 fails on an eligible entry without an [md5] key whose
    target does not exist: [file['md5']] raises [KeyError], the verifier
    is not called and no request is sent. *)
Lemma C2_counterexample :
  let w := mkWorld empty_category ok_server in
  let run := Downloader.sync_file ce_full (JObj [("file_name", JStr "a.bin")]) w in
  eligible "a.bin" = true
  /\ node_at (fs w) (target_of ce_full "a.bin") = None
  /\ run = (Raise (KeyError "md5"), w, [])
  /\ requests (trace run) = [].
Proof. vm_compute. repeat split. Qed.

(** C2, amended. For a sync-eligible entry with an [md5] key: when
    [verify_md5sum] on its target is [True], the entry is done without
    any request, and the world is as before; when nothing exists at the
    target, [verify_md5sum] is [False] and exactly one request is sent,
    for this entry's file.  A sync-eligible entry without an [md5] key
    raises [KeyError] before the verifier is called and sends nothing,
    whatever is at its target. *)
Theorem C2_fetch_iff_verify_fails
    (cp : string) (d : dict) (name : string) (w : world) :
  dict_get d "file_name" = Some (JStr name) ->
  eligible name = true ->
  (forall md5,
     dict_get d "md5" = Some md5 ->
     (outcome (verify_md5sum (target_of cp name) md5 w) = Ok true ->
        Downloader.sync_file cp (JObj d) w
          = (Ok tt, w, [Print (MsgTarget (target_of cp name))])
        /\ requests (trace (Downloader.sync_file cp (JObj d) w)) = [])
     /\ (node_at (fs w) (target_of cp name) = None ->
           outcome (verify_md5sum (target_of cp name) md5 w) = Ok false
           /\ requests (trace (Downloader.sync_file cp (JObj d) w)) = [url_of name]))
  /\ (dict_get d "md5" = None ->
        Downloader.sync_file cp (JObj d) w = (Raise (KeyError "md5"), w, [])
        /\ requests (trace (Downloader.sync_file cp (JObj d) w)) = []).
Proof.
  intros Hn He. split.
  - intros md5 Hm. rewrite (sync_file_eligible _ _ _ _ _ Hn Hm He). split.
    + intros Hv.
      destruct (verify_md5sum (target_of cp name) md5 w) as [[r w1] t1] eqn:Hrun.
      unfold outcome in Hv. simpl in Hv. subst r.
      destruct (verify_true_silent _ _ _ _ _ Hrun) as [-> ->].
      rewrite (bind_ok _ _ _ _ _ _ Hrun). cbn [negb].
      rewrite bind_ret_l. split; reflexivity.
    + intros Hnone. rewrite (verify_missing _ _ _ Hnone). split; [reflexivity|].
      rewrite (bind_ok _ _ _ _ _ _ (verify_missing _ _ _ Hnone)). cbn [negb].
      unfold trace at 1. cbn [snd]. rewrite requests_app. cbn [requests app].
      pose proof (download_requests name (target_of cp name) w) as Hd.
      unfold bind, print, ret.
      destruct (download_file (JStr name) (target_of cp name) w) as [[[j|e] w2] t2];
        unfold trace in *; cbn [snd] in *; cbn [app requests];
        rewrite ?requests_app, Hd; reflexivity.
  - intros Hm. rewrite (sync_file_no_md5 _ _ _ _ Hn He Hm). split; reflexivity.
Qed.

(** ** Categories outside [CATEGORIES] *)

Lemma sr_refl t : skips_removed t t.
Proof. induction t; constructor; assumption. Qed.

Lemma sr_app t1 t1' t2 t2' :
  skips_removed t1 t1' -> skips_removed t2 t2' ->
  skips_removed (t1 ++ t2) (t1' ++ t2').
Proof.
  intros H1 H2. induction H1; simpl; [assumption | |]; constructor; assumption.
Qed.

Lemma sr_requests t t' : skips_removed t t' -> requests t = requests t'.
Proof.
  induction 1 as [|e t t' _ IH|c t t' _ _ IH]; simpl; [reflexivity| |exact IH].
  destruct e; [exact IH | f_equal; exact IH].
Qed.

Lemma sync_category_unknown DP c files w :
  PyStr.in_tuple c Downloader.CATEGORIES = false ->
  Downloader.sync_category DP (c, files) w
    = (Ok tt, w, [Print (MsgUnknownCategory c)]).
Proof. intros H. unfold Downloader.sync_category. rewrite H. reflexivity. Qed.

Lemma sync_everything_known DP all_files w :
  outcome (Downloader.sync_everything DP all_files w)
    = outcome (Downloader.sync_everything DP (List.filter recognized all_files) w)
  /\ final (Downloader.sync_everything DP all_files w)
    = final (Downloader.sync_everything DP (List.filter recognized all_files) w)
  /\ skips_removed
       (trace (Downloader.sync_everything DP all_files w))
       (trace (Downloader.sync_everything DP (List.filter recognized all_files) w)).
Proof.
  unfold Downloader.sync_everything.
  revert w. induction all_files as [|[c files] rest IH]; intros w.
  - repeat split. constructor.
  - cbn [List.filter for_each].
    destruct (recognized (c, files)) eqn:Hc.
    + cbn [for_each]. unfold bind.
      destruct (Downloader.sync_category DP (c, files) w) as [[[[]|e] w1] t1].
      * destruct (IH w1) as (Ho & Hf & Ht). revert Ho Hf Ht.
        destruct (for_each _ rest w1) as [[r2 w2] t2].
        destruct (for_each _ (List.filter recognized rest) w1) as [[r3 w3] t3].
        unfold outcome, final, trace. cbn [fst snd]. intros -> -> Ht.
        repeat split. apply sr_app; [apply sr_refl | exact Ht].
      * repeat split. apply sr_refl.
    + unfold bind. rewrite (sync_category_unknown _ _ _ _ Hc).
      destruct (IH w) as (Ho & Hf & Ht). revert Ho Hf Ht.
      destruct (for_each _ rest w) as [[r2 w2] t2].
      destruct (for_each _ (List.filter recognized rest) w) as [[r3 w3] t3].
      unfold outcome, final, trace. cbn [fst snd app]. intros -> -> Ht.
      repeat split. constructor; assumption.
Qed.

(** [sync.py] asserts that the category is known: an unknown key ends
    the run with [AssertionError] before anything is synced. *)
Lemma sync_py_unknown_asserts c files rest w :
  PyStr.in_tuple c Sync.KNOWN = false ->
  Sync.sync_everything ((c, files) :: rest) w
    = (Raise (AssertionError ("unknown category: " ++ c)%string), w, []).
Proof.
  intros H. unfold Sync.sync_everything. cbn [for_each].
  apply bind_raise. unfold Sync.sync_category. rewrite H. reflexivity.
Qed.

(** The claim C3 fails on [sync.py], which it cites: the entry under
    ['other'] is downloaded, and the key ['legacy'] ends the run with
    [AssertionError]. *)
Lemma C3_counterexample :
  let w := mkWorld empty_cwd ok_server in
  let run := Sync.sync_everything
               [("other", JArr [JObj a_bin]); ("legacy", JArr [])] w in
  outcome run = Raise (AssertionError "unknown category: legacy")
  /\ requests (trace run) = [url_of "a.bin"]
  /\ fs (final run) !! "other/a.bin" = Some (File true true (bytes_of "x")).
Proof. vm_compute. repeat split. Qed.

(** C3, amended.  A run of [downloader.py] on a catalog is the run on
    the catalog cut down to its four recognized categories: the same
    outcome, the same final world, the same requests, and the same trace
    but for the lines that report the skipped keys.  A key outside
    [CATEGORIES], the feed's ['other'] among them, prints one line,
    raises nothing and leaves the world alone.  In [sync.py] a key
    outside the five known categories raises [AssertionError] and ends
    the run, and ['other'] is one of the five: its entries go through
    the loop that syncs the files of a category. *)
Theorem C3_only_recognized_categories (DP : string) (all_files : dict) (w : world) :
  let full := Downloader.sync_everything DP all_files w in
  let known := Downloader.sync_everything DP (List.filter recognized all_files) w in
  (outcome full = outcome known
   /\ final full = final known
   /\ skips_removed (trace full) (trace known)
   /\ requests (trace full) = requests (trace known))
  /\ (forall c files w0,
        PyStr.in_tuple c Downloader.CATEGORIES = false ->
        Downloader.sync_category DP (c, files) w0
          = (Ok tt, w0, [Print (MsgUnknownCategory c)]))
  /\ PyStr.in_tuple "other" Downloader.CATEGORIES = false
  /\ Downloader.CATEGORIES = ["ee-full"; "ce-full"; "ee-patch"; "ce-patch"]
  /\ (forall c files rest w0,
        PyStr.in_tuple c Sync.KNOWN = false ->
        Sync.sync_everything ((c, files) :: rest) w0
          = (Raise (AssertionError ("unknown category: " ++ c)%string), w0, []))
  /\ Sync.KNOWN = "other" :: Downloader.CATEGORIES
  /\ (forall entries w0,
        is_Some (node_at (fs w0) "other") ->
        Sync.sync_category ("other", JArr entries) w0
          = (for_each (Sync.sync_file "other") entries ;;
             print (MsgCategory "other" (List.length entries))) w0).
Proof.
  cbv zeta.
  destruct (sync_everything_known DP all_files w) as (Ho & Hf & Ht).
  split; [|split; [|split; [reflexivity|split; [reflexivity|split; [|split]]]]].
  - repeat split; try assumption. apply sr_requests. exact Ht.
  - intros c files w0. apply sync_category_unknown.
  - intros c files rest w0. apply sync_py_unknown_asserts.
  - reflexivity.
  - intros entries w0 [n Hn]. unfold Sync.sync_category.
    cbn [PyStr.in_tuple Sync.KNOWN existsb String.eqb Ascii.eqb Bool.eqb orb negb].
    rewrite (bind_ok_nil _ _ _ _ _ (path_exists_some _ _ _ Hn)). cbn [negb].
    rewrite bind_ret_l. cbn [flatten]. rewrite bind_ret_l.
    cbn [iter]. rewrite bind_ret_l.
    apply bind_ext. intros _ w1. cbn [len]. rewrite bind_ret_l. reflexivity.
Qed.

(** ** [rpartition] *)

Lemma rpartition_none sep s :
  PyStr.contains_char sep s = false ->
  PyStr.rpartition sep s = (EmptyString, EmptyString, s).
Proof.
  induction s as [|a s IH]; [reflexivity|].
  cbn [PyStr.contains_char PyStr.rpartition].
  intros [Ha Hs]%orb_false_iff. rewrite (IH Hs).
  unfold PyStr.rpartition_cons. rewrite Ha. reflexivity.
Qed.

Lemma append_nil_l s : ("" ++ s)%string = s.
Proof. reflexivity. Qed.

Lemma append_cons a s t : (String a s ++ t)%string = String a (s ++ t)%string.
Proof. reflexivity. Qed.

(** Splitting [prefix + sep + name] at the last [sep], when [name] has
    none: the three parts come back. *)
Lemma rpartition_app sep s name :
  PyStr.contains_char sep name = false ->
  PyStr.rpartition sep ((s ++ String sep EmptyString) ++ name)%string
    = (s, String sep EmptyString, name).
Proof.
  intros Hn. induction s as [|a s IH].
  - rewrite append_nil_l, append_cons, append_nil_l.
    cbn [PyStr.rpartition]. rewrite (rpartition_none _ _ Hn).
    unfold PyStr.rpartition_cons. rewrite Ascii.eqb_refl. reflexivity.
  - rewrite !append_cons. cbn [PyStr.rpartition]. rewrite IH. reflexivity.
Qed.

(** ** Where one entry can write *)

Lemma touches_bind path {A B} (m : M A) (k : A -> M B) :
  touches path m -> (forall a, touches path (k a)) -> touches path (bind m k).
Proof. apply keeps_bind; [apply only_at_trans | tauto]. Qed.

Lemma reads_touches path {A} (m : M A) : reads m -> touches path m.
Proof.
  intros H w. destruct (H w) as [Hw _]. split; [|exact I].
  unfold same_world in Hw. rewrite Hw. apply only_at_refl.
Qed.

Lemma touches_download name path : touches path (download_file (JStr name) path).
Proof. intros w. split; [apply download_only_at | exact I]. Qed.

Lemma sync_file_touches cp d name md5 w :
  dict_get d "file_name" = Some (JStr name) ->
  dict_get d "md5" = Some md5 ->
  eligible name = true ->
  only_at (target_of cp name) w (final (Downloader.sync_file cp (JObj d) w)).
Proof.
  intros Hn Hm He. rewrite (sync_file_eligible _ _ _ _ _ Hn Hm He).
  revert w. apply touches_bind; [apply reads_touches, reads_verify|].
  intros same. apply touches_bind; [|intros _; apply reads_touches, reads_print].
  destruct same; cbn [negb]; [apply reads_touches, reads_ret|].
  apply touches_bind; [apply reads_touches, reads_print|]. intros _.
  apply touches_bind; [apply touches_download|]. intros _.
  apply reads_touches, reads_ret.
Qed.

(** Whatever the entry is, either the world is left as it was or the
    entry is an eligible one with a digest field. *)
Lemma sync_file_cases cp file w :
  final (Downloader.sync_file cp file w) = w
  \/ exists d name md5,
       file = JObj d
       /\ dict_get d "file_name" = Some (JStr name)
       /\ dict_get d "md5" = Some md5
       /\ eligible name = true.
Proof.
  destruct file as [| | | |l|d]; try (left; reflexivity).
  unfold Downloader.sync_file, getitem.
  destruct (dict_get d "file_name") as [v|] eqn:Hn; [|left; reflexivity].
  rewrite bind_ret_l.
  destruct v as [| | |name|l|d']; try (left; reflexivity).
  - unfold py_in. rewrite bind_ret_l.
    destruct (PyStr.contains_char "/" name) eqn:Hs.
    { left. rewrite bind_ret_l. reflexivity. }
    rewrite bind_ret_l. unfold rpartition_tail. rewrite bind_ret_l.
    fold (ext name).
    destruct (PyStr.in_tuple (ext name) ["zip"; "bz2"]) eqn:He; [left; reflexivity|].
    rewrite bind_ret_l.
    destruct (dict_get d "md5") as [md5|] eqn:Hm.
    + right. exists d, name, md5. repeat split; try assumption.
      unfold eligible. rewrite Hs, He. reflexivity.
    + left. unfold str_add. rewrite bind_ret_l. reflexivity.
  - left. unfold py_in. rewrite bind_ret_l.
    destruct (existsb _ l); rewrite bind_ret_l; reflexivity.
  - left. unfold py_in. rewrite bind_ret_l.
    destruct (existsb _ d'); rewrite bind_ret_l; reflexivity.
Qed.

Lemma sync_file_writes cp file w p :
  fs (final (Downloader.sync_file cp file w)) !! p <> fs w !! p ->
  exists d name,
    file = JObj d
    /\ dict_get d "file_name" = Some (JStr name)
    /\ eligible name = true
    /\ p = target_of cp name.
Proof.
  intros Hp.
  destruct (sync_file_cases cp file w) as [Hw | (d & name & md5 & -> & Hn & Hm & He)].
  { rewrite Hw in Hp. congruence. }
  exists d, name. repeat split; try assumption.
  destruct (sync_file_touches cp _ _ _ w Hn Hm He) as [_ Hf].
  destruct (decide (p = target_of cp name)) as [|Hne]; [assumption|].
  exfalso. apply Hp. apply Hf. exact Hne.
Qed.

(** C4. Processing an entry changes the file system nowhere but at
    [category_path + '/' + file_name] for an eligible [file_name], a path
    whose last ['/'] separates [category_path] from [file_name].  An
    entry whose name has a ['/'] prints the [deep path] line, and one
    whose extension is [zip] or [bz2] prints nothing; both raise nothing,
    send no request and leave the world alone, whether or not the target
    exists. *)
Theorem C4_writes_stay_in_category_dir (cp : string) (w : world) :
  (forall file p,
     fs (final (Downloader.sync_file cp file w)) !! p <> fs w !! p ->
     exists d name,
       file = JObj d
       /\ dict_get d "file_name" = Some (JStr name)
       /\ eligible name = true
       /\ p = target_of cp name
       /\ PyStr.rpartition "/" p = (cp, "/", name))
  /\ (forall d name,
        dict_get d "file_name" = Some (JStr name) ->
        PyStr.contains_char "/" name = true ->
        Downloader.sync_file cp (JObj d) w
          = (Ok tt, w, [Print (MsgDeepPath (JStr name))]))
  /\ (forall d name,
        dict_get d "file_name" = Some (JStr name) ->
        PyStr.contains_char "/" name = false ->
        PyStr.in_tuple (ext name) ["zip"; "bz2"] = true ->
        Downloader.sync_file cp (JObj d) w = (Ok tt, w, [])).
Proof.
  split; [|split].
  - intros file p Hp.
    destruct (sync_file_writes _ _ _ _ Hp) as (d & name & -> & Hn & He & ->).
    exists d, name. repeat split; try assumption.
    apply rpartition_app. apply eligible_inv in He. tauto.
  - intros d name. apply sync_file_deep.
  - intros d name. apply sync_file_excluded.
Qed.

(** C10. An entry named exactly [zip] or [bz2] has no ['.'], so
    [rpartition('.')] returns the whole name as its last component; the
    entry is skipped without a line, a request or a write, in both
    scripts. *)
Theorem C10_dotless_zip_bz2_skipped
    (cp : string) (d : dict) (name : string) (w : world) :
  dict_get d "file_name" = Some (JStr name) ->
  name = "zip" \/ name = "bz2" ->
  PyStr.contains_char "." name = false
  /\ PyStr.rpartition "." name = ("", "", name)
  /\ Downloader.sync_file cp (JObj d) w = (Ok tt, w, [])
  /\ Sync.sync_file cp (JObj d) w = (Ok tt, w, []).
Proof.
  intros Hn Hname.
  assert (Hdot : PyStr.contains_char "." name = false)
    by (destruct Hname as [-> | ->]; reflexivity).
  assert (Hsl : PyStr.contains_char "/" name = false)
    by (destruct Hname as [-> | ->]; reflexivity).
  assert (Hext : PyStr.in_tuple (ext name) ["zip"; "bz2"] = true).
  { unfold ext. rewrite (rpartition_none _ _ Hdot).
    destruct Hname as [-> | ->]; reflexivity. }
  split; [exact Hdot|].
  split; [apply rpartition_none; exact Hdot|].
  split;
    [apply (sync_file_excluded cp d name) | apply (sync_py_file_excluded cp d name)];
    assumption.
Qed.

(** ** Flattening a grouped category *)

Lemma sequence_iter_lists groups w :
  sequence (map iter (values (grouped groups))) w = (Ok (map snd groups), w, []).
Proof.
  induction groups as [|[k l] groups IH]; [reflexivity|].
  cbn [grouped values map sequence fst snd iter].
  rewrite bind_ret_l. unfold bind.
  fold (grouped groups). fold (values (grouped groups)).
  rewrite IH. reflexivity.
Qed.

Lemma flatten_grouped groups w :
  flatten (JObj (grouped groups)) w = (Ok (JArr (concat (map snd groups))), w, []).
Proof.
  unfold flatten, chain_values, bind. rewrite sequence_iter_lists. reflexivity.
Qed.

(** C5. A category value that maps grouping keys to entry lists is
    flattened to the concatenation of the lists in the dict's own key
    order, each list in its own order, and the category is then synced as
    if the catalog had held that list; [{"1.9": [A, B], "1.10": [C]}]
    becomes [[A, B, C]].  A list is passed through as it is. *)
Theorem C5_flatten_in_key_order :
  (forall groups w,
     flatten (JObj (grouped groups)) w
       = (Ok (JArr (concat (map snd groups))), w, []))
  /\ (forall A B C w,
        flatten (JObj [("1.9", JArr [A; B]); ("1.10", JArr [C])]) w
          = (Ok (JArr [A; B; C]), w, []))
  /\ (forall l w, flatten (JArr l) w = (Ok (JArr l), w, []))
  /\ (forall DP c groups w,
        Downloader.sync_category DP (c, JObj (grouped groups)) w
          = Downloader.sync_category DP (c, JArr (concat (map snd groups))) w).
Proof.
  split; [exact flatten_grouped|].
  split; [intros A B C w; exact (flatten_grouped [("1.9", [A; B]); ("1.10", [C])] w)|].
  split; [reflexivity|].
  intros DP c groups w. unfold Downloader.sync_category.
  destruct (negb (PyStr.in_tuple c Downloader.CATEGORIES)); [reflexivity|].
  apply bind_ext. intros there w1. apply bind_ext. intros _ w2.
  rewrite (bind_ok _ _ _ _ _ _ (flatten_grouped groups w2)).
  symmetry.
  exact (bind_ok (flatten (JArr (concat (map snd groups)))) _ w2 _ w2 [] eq_refl).
Qed.

(** ** Failures while syncing one entry *)

(** The claim C6 fails on a 200 response without [content-length]: the
    first file's download raises [TypeError] out of [sync_everything],
    and the second file is never looked at. *)
Lemma C6_counterexample :
  let w := mkWorld empty_root no_length_server in
  let run := Downloader.sync_everything "/srv/downloaded" two_files w in
  status_code (remote w (url_of "a.bin")) = 200
  /\ content_length (remote w (url_of "a.bin")) = None
  /\ outcome run = Raise TypeError
  /\ trace run =
       [Print (MsgNotExist "/srv/downloaded/ce-full/a.bin");
        Print (MsgRedownload (JStr "a.bin"));
        Print (MsgDownloading (url_of "a.bin"));
        Get (url_of "a.bin")].
Proof. vm_compute. repeat split. Qed.

(** C6, amended. When an eligible entry fails verification and the
    server answers its request with a status other than 200, the failure
    is printed, nothing is written, and the loop goes on with the entries
    after it from the same world.  When the status is 200 and the
    response has no [content-length] header, [TypeError] leaves the loop
    and the entries after it are not processed. *)
Theorem C6_bad_status_continues
    (cp : string) (d : dict) (name : string) (md5 : json)
    (rest : list json) (w : world) :
  dict_get d "file_name" = Some (JStr name) ->
  dict_get d "md5" = Some md5 ->
  eligible name = true ->
  outcome (verify_md5sum (target_of cp name) md5 w) = Ok false ->
  let url := url_of name in
  let seen := trace (verify_md5sum (target_of cp name) md5 w) in
  (status_code (remote w url) <> 200 ->
     let after := for_each (Downloader.sync_file cp) rest w in
     for_each (Downloader.sync_file cp) (JObj d :: rest) w =
       (outcome after, final after,
        (seen ++ [Print (MsgRedownload (JStr name));
                  Print (MsgDownloading url); Get url;
                  Print (MsgStatus (status_code (remote w url)) url);
                  Print (MsgTarget (target_of cp name))])
        ++ trace after))
  /\ (status_code (remote w url) = 200 ->
      content_length (remote w url) = None ->
      for_each (Downloader.sync_file cp) (JObj d :: rest) w =
        (Raise TypeError, w,
         seen ++ [Print (MsgRedownload (JStr name));
                  Print (MsgDownloading url); Get url])).
Proof.
  intros Hn Hm He Hv. cbv zeta.
  cbn [for_each].
  assert (Hrun : verify_md5sum (target_of cp name) md5 w
                 = (Ok false, w, trace (verify_md5sum (target_of cp name) md5 w))).
  { rewrite (run_eta (verify_md5sum _ _ _)) at 1.
    rewrite Hv, verify_final. reflexivity. }
  split.
  - intros Hs.
    assert (Hfile : Downloader.sync_file cp (JObj d) w =
      (Ok tt, w,
       trace (verify_md5sum (target_of cp name) md5 w)
       ++ [Print (MsgRedownload (JStr name));
           Print (MsgDownloading (url_of name)); Get (url_of name);
           Print (MsgStatus (status_code (remote w (url_of name))) (url_of name));
           Print (MsgTarget (target_of cp name))])).
    { rewrite (sync_file_eligible _ _ _ _ _ Hn Hm He).
      rewrite (bind_ok _ _ _ _ _ _ Hrun). cbn [negb].
      unfold bind, print, ret. rewrite (download_bad_status _ _ _ Hs).
      reflexivity. }
    rewrite (bind_ok _ _ _ _ _ _ Hfile). reflexivity.
  - intros Hs Hl.
    apply bind_raise.
    rewrite (sync_file_eligible _ _ _ _ _ Hn Hm He).
    rewrite (bind_ok _ _ _ _ _ _ Hrun). cbn [negb].
    unfold bind, print, ret. rewrite (download_no_length _ _ _ Hs Hl).
    reflexivity.
Qed.

(** The claim C7 fails on an entry without an [md5] key:
    [file['md5']] raises [KeyError], though the file is there. *)
Lemma C7_counterexample :
  let w := mkWorld a_bin_on_disk no_length_server in
  let run := Downloader.sync_everything "/srv/downloaded" no_md5_key w in
  is_Some (node_at (fs w) "/srv/downloaded/ce-full/a.bin")
  /\ outcome run = Raise (KeyError "md5")
  /\ trace run = [].
Proof.
  cbv zeta. split; [|vm_compute; split; reflexivity].
  exists (File true true (bytes_of "x")). vm_compute. reflexivity.
Qed.

(** C7, amended. For an eligible entry whose [md5] key is there with
    [None] or an empty value: whenever anything exists at the target,
    whatever it holds, [verify_md5sum] is [True] and the entry is done
    with no request, no exception and no change to the world, so a run
    from the world it leaves does the same again.  [None] and [''] are
    such values.  An eligible entry without an [md5] key raises
    [KeyError], whether or not its target exists. *)
Theorem C7_empty_digest_checks_presence_only
    (cp : string) (d : dict) (name : string) (w : world) :
  dict_get d "file_name" = Some (JStr name) ->
  eligible name = true ->
  (forall md5 n,
     dict_get d "md5" = Some md5 ->
     truthy md5 = false ->
     node_at (fs w) (target_of cp name) = Some n ->
     let once := Downloader.sync_file cp (JObj d) w in
     verify_md5sum (target_of cp name) md5 w = (Ok true, w, [])
     /\ once = (Ok tt, w, [Print (MsgTarget (target_of cp name))])
     /\ requests (trace once) = []
     /\ Downloader.sync_file cp (JObj d) (final once) = once)
  /\ (dict_get d "md5" = None ->
        Downloader.sync_file cp (JObj d) w = (Raise (KeyError "md5"), w, []))
  /\ truthy JNull = false /\ truthy (JStr "") = false.
Proof.
  intros Hn He. split; [|split; [|split; reflexivity]].
  - intros md5 n Hm Ht Hfs. cbv zeta.
    pose proof (verify_no_digest _ _ _ _ Hfs Ht) as Hv.
    assert (Hrun : Downloader.sync_file cp (JObj d) w
                   = (Ok tt, w, [Print (MsgTarget (target_of cp name))])).
    { rewrite (sync_file_eligible _ _ _ _ _ Hn Hm He).
      rewrite (bind_ok _ _ _ _ _ _ Hv). reflexivity. }
    rewrite Hrun. unfold final. cbn [fst snd]. rewrite Hrun.
    repeat split; assumption.
  - intros Hm. exact (sync_file_no_md5 cp d name w Hn He Hm).
Qed.

(** The claim C8 fails when the path is a directory and there is a digest
    to check: [open] raises and nothing catches it. *)
Lemma C8_counterexample :
  let w := mkWorld a_bin_on_disk no_length_server in
  is_Some (node_at (fs w) "/srv/downloaded/ce-full")
  /\ outcome (verify_md5sum "/srv/downloaded/ce-full" (JStr "abc") w)
     = Raise IsADirectoryError.
Proof.
  cbv zeta. split; [|vm_compute; reflexivity].
  exists Dir. vm_compute. reflexivity.
Qed.

(** C8, amended. For a path that exists but cannot be read, the verifier
    returns [True] without opening it when the expected digest is [None]
    or empty; with a digest to check, the exception of [open] leaves
    [verify_md5sum]: [IsADirectoryError] for a directory,
    [PermissionError] for a file. *)
Theorem C8_unreadable_raises (path : string) (want : json) (w : world) (n : node) :
  node_at (fs w) path = Some n ->
  unreadable n ->
  (truthy want = false -> verify_md5sum path want w = (Ok true, w, []))
  /\ (truthy want = true ->
        verify_md5sum path want w
          = (Raise (match n with
                    | Dir => IsADirectoryError
                    | File _ _ _ => PermissionError
                    end), w, [])).
Proof.
  intros Hfs Hn. split; [eauto using verify_no_digest|].
  intros Hw. apply verify_unreadable; assumption.
Qed.

(** ** The patch index *)

Lemma bind_inv_ok {A B} (m : M A) (k : A -> M B) w b w' t :
  bind m k w = (Ok b, w', t) ->
  exists a w1 t1 t2,
    m w = (Ok a, w1, t1) /\ k a w1 = (Ok b, w', t2) /\ t = t1 ++ t2.
Proof.
  unfold bind. destruct (m w) as [[[a|e] w1] t1]; [|discriminate].
  destruct (k a w1) as [[r w2] t2] eqn:Hk. intros [= -> -> <-].
  exists a, w1, t1, t2. auto.
Qed.

Lemma grows_refl a : grows a a.
Proof. intros v x H. exact H. Qed.

Lemma grows_trans a b c : grows a b -> grows b c -> grows a c.
Proof. intros H1 H2 v x H. auto. Qed.

Lemma py_eq_refl x : hashable x = true -> py_eq x x = true.
Proof.
  destruct x as [|b|q|s|l|d]; simpl; try reflexivity; try discriminate; intros _.
  - apply Qeq_bool_iff. reflexivity.
  - apply Qeq_bool_iff. reflexivity.
  - apply String.eqb_refl.
Qed.

Lemma set_mem_app x s y :
  set_mem x (s ++ [y]) = set_mem x s || py_eq x y.
Proof.
  unfold set_mem. rewrite existsb_app. simpl. rewrite orb_false_r. reflexivity.
Qed.

(** What [s.add(x)] leaves: [x] is in, and so is all that was. *)
Lemma set_add_ok x s w s' w' t :
  set_add x s w = (Ok s', w', t) ->
  w' = w /\ t = []
  /\ set_mem x s' = true
  /\ forall y, set_mem y s = true -> set_mem y s' = true.
Proof.
  unfold set_add. destruct (hashable x) eqn:Hh; [|discriminate].
  unfold ret. intros [= <- <- <-].
  destruct (set_mem x s) eqn:Hm; repeat split; auto.
  - rewrite set_mem_app, (py_eq_refl _ Hh). apply orb_true_r.
  - intros y Hy. rewrite set_mem_app, Hy. reflexivity.
Qed.

Lemma add_patch_ok d v2p v w s' w' t :
  add_patch (JObj d) v2p v w = (Ok s', w', t) ->
  grows v2p s'
  /\ forall name, dict_get d "file_name" = Some name -> has s' v name.
Proof.
  unfold add_patch, getitem.
  destruct (dict_get d "file_name") as [name|] eqn:Hn; [|discriminate].
  rewrite bind_ret_l.
  intros (ps & w1 & t1 & t2 & Hadd & Hret & _)%bind_inv_ok.
  destruct (set_add_ok _ _ _ _ _ _ Hadd) as (_ & _ & Hin & Hold).
  unfold ret in Hret. injection Hret as <- _ _.
  split.
  - intros v0 x (s & Hs & Hx).
    destruct (decide (v0 = v)) as [->|Hne].
    + exists ps. rewrite lookup_insert_eq. split; [reflexivity|].
      specialize (Hold x). rewrite Hs in Hold. exact (Hold Hx).
    + exists s. rewrite lookup_insert_ne by congruence. auto.
  - intros name' [= <-]. exists ps. rewrite lookup_insert_eq. auto.
Qed.

(** Loops that thread the dict through: what each iteration adds stays. *)
Section FoldGrows.

Context {A : Type} (body : gmap string pyset -> A -> M (gmap string pyset)).
Hypothesis body_grows :
  forall s x w s' w' t, body s x w = (Ok s', w', t) -> grows s s'.

Lemma fold_m_grows l s w s' w' t :
  fold_m body l s w = (Ok s', w', t) -> grows s s'.
Proof.
  revert s w t. induction l as [|x l IH]; intros s w t.
  - intros [= <- _ _]. apply grows_refl.
  - cbn [fold_m]. intros (s1 & w1 & t1 & t2 & H1 & H2 & _)%bind_inv_ok.
    eapply grows_trans; [eapply body_grows | eapply IH]; eassumption.
Qed.

Lemma fold_m_reaches l x s w s' w' t :
  In x l ->
  fold_m body l s w = (Ok s', w', t) ->
  exists s1 w1 s2 w2 t2, body s1 x w1 = (Ok s2, w2, t2) /\ grows s2 s'.
Proof.
  revert s w t. induction l as [|y l IH]; intros s w t; [intros []|].
  cbn [fold_m]. intros Hin (s1 & w1 & t1 & t2 & H1 & H2 & _)%bind_inv_ok.
  destruct Hin as [->|Hin].
  - exists s, w, s1, w1, t1. split; [exact H1|].
    eapply fold_m_grows. exact H2.
  - eapply IH; eassumption.
Qed.

End FoldGrows.

Section PatchIndex.

Variable py_format : json -> string.
Hypothesis py_format_str : forall s, py_format (JStr s) = s.

Lemma version_keys_list prefix d key vs w :
  dict_get d key = Some (JArr vs) ->
  version_keys py_format prefix (JObj d) key w
    = (Ok (map (fun x => (prefix ++ py_format x)%string) vs), w, []).
Proof.
  intros H. unfold version_keys, get_or_empty. rewrite H.
  rewrite bind_ret_l. unfold iter. rewrite bind_ret_l. reflexivity.
Qed.

Lemma index_file_ok v2p file w s' w' t :
  index_file py_format v2p file w = (Ok s', w', t) ->
  grows v2p s'
  /\ forall d name,
       file = JObj d ->
       dict_get d "file_name" = Some name ->
       (forall vs v, dict_get d "ee_versions" = Some (JArr vs) ->
                     In (JStr v) vs -> has s' ("EE " ++ v) name)
       /\ (forall vs v, dict_get d "ce_versions" = Some (JArr vs) ->
                        In (JStr v) vs -> has s' ("CE " ++ v) name).
Proof.
  unfold index_file.
  intros (ee & w1 & t1 & t2 & Hee & H & _)%bind_inv_ok.
  apply bind_inv_ok in H as (ce & w2 & t3 & t4 & Hce & Hfold & _).
  destruct file as [| | | | |d0]; try discriminate.
  assert (Hgrow : forall s x w s' w' t,
             add_patch (JObj d0) s x w = (Ok s', w', t) -> grows s s')
    by (intros; eapply add_patch_ok; eassumption).
  split; [eapply fold_m_grows; eassumption|].
  intros d name [= <-] Hname.
  assert (Hkey : forall v, In v (ee ++ ce) -> has s' v name).
  { intros v Hv.
    destruct (fold_m_reaches _ Hgrow _ _ _ _ _ _ _ Hv Hfold)
      as (s1 & wa & s2 & wb & tb & Hadd & Hs2).
    apply Hs2. eapply add_patch_ok; eassumption. }
  split; intros vs v Hvs Hin; apply Hkey, in_or_app.
  - left. rewrite (version_keys_list _ _ _ _ _ Hvs) in Hee.
    injection Hee as <- _ _. apply in_map_iff.
    exists (JStr v). rewrite py_format_str. auto.
  - right. rewrite (version_keys_list _ _ _ _ _ Hvs) in Hce.
    injection Hce as <- _ _. apply in_map_iff.
    exists (JStr v). rewrite py_format_str. auto.
Qed.

Lemma index_category_ok v2p c files w s' w' t :
  index_category py_format v2p (c, files) w = (Ok s', w', t) ->
  grows v2p s'
  /\ forall es d name,
       patch_category c = true ->
       files = JArr es ->
       In (JObj d) es ->
       dict_get d "file_name" = Some name ->
       (forall vs v, dict_get d "ee_versions" = Some (JArr vs) ->
                     In (JStr v) vs -> has s' ("EE " ++ v) name)
       /\ (forall vs v, dict_get d "ce_versions" = Some (JArr vs) ->
                        In (JStr v) vs -> has s' ("CE " ++ v) name).
Proof.
  unfold index_category, patch_category.
  destruct (PyStr.endswith c "-patch"); cbn [negb].
  2:{ intros [= <- _ _]. split; [apply grows_refl|discriminate]. }
  intros (fl & w1 & t1 & t2 & Hfl & H & _)%bind_inv_ok.
  apply bind_inv_ok in H as (entries & w2 & t3 & t4 & Hit & Hfold & _).
  assert (Hgrow : forall s x w s' w' t,
             index_file py_format s x w = (Ok s', w', t) -> grows s s')
    by (intros; eapply index_file_ok; eassumption).
  split; [eapply fold_m_grows; eassumption|].
  intros es d name _ -> Hin Hname.
  injection Hfl as <- _ _. injection Hit as <- _ _.
  destruct (fold_m_reaches _ Hgrow _ _ _ _ _ _ _ Hin Hfold)
    as (s1 & wa & s2 & wb & tb & Hfile & Hs2).
  destruct (index_file_ok _ _ _ _ _ _ Hfile) as [_ Hmem].
  destruct (Hmem d name eq_refl Hname) as [Hee Hce].
  split; intros vs v Hvs Hv; apply Hs2; eauto.
Qed.

(** Every version of every patch entry leads to its file name. *)
Lemma req_patches_complete classified w v2p w' t :
  req_patches py_format (catalog_of classified) w = (Ok v2p, w', t) ->
  forall c es d name,
    In (c, es) classified ->
    patch_category c = true ->
    In (JObj d) es ->
    dict_get d "file_name" = Some name ->
    (forall vs v, dict_get d "ee_versions" = Some (JArr vs) ->
                  In (JStr v) vs -> has v2p ("EE " ++ v) name)
    /\ (forall vs v, dict_get d "ce_versions" = Some (JArr vs) ->
                     In (JStr v) vs -> has v2p ("CE " ++ v) name).
Proof.
  unfold req_patches. intros Hfold c es d name Hc Hp Hd Hname.
  assert (Hgrow : forall s x w s' w' t,
             index_category py_format s x w = (Ok s', w', t) -> grows s s').
  { intros s [c0 f0] **. eapply index_category_ok; eassumption. }
  assert (Hin : In (c, JArr es) (catalog_of classified)).
  { unfold catalog_of. apply in_map_iff. exists (c, es). auto. }
  destruct (fold_m_reaches _ Hgrow _ _ _ _ _ _ _ Hin Hfold)
    as (s1 & wa & s2 & wb & tb & Hcat & Hs2).
  destruct (index_category_ok _ _ _ _ _ _ _ Hcat) as [_ Hmem].
  destruct (Hmem es d name Hp eq_refl Hd Hname) as [Hee Hce].
  split; intros vs v Hvs Hv; apply Hs2; eauto.
Qed.

End PatchIndex.

(** *** The indexer returns on well-formed catalogs *)

Lemma returns_ret {A} (a : A) : returns (ret a) a.
Proof. intros w. reflexivity. Qed.

Lemma returns_bind {A B} (m : M A) (k : A -> M B) a b :
  returns m a -> returns (k a) b -> returns (bind m k) b.
Proof.
  intros Hm Hk w. unfold bind. rewrite (Hm w), (Hk w). reflexivity.
Qed.

Lemma fold_m_returns {A S} (body : S -> A -> M S) l :
  (forall x, In x l -> forall s, exists s', returns (body s x) s') ->
  forall s, exists s', returns (fold_m body l s) s'.
Proof.
  induction l as [|x l IH]; intros Hb s.
  - exists s. apply returns_ret.
  - destruct (Hb x (or_introl eq_refl) s) as [s1 H1].
    destruct (IH (fun y Hy => Hb y (or_intror Hy)) s1) as [s2 H2].
    exists s2. cbn [fold_m]. eapply returns_bind; eassumption.
Qed.

Lemma fold_m_ext {A S} (body body' : S -> A -> M S) l s w :
  (forall s x w, body s x w = body' s x w) ->
  fold_m body l s w = fold_m body' l s w.
Proof.
  intros H. revert s w. induction l as [|x l IH]; intros s w; [reflexivity|].
  cbn [fold_m]. unfold bind. rewrite H.
  destruct (body' s x w) as [[[s1|e] w1] t1]; [|reflexivity].
  rewrite IH. reflexivity.
Qed.

Lemma version_keys_returns py_format prefix d key :
  wf_versions d key = true ->
  returns (version_keys py_format prefix (JObj d) key)
          (map (fun x => (prefix ++ py_format x)%string) (versions_of d key)).
Proof.
  unfold wf_versions, versions_of, version_keys, get_or_empty. intros H w.
  destruct (dict_get d key) as [[| | | |vs|]|]; try discriminate;
    rewrite bind_ret_l; unfold iter; rewrite bind_ret_l; reflexivity.
Qed.

Lemma add_patch_returns d name v2p v :
  dict_get d "file_name" = Some name ->
  hashable name = true ->
  exists s', returns (add_patch (JObj d) v2p v) s'.
Proof.
  intros Hn Hh. eexists. intros w.
  unfold add_patch, getitem. rewrite Hn, bind_ret_l.
  unfold set_add. rewrite Hh, bind_ret_l. reflexivity.
Qed.

Lemma index_file_returns py_format e :
  wf_patch e = true ->
  forall s, exists s', returns (index_file py_format s e) s'.
Proof.
  destruct e as [| | | | |d]; try discriminate. cbn [wf_patch].
  destruct (dict_get d "file_name") as [name|] eqn:Hn; [|discriminate].
  intros [[Hh Hee]%andb_true_iff Hce]%andb_true_iff s.
  destruct (fold_m_returns (add_patch (JObj d))
              (map (fun x => ("EE " ++ py_format x)%string) (versions_of d "ee_versions")
               ++ map (fun x => ("CE " ++ py_format x)%string) (versions_of d "ce_versions"))
              (fun v _ s0 => add_patch_returns d name s0 v Hn Hh) s) as [s' Hs'].
  exists s'. unfold index_file.
  eapply returns_bind; [apply version_keys_returns; exact Hee|].
  eapply returns_bind; [apply version_keys_returns; exact Hce|].
  exact Hs'.
Qed.

Lemma req_patches_returns py_format classified :
  wf_classified classified = true ->
  exists v2p, returns (req_patches py_format (catalog_of classified)) v2p.
Proof.
  intros Hwf. unfold req_patches. apply fold_m_returns.
  intros [c' files] Hin s.
  apply in_map_iff in Hin as ([c es] & [= <- <-] & Hin).
  unfold wf_classified in Hwf. rewrite forallb_forall in Hwf.
  specialize (Hwf _ Hin). cbn [fst snd] in Hwf.
  unfold index_category. fold (patch_category c).
  destruct (patch_category c); cbn [negb orb] in *.
  - rewrite forallb_forall in Hwf.
    destruct (fold_m_returns (index_file py_format) es
                (fun e He => index_file_returns py_format e (Hwf e He)) s)
      as [s' Hs'].
    exists s'.
    eapply returns_bind; [apply returns_ret|].
    eapply returns_bind; [apply returns_ret|]. exact Hs'.
  - exists s. apply returns_ret.
Qed.

(** *** Only patch categories count *)

Lemma index_category_other py_format v2p c files w :
  patch_category c = false ->
  index_category py_format v2p (c, files) w = (Ok v2p, w, []).
Proof.
  intros H. unfold index_category. fold (patch_category c). rewrite H. reflexivity.
Qed.

Lemma req_patches_filter py_format all_files w :
  req_patches py_format all_files w
    = req_patches py_format
        (List.filter (fun item => patch_category (fst item)) all_files) w.
Proof.
  unfold req_patches. generalize (∅ : gmap string pyset) as s. revert w.
  induction all_files as [|[c files] rest IH]; intros w s; [reflexivity|].
  cbn [List.filter fst]. destruct (patch_category c) eqn:Hc.
  - cbn [fold_m]. apply bind_ext. intros s1 w1. apply IH.
  - cbn [fold_m]. rewrite (bind_ok _ _ _ _ _ _ (index_category_other _ _ _ _ _ Hc)).
    cbn [app]. rewrite <- IH. symmetry. apply run_eta.
Qed.

(** *** What is printed, and in which order *)

Lemma versions_printed_app t1 t2 :
  versions_printed (t1 ++ t2) = versions_printed t1 ++ versions_printed t2.
Proof.
  induction t1 as [|[[]|] t1 IH]; simpl; rewrite ?IH; reflexivity.
Qed.

Lemma print_patches s w :
  for_each (fun p => print (MsgPatch p)) s w
    = (Ok tt, w, map (fun p => Print (MsgPatch p)) s).
Proof.
  induction s as [|p s IH]; [reflexivity|].
  cbn [for_each map]. unfold bind, print at 1. rewrite IH. reflexivity.
Qed.

Lemma versions_printed_patches (s : list json) :
  versions_printed (map (fun p => Print (MsgPatch p)) s) = [].
Proof. induction s as [|p s IH]; [reflexivity | exact IH]. Qed.

Lemma print_version_run v s w :
  print_version (v, s) w
    = (Ok tt, w, Print (MsgVersion v) :: map (fun p => Print (MsgPatch p)) s).
Proof.
  unfold print_version, bind, print at 1. cbn [fst snd].
  rewrite print_patches. reflexivity.
Qed.

Lemma print_versions items w :
  outcome (for_each print_version items w) = Ok tt
  /\ final (for_each print_version items w) = w
  /\ versions_printed (trace (for_each print_version items w)) = map fst items.
Proof.
  induction items as [|[v s] items IH]; [repeat split|].
  cbn [for_each]. rewrite (bind_ok _ _ _ _ _ _ (print_version_run v s w)).
  destruct IH as (Ho & Hf & Ht).
  unfold outcome, final, trace in *. cbn [fst snd] in *.
  repeat split; [exact Ho | exact Hf |].
  cbn [app versions_printed map fst].
  rewrite versions_printed_app, versions_printed_patches, Ht. reflexivity.
Qed.

#[global] Instance key_le_trans : Transitive key_le.
Proof. intros a b c. unfold key_le. apply transitivity. Qed.

#[global] Instance key_le_total : Total key_le.
Proof. intros a b. unfold key_le. apply total, _. Qed.

Lemma sorted_items_sorted v2p :
  StronglySorted String.le (map fst (sorted_items v2p)).
Proof.
  apply (StronglySorted_fmap fst key_le String.le);
    [intros x y H; exact H|].
  apply StronglySorted_merge_sort; apply _.
Qed.

Lemma sorted_items_perm v2p k s :
  In (k, s) (sorted_items v2p) <-> v2p !! k = Some s.
Proof.
  rewrite <- list_elem_of_In. unfold sorted_items.
  rewrite merge_sort_Permutation. apply elem_of_map_to_list.
Qed.

(** *** The index depends on [format] only through its values *)

Lemma bind_cong {A B} (m m' : M A) (k k' : A -> M B) w :
  m w = m' w -> (forall a w1, k a w1 = k' a w1) -> bind m k w = bind m' k' w.
Proof.
  intros Hm Hk. unfold bind. rewrite Hm.
  destruct (m' w) as [[[a|e] w1] t1]; [|reflexivity].
  rewrite Hk. reflexivity.
Qed.

Lemma version_keys_ext f g prefix file key w :
  (forall x, f x = g x) ->
  version_keys f prefix file key w = version_keys g prefix file key w.
Proof.
  intros H. unfold version_keys.
  apply bind_ext. intros versions w1. apply bind_ext. intros xs w2.
  rewrite (map_ext _ (fun x => (prefix ++ g x)%string)); [reflexivity|].
  intros x. rewrite H. reflexivity.
Qed.

Lemma req_patches_ext f g all_files w :
  (forall x, f x = g x) ->
  req_patches f all_files w = req_patches g all_files w.
Proof.
  intros H. unfold req_patches. apply fold_m_ext.
  intros s [c files] w1. unfold index_category.
  destruct (negb (PyStr.endswith c "-patch")); [reflexivity|].
  apply bind_ext. intros fl w2. apply bind_ext. intros entries w3.
  apply fold_m_ext. intros s' file w4. unfold index_file.
  apply bind_cong; [apply version_keys_ext, H|]. intros ee w5.
  apply bind_cong; [apply version_keys_ext, H|]. reflexivity.
Qed.

Section PatchIndexClaim.

Variable py_format : json -> string.
Hypothesis py_format_str : forall s, py_format (JStr s) = s.

(** A format that computes on strings and agrees with [py_format]. *)
Let format' (x : json) : string :=
  match x with
  | JStr s => s
  | _ => py_format x
  end.

Lemma format'_eq x : py_format x = format' x.
Proof. destruct x; try reflexivity. apply py_format_str. Qed.

Lemma patch_example_index w :
  exists v2p,
    req_patches py_format (catalog_of patch_example) w = (Ok v2p, w, [])
    /\ sorted_items v2p
       = [("CE 1.9.0", [JStr "p2"]); ("EE 1.14.0", [JStr "p1"; JStr "p2"])].
Proof.
  eexists. rewrite (req_patches_ext _ _ _ _ format'_eq).
  split; [vm_compute; reflexivity|].
  vm_compute. reflexivity.
Qed.


End PatchIndexClaim.

(** ** The strict script, and a run from a stale file *)

(** [sync.py] syncs the category ['other'], into the working directory. *)
Example sync_py_syncs_other :
  let run := Sync.sync_everything [("other", JArr [JObj a_bin])]
               (mkWorld empty_cwd ok_server) in
  outcome run = Ok tt
  /\ requests (trace run) = [url_of "a.bin"]
  /\ fs (final run) !! "other/a.bin" = Some (File true true (bytes_of "x")).
Proof. vm_compute. repeat split. Qed.

(** A stale [a.bin] is downloaded again; the run after that finds the
    digest right and sends nothing. *)
Example stale_file_is_fetched_once :
  let catalog := [("ce-full", JArr [JObj a_bin])] in
  let first := Downloader.sync_everything "/srv/downloaded" catalog
                 (mkWorld stale_a_bin ok_server) in
  let second := Downloader.sync_everything "/srv/downloaded" catalog (final first) in
  outcome first = Ok tt
  /\ requests (trace first) = [url_of "a.bin"]
  /\ fs (final first) !! "/srv/downloaded/ce-full/a.bin"
     = Some (File true true (bytes_of "x"))
  /\ outcome second = Ok tt
  /\ requests (trace second) = []
  /\ final second = final first.
Proof. vm_compute. repeat split. Qed.

(** ** The theorems at concrete inputs *)

Lemma C1_witness :
  let w := mkWorld a_bin_on_disk ok_server in
  verify_md5sum "/srv/downloaded/ce-full/b.bin" (JStr "abc") w
    = (Ok false, w, [Print (MsgNotExist "/srv/downloaded/ce-full/b.bin")])
  /\ verify_md5sum "/srv/downloaded/ce-full/a.bin" JNull w = (Ok true, w, [])
  /\ (exists same : bool,
        verify_md5sum "/srv/downloaded/ce-full/a.bin" (JStr "abc") w
          = (Ok same, w,
             if same then []
             else [Print (MsgChecksum "/srv/downloaded/ce-full/a.bin"
                            (MD5.hexdigest (bytes_of "x")))])
        /\ (same = true <-> JStr "abc" = JStr (MD5.hexdigest (bytes_of "x")))
        /\ lower_hex (MD5.hexdigest (bytes_of "x")) = true
        /\ String.length (MD5.hexdigest (bytes_of "x")) = 32%nat)
  /\ verify_md5sum "/srv/downloaded/ce-full/" (JStr "abc") w
     = (Raise IsADirectoryError, w, []).
Proof.
  cbv zeta. split; [|split; [|split]].
  - apply (proj1 (C1_verify_md5sum _ _ _)). vm_compute. reflexivity.
  - apply (proj1 (proj2 (C1_verify_md5sum _ _ _))).
    + exists (File true true (bytes_of "x")). vm_compute. reflexivity.
    + reflexivity.
  - apply (proj1 (proj2 (proj2 (C1_verify_md5sum _ _ _))) true).
    + vm_compute. reflexivity.
    + reflexivity.
  - apply (proj2 (proj2 (proj2 (C1_verify_md5sum _ _ _))) Dir).
    + vm_compute. reflexivity.
    + exact I.
    + reflexivity.
Defined.

Lemma C2_witness :
  (let w := mkWorld a_bin_on_disk ok_server in
   Downloader.sync_file ce_full (JObj a_bin) w
     = (Ok tt, w, [Print (MsgTarget (target_of ce_full "a.bin"))])
   /\ requests (trace (Downloader.sync_file ce_full (JObj a_bin) w)) = [])
  /\ (let w := mkWorld empty_category ok_server in
      outcome (verify_md5sum (target_of ce_full "a.bin")
                 (JStr "9dd4e461268c8034f5c8564e155c67a6") w) = Ok false
      /\ requests (trace (Downloader.sync_file ce_full (JObj a_bin) w))
         = [url_of "a.bin"])
  /\ (let w := mkWorld a_bin_on_disk ok_server in
      Downloader.sync_file ce_full (JObj [("file_name", JStr "a.bin")]) w
        = (Raise (KeyError "md5"), w, [])
      /\ requests (trace (Downloader.sync_file ce_full
                            (JObj [("file_name", JStr "a.bin")]) w)) = []).
Proof.
  cbv zeta. split; [|split].
  - apply (proj1 (proj1 (C2_fetch_iff_verify_fails ce_full a_bin "a.bin"
                           (mkWorld a_bin_on_disk ok_server) eq_refl eq_refl)
                    (JStr "9dd4e461268c8034f5c8564e155c67a6") eq_refl)).
    vm_compute. reflexivity.
  - apply (proj2 (proj1 (C2_fetch_iff_verify_fails ce_full a_bin "a.bin"
                           (mkWorld empty_category ok_server) eq_refl eq_refl)
                    (JStr "9dd4e461268c8034f5c8564e155c67a6") eq_refl)).
    vm_compute. reflexivity.
  - apply (proj2 (C2_fetch_iff_verify_fails ce_full [("file_name", JStr "a.bin")]
                    "a.bin" (mkWorld a_bin_on_disk ok_server) eq_refl eq_refl)).
    reflexivity.
Defined.

Lemma C3_witness :
  let w := mkWorld empty_category ok_server in
  let full := Downloader.sync_everything "/srv/downloaded" mixed_catalog w in
  let known := Downloader.sync_everything "/srv/downloaded"
                 (List.filter recognized mixed_catalog) w in
  (outcome full = outcome known
   /\ final full = final known
   /\ skips_removed (trace full) (trace known)
   /\ requests (trace full) = requests (trace known))
  /\ Downloader.sync_category "/srv/downloaded" ("legacy", JArr [JObj a_bin]) w
     = (Ok tt, w, [Print (MsgUnknownCategory "legacy")])
  /\ Downloader.sync_category "/srv/downloaded" ("other", JArr [JObj a_bin]) w
     = (Ok tt, w, [Print (MsgUnknownCategory "other")])
  /\ Sync.sync_everything mixed_catalog w
     = (Raise (AssertionError "unknown category: legacy"), w, [])
  /\ (let w0 := mkWorld other_in_cwd ok_server in
      Sync.sync_category ("other", JArr [JObj a_bin]) w0
      = (for_each (Sync.sync_file "other") [JObj a_bin] ;;
         print (MsgCategory "other" 1)) w0).
Proof.
  cbv zeta.
  destruct (C3_only_recognized_categories "/srv/downloaded" mixed_catalog
              (mkWorld empty_category ok_server))
    as (Hrun & Hskip & _ & _ & Hassert & _ & Hother).
  split; [exact Hrun|].
  split; [apply Hskip; reflexivity|].
  split; [apply Hskip; reflexivity|].
  split; [apply Hassert; reflexivity|].
  apply (Hother [JObj a_bin]). exists Dir. vm_compute. reflexivity.
Defined.

Lemma C4_witness :
  let w := mkWorld empty_category ok_server in
  (exists d name,
     JObj a_bin = JObj d
     /\ dict_get d "file_name" = Some (JStr name)
     /\ eligible name = true
     /\ "/srv/downloaded/ce-full/a.bin" = target_of ce_full name
     /\ PyStr.rpartition "/" "/srv/downloaded/ce-full/a.bin" = (ce_full, "/", name))
  /\ Downloader.sync_file ce_full (JObj evil) w
     = (Ok tt, w, [Print (MsgDeepPath (JStr "sub/dir/evil.bin"))])
  /\ Downloader.sync_file ce_full (JObj bundle) w = (Ok tt, w, []).
Proof.
  cbv zeta. split; [|split].
  - apply (proj1 (C4_writes_stay_in_category_dir ce_full
                    (mkWorld empty_category ok_server))).
    vm_compute. discriminate.
  - apply (proj1 (proj2 (C4_writes_stay_in_category_dir ce_full _)));
      reflexivity.
  - apply (proj2 (proj2 (C4_writes_stay_in_category_dir ce_full _)) bundle "bundle.zip");
      reflexivity.
Defined.

Lemma C6_witness :
  (let w := mkWorld empty_category not_found_server in
   let after := for_each (Downloader.sync_file ce_full) [JObj bundle] w in
   for_each (Downloader.sync_file ce_full) [JObj a_bin; JObj bundle] w =
     (outcome after, final after,
      (trace (verify_md5sum (target_of ce_full "a.bin")
                (JStr "9dd4e461268c8034f5c8564e155c67a6") w)
       ++ [Print (MsgRedownload (JStr "a.bin"));
           Print (MsgDownloading (url_of "a.bin")); Get (url_of "a.bin");
           Print (MsgStatus (status_code (remote w (url_of "a.bin"))) (url_of "a.bin"));
           Print (MsgTarget (target_of ce_full "a.bin"))])
      ++ trace after))
  /\ (let w := mkWorld empty_category no_length_server in
      for_each (Downloader.sync_file ce_full) [JObj a_bin; JObj bundle] w =
        (Raise TypeError, w,
         trace (verify_md5sum (target_of ce_full "a.bin")
                  (JStr "9dd4e461268c8034f5c8564e155c67a6") w)
         ++ [Print (MsgRedownload (JStr "a.bin"));
             Print (MsgDownloading (url_of "a.bin")); Get (url_of "a.bin")])).
Proof.
  cbv zeta. split.
  - apply (proj1 (C6_bad_status_continues ce_full a_bin "a.bin"
                    (JStr "9dd4e461268c8034f5c8564e155c67a6") [JObj bundle]
                    (mkWorld empty_category not_found_server)
                    eq_refl eq_refl eq_refl eq_refl)).
    vm_compute. discriminate.
  - apply (proj2 (C6_bad_status_continues ce_full a_bin "a.bin"
                    (JStr "9dd4e461268c8034f5c8564e155c67a6") [JObj bundle]
                    (mkWorld empty_category no_length_server)
                    eq_refl eq_refl eq_refl eq_refl)); reflexivity.
Defined.

Lemma C7_witness :
  let w := mkWorld a_bin_on_disk not_found_server in
  let once := Downloader.sync_file ce_full (JObj a_bin_no_digest) w in
  (verify_md5sum (target_of ce_full "a.bin") (JStr "") w = (Ok true, w, [])
   /\ once = (Ok tt, w, [Print (MsgTarget (target_of ce_full "a.bin"))])
   /\ requests (trace once) = []
   /\ Downloader.sync_file ce_full (JObj a_bin_no_digest) (final once) = once)
  /\ Downloader.sync_file ce_full (JObj [("file_name", JStr "a.bin")]) w
     = (Raise (KeyError "md5"), w, []).
Proof.
  cbv zeta. split.
  - apply (proj1 (C7_empty_digest_checks_presence_only ce_full a_bin_no_digest
                    "a.bin" (mkWorld a_bin_on_disk not_found_server)
                    eq_refl eq_refl)
             (JStr "") (File true true (bytes_of "x")));
      vm_compute; reflexivity.
  - apply (proj1 (proj2 (C7_empty_digest_checks_presence_only ce_full
                           [("file_name", JStr "a.bin")] "a.bin"
                           (mkWorld a_bin_on_disk not_found_server)
                           eq_refl eq_refl))).
    reflexivity.
Defined.

Lemma C8_witness :
  let w := mkWorld a_bin_on_disk ok_server in
  (truthy (JStr "abc") = false ->
     verify_md5sum ce_full (JStr "abc") w = (Ok true, w, []))
  /\ (truthy (JStr "abc") = true ->
        verify_md5sum ce_full (JStr "abc") w = (Raise IsADirectoryError, w, [])).
Proof.
  apply (C8_unreadable_raises ce_full (JStr "abc")
           (mkWorld a_bin_on_disk ok_server) Dir).
  - vm_compute. reflexivity.
  - exact I.
Defined.


Lemma C10_witness :
  let w := mkWorld empty_category ok_server in
  PyStr.contains_char "." "zip" = false
  /\ PyStr.rpartition "." "zip" = ("", "", "zip")
  /\ Downloader.sync_file ce_full (JObj [("file_name", JStr "zip")]) w = (Ok tt, w, [])
  /\ Sync.sync_file "ce-full" (JObj [("file_name", JStr "zip")]) w = (Ok tt, w, []).
Proof.
  cbv zeta.
  pose proof (C10_dotless_zip_bz2_skipped ce_full [("file_name", JStr "zip")] "zip"
                (mkWorld empty_category ok_server) eq_refl (or_introl eq_refl))
    as (H1 & H2 & H3 & _).
  pose proof (C10_dotless_zip_bz2_skipped "ce-full" [("file_name", JStr "zip")] "zip"
                (mkWorld empty_category ok_server) eq_refl (or_introl eq_refl))
    as (_ & _ & _ & H4).
  repeat split; assumption.
Defined.

(** * Further properties *)

(** ** [download_file]: what it writes and when *)

Lemma with_fs_with_fs w f1 f2 : with_fs (with_fs w f1) f2 = with_fs w f2.
Proof. reflexivity. Qed.

Lemma for_each_write p r wr data bs w :
  fs w !! p = Some (File r wr data) ->
  for_each (write p) (map (fun b => [b]) bs) w
    = (Ok tt, with_fs w (<[p := File r wr (data ++ bs)]> (fs w)), []).
Proof.
  revert w data. induction bs as [|b bs IH]; intros w data Hp.
  - cbn [map for_each]. rewrite app_nil_r, insert_id by exact Hp.
    destruct w. reflexivity.
  - cbn [map for_each].
    assert (Hw : write p [b] w
                 = (Ok tt, with_fs w (<[p := File r wr (data ++ [b])]> (fs w)), [])).
    { unfold write. rewrite Hp. reflexivity. }
    rewrite (bind_ok _ _ _ _ _ _ Hw).
    rewrite (IH _ (data ++ [b])) by (cbn; apply lookup_insert_eq).
    unfold outcome, final, trace. cbn [fst snd app fs with_fs remote].
    rewrite insert_insert_eq, <- app_assoc. reflexivity.
Qed.

Lemma bound_at_ordinary f p : ordinary p = true -> bound_at f p = f !! p.
Proof.
  unfold ordinary, bound_at. destruct (refused p); [discriminate|].
  intros [_ Hl]%andb_true_iff. apply negb_true_iff in Hl. rewrite Hl. reflexivity.
Qed.

(** What [open(p, 'wb')] finds when it succeeds: an ordinary path, free
    or bound to a file that may be written. *)
Lemma open_wb_check_inr f p r :
  open_wb_check f p = inr r ->
  ordinary p = true
  /\ ((f !! p = None /\ r = true) \/ exists data, f !! p = Some (File r true data)).
Proof.
  unfold open_wb_check, ordinary, bound_at.
  destruct (refused p); [discriminate|].
  destruct (is_special (basename p)).
  { repeat match goal with
           | |- context [match ?x with _ => _ end] => destruct x
           end; discriminate. }
  destruct (name_too_long p).
  { repeat match goal with
           | |- context [match ?x with _ => _ end] => destruct x
           end; discriminate. }
  destruct (f !! p) as [[r' [] data|]|]; try discriminate.
  - intros [= <-]. split; [reflexivity|]. right. eauto.
  - destruct (dir_of f (parent p)) as [[]|]; try discriminate.
    intros [= <-]. split; [reflexivity|]. left. auto.
Qed.

Lemma open_wb_check_ok f path :
  writable_target f path = true ->
  open_wb_check f path = inr (readable_after f path).
Proof.
  unfold writable_target, readable_after.
  intros [Ho Hw]%andb_true_iff. unfold open_wb_check.
  rewrite (bound_at_ordinary _ _ Ho).
  unfold ordinary in Ho. destruct (refused path); [discriminate|].
  apply andb_true_iff in Ho as [Hs Hl]. apply negb_true_iff in Hs, Hl.
  rewrite Hs, Hl.
  destruct (f !! path) as [[r [] data|]|]; try discriminate; [reflexivity|].
  destruct (dir_of f (parent path)) as [[]|]; try discriminate. reflexivity.
Qed.

Lemma open_wb_check_fails f path :
  writable_target f path = false -> exists e, open_wb_check f path = inl e.
Proof.
  intros H. destruct (open_wb_check f path) as [e|r] eqn:Hc; [eauto|].
  exfalso.
  assert (Ht : writable_target f path = true); [|congruence].
  destruct (open_wb_check_inr _ _ _ Hc) as [Ho Hp].
  unfold writable_target. rewrite Ho. cbn [andb].
  destruct Hp as [[Hn _]|[data Hd]].
  - rewrite Hn. revert Hc. unfold open_wb_check.
    rewrite (bound_at_ordinary _ _ Ho), Hn.
    unfold ordinary in Ho. destruct (refused path); [discriminate|].
    apply andb_true_iff in Ho as [Hs Hl]. apply negb_true_iff in Hs.
    rewrite Hs. destruct (dir_of f (parent path)) as [[]|]; try discriminate.
    reflexivity.
  - rewrite Hd. reflexivity.
Qed.

Lemma open_wb_ok path w :
  writable_target (fs w) path = true ->
  open_wb path w
    = (Ok tt,
       with_fs w (<[path := File (readable_after (fs w) path) true []]> (fs w)),
       []).
Proof.
  intros H. unfold open_wb. rewrite (open_wb_check_ok _ _ H). reflexivity.
Qed.

Lemma open_wb_fails path w :
  writable_target (fs w) path = false ->
  exists e, open_wb path w = (Raise e, w, []).
Proof.
  intros H. destruct (open_wb_check_fails _ _ H) as [e He].
  exists e. unfold open_wb. rewrite He. reflexivity.
Qed.

Lemma download_file_ok (name path : string) (w : world) :
  let resp := remote w (url_of name) in
  status_code resp = 200 ->
  length_ok resp = true ->
  writable_target (fs w) path = true ->
  download_file (JStr name) path w
    = (Ok JNull,
       with_fs w (<[path := File (readable_after (fs w) path) true (body resp)]> (fs w)),
       [Print (MsgDownloading (url_of name)); Get (url_of name);
        Print (MsgSaved path)]).
Proof.
  cbv zeta. intros Hs Hl Hw. rewrite download_file_unfold. unfold after_get.
  rewrite Hs. cbn [Z.eqb Pos.eqb negb].
  unfold length_ok in Hl. unfold py_int.
  destruct (content_length (remote w (url_of name))) as [s|]; [|discriminate].
  destruct (PyInt.parse s) as [n|]; [|discriminate].
  rewrite bind_ret_l.
  rewrite (bind_ok _ _ _ _ _ _ (open_wb_ok _ _ Hw)).
  unfold iter_content.
  rewrite (bind_ok _ _ _ _ _ _
             (for_each_write path _ true [] (body (remote w (url_of name))) _
                (lookup_insert_eq _ _ _))).
  unfold outcome, final, trace, bind, print, ret.
  cbn [fst snd app fs with_fs remote]. rewrite insert_insert_eq. reflexivity.
Qed.


(** X1. A 200 response whose length header parses, to a target that can
    be opened: the call returns [None], the file holds exactly the body
    of the response, and the trace is the download line, the request and
    the saved line.  The declared length is never compared with the
    body. *)
Theorem download_file_writes_body (name path : string) (w : world) :
  let resp := remote w (url_of name) in
  status_code resp = 200 ->
  length_ok resp = true ->
  writable_target (fs w) path = true ->
  download_file (JStr name) path w
    = (Ok JNull,
       with_fs w (<[path := File (readable_after (fs w) path) true (body resp)]> (fs w)),
       [Print (MsgDownloading (url_of name)); Get (url_of name);
        Print (MsgSaved path)]).
Proof. apply download_file_ok. Qed.

(** X2. When the status is not 200, the length header is missing or not
    a number, or the target cannot be opened for writing, the call does
    not return [None], sends its one request, and leaves the world as it
    was: the target is neither created nor truncated. *)
Theorem download_file_failure_leaves_target (name path : string) (w : world) :
  let resp := remote w (url_of name) in
  status_code resp <> 200 \/ length_ok resp = false
    \/ writable_target (fs w) path = false ->
  final (download_file (JStr name) path w) = w
  /\ outcome (download_file (JStr name) path w) <> Ok JNull
  /\ requests (trace (download_file (JStr name) path w)) = [url_of name].
Proof.
  cbv zeta. intros H.
  assert (Hrun : final (after_get (remote w (url_of name)) (url_of name) path w) = w
                 /\ outcome (after_get (remote w (url_of name)) (url_of name) path w)
                    <> Ok JNull).
  { unfold after_get.
    destruct (status_code (remote w (url_of name)) =? 200) eqn:Hs;
      [|split; [reflexivity|discriminate]].
    apply Z.eqb_eq in Hs. cbn [negb].
    unfold length_ok in H. unfold py_int.
    destruct (content_length (remote w (url_of name))) as [s|];
      [|split; [reflexivity|discriminate]].
    destruct (PyInt.parse s) as [n|]; [|split; [reflexivity|discriminate]].
    rewrite bind_ret_l.
    destruct H as [H|[H|H]]; [congruence | discriminate |].
    destruct (open_wb_fails _ _ H) as [e He].
    rewrite (bind_raise _ _ _ _ _ _ He). split; [reflexivity|discriminate]. }
  rewrite download_file_unfold.
  split; [apply Hrun|]. split; [apply Hrun|].
  rewrite <- download_file_unfold. apply download_requests.
Qed.

(** X3. Whatever the server answers and whatever is on disk, a call
    sends exactly one request, for [FILE_URL + quote(filename)], never
    talks to the server twice, and changes nothing in the file system
    but what is at [path]. *)
Theorem download_file_one_request_one_path (name path : string) (w : world) :
  requests (trace (download_file (JStr name) path w)) = [url_of name]
  /\ remote (final (download_file (JStr name) path w)) = remote w
  /\ forall p, p <> path ->
       fs (final (download_file (JStr name) path w)) !! p = fs w !! p.
Proof.
  split; [apply download_requests|]. apply download_only_at.
Qed.

(** ** Distinct names, distinct URLs *)

Lemma hex_upper_code n :
  (n < 16)%N ->
  N_of_ascii (PyStr.hex_upper n) = (if (n <? 10)%N then 48 + n else 55 + n)%N.
Proof.
  intros Hn. unfold PyStr.hex_upper. apply N_ascii_embedding.
  destruct (n <? 10)%N; lia.
Qed.

Lemma hex_upper_inj n m :
  (n < 16)%N -> (m < 16)%N -> PyStr.hex_upper n = PyStr.hex_upper m -> n = m.
Proof.
  intros Hn Hm H. apply (f_equal N_of_ascii) in H.
  rewrite !hex_upper_code in H by assumption.
  destruct (n <? 10)%N eqn:En, (m <? 10)%N eqn:Em;
    rewrite ?N.ltb_lt, ?N.ltb_ge in *; lia.
Qed.

Lemma ascii_of_nibbles a b :
  PyStr.hex_upper (N_of_ascii a / 16) = PyStr.hex_upper (N_of_ascii b / 16) ->
  PyStr.hex_upper (N_of_ascii a mod 16) = PyStr.hex_upper (N_of_ascii b mod 16) ->
  a = b.
Proof.
  intros Hhi Hlo.
  pose proof (N_ascii_bounded a) as Ba. pose proof (N_ascii_bounded b) as Bb.
  apply hex_upper_inj in Hhi;
    [|apply N.Div0.div_lt_upper_bound; lia|apply N.Div0.div_lt_upper_bound; lia].
  apply hex_upper_inj in Hlo; [|apply N.mod_lt; lia|apply N.mod_lt; lia].
  rewrite <- (ascii_N_embedding a), <- (ascii_N_embedding b). f_equal.
  rewrite (N.div_mod (N_of_ascii a) 16), (N.div_mod (N_of_ascii b) 16) by lia.
  congruence.
Qed.

Lemma quote_inj s t : PyStr.quote s = PyStr.quote t -> s = t.
Proof.
  revert t. induction s as [|a s IH]; intros [|b t]; cbn [PyStr.quote]; cbv zeta.
  - reflexivity.
  - destruct (PyStr.quote_safe b); discriminate.
  - destruct (PyStr.quote_safe a); discriminate.
  - destruct (PyStr.quote_safe a) eqn:Ha, (PyStr.quote_safe b) eqn:Hb.
    + intros [= -> H]. f_equal. apply IH, H.
    + intros [= -> _]. discriminate Ha.
    + intros [= <- _]. discriminate Hb.
    + intros [= Hhi Hlo H]. f_equal; [|apply IH, H].
      apply ascii_of_nibbles; assumption.
Qed.

(** X4. Two file names are requested at the same URL only when they are
    the same name: [quote] escapes without ever merging two names. *)
Theorem url_of_inj (name name' : string) :
  url_of name = url_of name' -> name = name'.
Proof.
  unfold url_of. intros H. apply quote_inj.
  exact (String.app_inj FILE_URL _ _ H).
Qed.

(** ** [verify_md5sum] only reads *)


(** ** A stale file is replaced once *)

Lemma hexdigest_truthy data : truthy (JStr (MD5.hexdigest data)) = true.
Proof.
  pose proof (proj2 (hexdigest_ok data)) as Hlen. cbn [truthy].
  destruct (MD5.hexdigest data); [discriminate Hlen | reflexivity].
Qed.

Lemma verify_false_readable_after target want w :
  ordinary target = true ->
  truthy want = true ->
  outcome (verify_md5sum target want w) = Ok false ->
  readable_after (fs w) target = true.
Proof.
  intros Ho Hw Hv. unfold readable_after.
  destruct (fs w !! target) as [[[] wr data|]|] eqn:Hp; try reflexivity.
  rewrite <- (node_at_ordinary _ _ Ho) in Hp.
  rewrite (verify_unreadable target want w _ Hp eq_refl Hw) in Hv.
  discriminate Hv.
Qed.

(** X6. An eligible entry whose local copy is missing or has the wrong
    digest, a target that can be written, and a server that answers 200
    with a body whose MD5 is the catalog's digest: the entry is fetched
    with one request, the target then holds the body, and syncing the
    entry again from the world so reached sends nothing and changes
    nothing. *)
Theorem sync_file_converges
    (cp : string) (d : dict) (name h : string) (w : world) :
  dict_get d "file_name" = Some (JStr name) ->
  dict_get d "md5" = Some (JStr h) ->
  eligible name = true ->
  outcome (verify_md5sum (target_of cp name) (JStr h) w) = Ok false ->
  writable_target (fs w) (target_of cp name) = true ->
  status_code (remote w (url_of name)) = 200 ->
  length_ok (remote w (url_of name)) = true ->
  MD5.hexdigest (body (remote w (url_of name))) = h ->
  let first := Downloader.sync_file cp (JObj d) w in
  outcome first = Ok tt
  /\ fs (final first) !! target_of cp name
     = Some (File true true (body (remote w (url_of name))))
  /\ (forall p, p <> target_of cp name -> fs (final first) !! p = fs w !! p)
  /\ requests (trace first) = [url_of name]
  /\ Downloader.sync_file cp (JObj d) (final first)
     = (Ok tt, final first, [Print (MsgTarget (target_of cp name))]).
Proof.
  intros Hn Hm He Hv Hwr Hs Hl Hh. cbv zeta.
  assert (Htruthy : truthy (JStr h) = true) by (rewrite <- Hh; apply hexdigest_truthy).
  assert (Ho : ordinary (target_of cp name) = true)
    by (unfold writable_target in Hwr; apply andb_true_iff in Hwr; tauto).
  pose proof (verify_false_readable_after _ _ _ Ho Htruthy Hv) as Hr.
  assert (Hrun : verify_md5sum (target_of cp name) (JStr h) w
                 = (Ok false, w, trace (verify_md5sum (target_of cp name) (JStr h) w))).
  { rewrite (run_eta (verify_md5sum _ _ _)) at 1.
    rewrite Hv, verify_final. reflexivity. }
  set (w1 := with_fs w (<[target_of cp name :=
                           File true true (body (remote w (url_of name)))]> (fs w))).
  assert (Hfirst : Downloader.sync_file cp (JObj d) w
                   = (Ok tt, w1,
                      trace (verify_md5sum (target_of cp name) (JStr h) w)
                      ++ [Print (MsgRedownload (JStr name));
                          Print (MsgDownloading (url_of name)); Get (url_of name);
                          Print (MsgSaved (target_of cp name));
                          Print (MsgTarget (target_of cp name))])).
  { rewrite (sync_file_eligible _ _ _ _ _ Hn Hm He).
    rewrite (bind_ok _ _ _ _ _ _ Hrun). cbn [negb].
    unfold bind, print, ret.
    rewrite (download_file_ok name (target_of cp name) w Hs Hl Hwr), Hr.
    reflexivity. }
  rewrite Hfirst.
  change (final (Ok tt, w1, ?t)) with w1.
  split; [reflexivity|].
  split; [apply lookup_insert_eq|].
  split; [intros p Hp; cbn; apply lookup_insert_ne; congruence|].
  split.
  { unfold trace at 1. cbn [snd].
    rewrite requests_app, verify_offline. reflexivity. }
  rewrite (sync_file_eligible _ _ _ _ _ Hn Hm He).
  assert (Hv1 : verify_md5sum (target_of cp name) (JStr h) w1 = (Ok true, w1, [])).
  { rewrite (verify_readable _ _ w1 true (body (remote w (url_of name))))
      by (try (rewrite (node_at_ordinary _ _ Ho); apply lookup_insert_eq); assumption).
    rewrite Hh. cbn [str_eq]. rewrite String.eqb_refl. reflexivity. }
  rewrite (bind_ok _ _ _ _ _ _ Hv1). reflexivity.
Qed.

(** ** Entries the loop cannot read *)

(** X7. An entry that is a dict without a [file_name] key raises
    [KeyError], and an entry that is not a dict raises [TypeError]; in
    both scripts the exception leaves the loop at once, with nothing
    printed, requested or written, and the entries after it are not
    looked at. *)
Theorem malformed_entry_aborts_loop
    (cp : string) (file : json) (rest : list json) (w : world) :
  (forall d, file = JObj d -> dict_get d "file_name" = None ->
     for_each (Downloader.sync_file cp) (file :: rest) w
       = (Raise (KeyError "file_name"), w, [])
     /\ for_each (Sync.sync_file cp) (file :: rest) w
        = (Raise (KeyError "file_name"), w, []))
  /\ ((forall d, file <> JObj d) ->
      for_each (Downloader.sync_file cp) (file :: rest) w = (Raise TypeError, w, [])
      /\ for_each (Sync.sync_file cp) (file :: rest) w = (Raise TypeError, w, [])).
Proof.
  split.
  - intros d -> Hn. cbn [for_each].
    split; apply bind_raise;
      [unfold Downloader.sync_file | unfold Sync.sync_file];
      unfold getitem; rewrite Hn; reflexivity.
  - intros Hnd. cbn [for_each].
    destruct file as [| | | | |d]; try (split; reflexivity).
    exfalso. exact (Hnd d eq_refl).
Qed.

(** ** No entry is requested twice *)

Lemma trace_bind {A B} (m : M A) (k : A -> M B) w :
  trace (bind m k w)
  = match outcome (m w) with
    | Ok a => trace (m w) ++ trace (k a (final (m w)))
    | Raise _ => trace (m w)
    end.
Proof.
  unfold bind, trace, outcome, final.
  destruct (m w) as [[[a|e] w1] t1]; [|reflexivity].
  cbn [fst snd]. destruct (k a w1) as [[r w2] t2]. reflexivity.
Qed.

Lemma sync_file_requests cp file w :
  requests (trace (Downloader.sync_file cp file w)) = []
  \/ exists d name,
       file = JObj d
       /\ dict_get d "file_name" = Some (JStr name)
       /\ eligible name = true
       /\ requests (trace (Downloader.sync_file cp file w)) = [url_of name].
Proof.
  destruct file as [| | | |l|d]; try (left; reflexivity).
  destruct (dict_get d "file_name") as [v|] eqn:Hn.
  2:{ left. unfold Downloader.sync_file, getitem. rewrite Hn. reflexivity. }
  destruct v as [| | |name|l|d'].
  1-3: left; unfold Downloader.sync_file, getitem; rewrite Hn; reflexivity.
  - destruct (PyStr.contains_char "/" name) eqn:Hs.
    { left. rewrite (sync_file_deep _ _ _ _ Hn Hs). reflexivity. }
    destruct (PyStr.in_tuple (ext name) ["zip"; "bz2"]) eqn:Hx.
    { left. rewrite (sync_file_excluded _ _ _ _ Hn Hs Hx). reflexivity. }
    assert (He : eligible name = true)
      by (unfold eligible; rewrite Hs, Hx; reflexivity).
    destruct (dict_get d "md5") as [md5|] eqn:Hm.
    2:{ left. unfold Downloader.sync_file, getitem. rewrite Hn, Hm.
        rewrite bind_ret_l. unfold py_in. rewrite bind_ret_l, Hs.
        rewrite bind_ret_l. unfold rpartition_tail. rewrite bind_ret_l.
        fold (ext name). rewrite Hx. rewrite bind_ret_l.
        unfold str_add. rewrite bind_ret_l. reflexivity. }
    rewrite (sync_file_eligible _ _ _ _ _ Hn Hm He).
    pose proof (verify_offline (target_of cp name) md5 w) as Hoff.
    pose proof (verify_final (target_of cp name) md5 w) as Hfin.
    pose proof (download_requests name (target_of cp name) w) as Hd.
    unfold bind, print, ret.
    destruct (verify_md5sum (target_of cp name) md5 w) as [[[[]|e] w1] t1];
      unfold final, trace in *; cbn [fst snd negb] in *; subst w1.
    + left. rewrite requests_app, Hoff. reflexivity.
    + right. exists d, name. repeat split; try assumption.
      destruct (download_file (JStr name) (target_of cp name) w) as [[[j|e] w2] t2];
        cbn [fst snd app] in *; rewrite !requests_app, Hoff; cbn [requests app];
        rewrite ?requests_app, Hd; reflexivity.
    + left. exact Hoff.
  - left. unfold Downloader.sync_file, getitem. rewrite Hn.
    rewrite bind_ret_l. unfold py_in. rewrite bind_ret_l.
    destruct (existsb _ l); rewrite bind_ret_l; reflexivity.
  - left. unfold Downloader.sync_file, getitem. rewrite Hn.
    rewrite bind_ret_l. unfold py_in. rewrite bind_ret_l.
    destruct (existsb _ d'); rewrite bind_ret_l; reflexivity.
Qed.

(** X8. Over any list of entries, well formed or not, the loop sends at
    most one request per entry, and every URL it requests is the URL of
    the [file_name] of an eligible entry of the list: nothing is retried
    and nothing outside the list is fetched. *)
Theorem at_most_one_request_per_entry
    (cp : string) (entries : list json) (w : world) :
  (List.length (requests (trace (for_each (Downloader.sync_file cp) entries w)))
   <= List.length entries)%nat
  /\ Forall (fun url => exists file name,
                In file entries /\ names_eligible file name /\ url = url_of name)
            (requests (trace (for_each (Downloader.sync_file cp) entries w))).
Proof.
  revert w. induction entries as [|file entries IH]; intros w.
  - split; [reflexivity | constructor].
  - cbn [for_each]. rewrite trace_bind.
    assert (Hone : (List.length (requests (trace (Downloader.sync_file cp file w))) <= 1)%nat
                   /\ Forall (fun url => exists name,
                                 names_eligible file name /\ url = url_of name)
                             (requests (trace (Downloader.sync_file cp file w)))).
    { destruct (sync_file_requests cp file w) as [-> | (d & name & Hf & Hn & He & ->)].
      - split; [cbn; lia | constructor].
      - split; [reflexivity|]. constructor; [|constructor].
        exists name. split; [exists d; auto | reflexivity]. }
    destruct Hone as [Hlen Hall].
    assert (Hall' : Forall (fun url => exists file0 name,
                              In file0 (file :: entries)
                              /\ names_eligible file0 name /\ url = url_of name)
                           (requests (trace (Downloader.sync_file cp file w)))).
    { eapply Forall_impl; [exact Hall|]. cbv beta.
      intros url (name & H1 & H2). exists file, name. cbn [In]. auto. }
    destruct (outcome (Downloader.sync_file cp file w)) as [[]|e].
    + destruct (IH (final (Downloader.sync_file cp file w))) as [IHlen IHall].
      rewrite requests_app, length_app. cbn [List.length].
      split; [lia|].
      apply Forall_app. split; [exact Hall'|].
      eapply Forall_impl; [exact IHall|]. cbv beta.
      intros url (f0 & name & H1 & H2 & H3). exists f0, name. cbn [In]. auto.
    + split; [cbn [List.length]; lia | exact Hall'].
Qed.

(** ** Archives, by suffix *)

Lemma string_app_assoc s t u :
  ((s ++ t) ++ u)%string = (s ++ (t ++ u))%string.
Proof.
  induction s as [|a s IH]; [reflexivity|].
  rewrite !append_cons, IH. reflexivity.
Qed.

Lemma contains_char_app c s t :
  PyStr.contains_char c (s ++ t)%string
  = PyStr.contains_char c s || PyStr.contains_char c t.
Proof.
  induction s as [|a s IH]; [reflexivity|].
  rewrite append_cons. cbn [PyStr.contains_char]. rewrite IH.
  apply orb_assoc.
Qed.

(** X9. Every name that ends in [.zip] or [.bz2] and has no ['/'] is
    skipped by both scripts without a line, a request or a write,
    whatever comes before the last dot.  With a ['/'] in it the name is
    reported as a deep path instead: that check comes first. *)
Theorem archive_suffix_skipped
    (cp : string) (d : dict) (stem suffix : string) (w : world) :
  dict_get d "file_name" = Some (JStr (stem ++ "." ++ suffix)) ->
  suffix = "zip" \/ suffix = "bz2" ->
  (PyStr.contains_char "/" stem = false ->
     Downloader.sync_file cp (JObj d) w = (Ok tt, w, [])
     /\ Sync.sync_file cp (JObj d) w = (Ok tt, w, []))
  /\ (PyStr.contains_char "/" stem = true ->
      Downloader.sync_file cp (JObj d) w
        = (Ok tt, w, [Print (MsgDeepPath (JStr (stem ++ "." ++ suffix)))])).
Proof.
  intros Hn Hsuf.
  assert (Hdot : PyStr.contains_char "." suffix = false)
    by (destruct Hsuf as [-> | ->]; reflexivity).
  assert (Hsl : PyStr.contains_char "/" suffix = false)
    by (destruct Hsuf as [-> | ->]; reflexivity).
  split.
  - intros Hstem.
    assert (Hs : PyStr.contains_char "/" (stem ++ "." ++ suffix) = false).
    { rewrite !contains_char_app, Hstem, Hsl. reflexivity. }
    assert (Hx : PyStr.in_tuple (ext (stem ++ "." ++ suffix)) ["zip"; "bz2"] = true).
    { unfold ext. rewrite <- string_app_assoc, (rpartition_app _ _ _ Hdot).
      destruct Hsuf as [-> | ->]; reflexivity. }
    split;
      [apply (sync_file_excluded cp d _ w Hn Hs Hx)
      |apply (sync_py_file_excluded cp d _ w Hn Hs Hx)].
  - intros Hstem. apply (sync_file_deep cp d _ w Hn).
    rewrite contains_char_app, Hstem. reflexivity.
Qed.

(** ** The two scripts, entry by entry *)

Lemma without_redownload_app t1 t2 :
  without_redownload (t1 ++ t2) = without_redownload t1 ++ without_redownload t2.
Proof.
  induction t1 as [|[[]|] t1 IH]; simpl; rewrite ?IH; reflexivity.
Qed.

Lemma verify_trace_plain path want w :
  without_redownload (trace (verify_md5sum path want w))
  = trace (verify_md5sum path want w).
Proof.
  destruct (node_at (fs w) path) as [n|] eqn:Hp.
  - destruct (truthy want) eqn:Hw.
    + destruct n as [[] wr data|].
      * rewrite (verify_readable _ _ _ _ _ Hp Hw).
        destruct (str_eq (MD5.hexdigest data) want); reflexivity.
      * rewrite (verify_unreadable path want w _ Hp eq_refl Hw). reflexivity.
      * rewrite (verify_unreadable path want w _ Hp I Hw). reflexivity.
    + rewrite (verify_no_digest _ _ _ _ Hp Hw). reflexivity.
  - rewrite (verify_missing _ _ _ Hp). reflexivity.
Qed.

Lemma writes_trace_nil path chunks w :
  trace (for_each (write path) chunks w) = [].
Proof.
  revert w. induction chunks as [|c chunks IH]; intros w; [reflexivity|].
  cbn [for_each]. rewrite trace_bind.
  assert (Hw : trace (write path c w) = []).
  { unfold write. destruct (fs w !! path) as [[]|]; reflexivity. }
  rewrite Hw. destruct (outcome (write path c w)); [apply IH | reflexivity].
Qed.

Lemma download_trace_plain name path w :
  without_redownload (trace (download_file (JStr name) path w))
  = trace (download_file (JStr name) path w).
Proof.
  rewrite download_file_unfold. unfold trace at 1 3. cbn [snd].
  rewrite without_redownload_app. f_equal.
  unfold after_get.
  destruct (negb (status_code (remote w (url_of name)) =? 200)); [reflexivity|].
  unfold py_int.
  destruct (content_length (remote w (url_of name))) as [s|]; [|reflexivity].
  destruct (PyInt.parse s) as [n|]; [|reflexivity].
  rewrite bind_ret_l, trace_bind.
  assert (Ho : trace (open_wb path w) = []).
  { unfold open_wb. destruct (open_wb_check (fs w) path); reflexivity. }
  rewrite Ho. destruct (outcome (open_wb path w)); [|reflexivity].
  cbn [app]. rewrite trace_bind, writes_trace_nil.
  destruct (outcome (for_each _ _ _)); reflexivity.
Qed.

(** *** What does not look at the cache *)

Lemma blind_ret {A} (a : A) : blind (ret a).
Proof. intros w c. reflexivity. Qed.

Lemma blind_raise {A} (e : exn) : blind (@raise A e).
Proof. intros w c. reflexivity. Qed.

Lemma blind_print msg : blind (print msg).
Proof. intros w c. reflexivity. Qed.

Lemma blind_bind {A B} (m : M A) (k : A -> M B) :
  blind m -> (forall a, blind (k a)) -> blind (bind m k).
Proof.
  intros Hm Hk w c. unfold bind. rewrite Hm.
  destruct (m w) as [[[a|e] w1] t1]; unfold outcome, final, trace; cbn [fst snd];
    [|reflexivity].
  rewrite Hk. destruct (k a w1) as [[r w2] t2]. reflexivity.
Qed.

Lemma blind_for_each {A} (body : A -> M unit) l :
  (forall x, blind (body x)) -> blind (for_each body l).
Proof.
  intros Hb. induction l as [|x l IH]; [apply blind_ret|].
  cbn [for_each]. apply blind_bind; [apply Hb | intros _; exact IH].
Qed.

Lemma blind_py_int x : blind (py_int x).
Proof.
  intros w c. unfold py_int.
  destruct x as [s|]; [destruct (PyInt.parse s)|]; reflexivity.
Qed.

Lemma blind_open_wb p : blind (open_wb p).
Proof.
  intros w c. unfold open_wb. cbn [fs with_cache].
  destruct (open_wb_check (fs w) p); reflexivity.
Qed.

Lemma blind_write p chunk : blind (write p chunk).
Proof.
  intros w c. unfold write. cbn [fs with_cache].
  destruct (fs w !! p) as [[]|]; reflexivity.
Qed.

Lemma blind_after_get resp url path : blind (after_get resp url path).
Proof.
  unfold after_get. destruct (negb (status_code resp =? 200)).
  - apply blind_bind; [apply blind_print | intros _; apply blind_ret].
  - apply blind_bind; [apply blind_py_int|]. intros _.
    apply blind_bind; [apply blind_open_wb|]. intros _.
    apply blind_bind; [apply blind_for_each; intros ch; apply blind_write|].
    intros _. apply blind_bind; [apply blind_print | intros _; apply blind_ret].
Qed.

(** [download_file] of [sync.py] on a URL the cache does not hold: the
    server is asked, and the rest runs in the world that remembers its
    answer. *)
Lemma sync_download_unfold name path w :
  cache w !! url_of name = None ->
  Sync.download_file (JStr name) path w =
    (outcome (after_get (remote w (url_of name)) (url_of name) path
                (remember w (url_of name))),
     final (after_get (remote w (url_of name)) (url_of name) path
              (remember w (url_of name))),
     [Print (MsgDownloading (url_of name)); Get (url_of name)]
       ++ trace (after_get (remote w (url_of name)) (url_of name) path
                   (remember w (url_of name)))).
Proof.
  intros Hc. unfold Sync.download_file, quote. rewrite bind_ret_l.
  fold (url_of name).
  unfold bind at 1 2, print at 1, Sync.requests_get. rewrite Hc. cbv zeta.
  fold (remember w (url_of name)).
  fold (after_get (remote w (url_of name)) (url_of name) path).
  destruct (after_get _ _ _ _) as [[r w2] t2]. reflexivity.
Qed.

(** On such a URL the two [download_file] differ in the cache only. *)
Lemma sync_download_miss name path w :
  cache w !! url_of name = None ->
  outcome (Sync.download_file (JStr name) path w)
    = outcome (download_file (JStr name) path w)
  /\ trace (Sync.download_file (JStr name) path w)
     = trace (download_file (JStr name) path w)
  /\ fs (final (Sync.download_file (JStr name) path w))
     = fs (final (download_file (JStr name) path w))
  /\ remote (final (Sync.download_file (JStr name) path w))
     = remote (final (download_file (JStr name) path w)).
Proof.
  intros Hc. rewrite (sync_download_unfold _ _ _ Hc), download_file_unfold.
  unfold remember.
  destruct (status_code (remote w (url_of name)) =? 200); [|repeat split].
  rewrite blind_after_get. unfold outcome, final, trace. cbn [fst snd].
  repeat split.
Qed.

(** X10. On every entry, well formed or not, whose file is not in the
    cache of [sync.py], the loop body of [sync.py] ends as the loop body
    of [downloader.py] does, with the same file system, and prints and
    requests the same things in the same order, except that it lacks the
    [redownloading] line. *)
Theorem scripts_agree_on_entry (cp : string) (file : json) (w : world) :
  (forall name, names_eligible file name -> cache w !! url_of name = None) ->
  outcome (Sync.sync_file cp file w) = outcome (Downloader.sync_file cp file w)
  /\ fs (final (Sync.sync_file cp file w))
     = fs (final (Downloader.sync_file cp file w))
  /\ remote (final (Sync.sync_file cp file w))
     = remote (final (Downloader.sync_file cp file w))
  /\ trace (Sync.sync_file cp file w)
     = without_redownload (trace (Downloader.sync_file cp file w)).
Proof.
  intros Hcache.
  destruct file as [| | | |l|d]; try (repeat split; reflexivity).
  destruct (dict_get d "file_name") as [v|] eqn:Hn.
  2:{ unfold Downloader.sync_file, Sync.sync_file, getitem. rewrite Hn.
      repeat split; reflexivity. }
  destruct v as [| | |name|l|d'].
  1-3: unfold Downloader.sync_file, Sync.sync_file, getitem; rewrite Hn;
       repeat split; reflexivity.
  - destruct (eligible name) eqn:He.
    + destruct (dict_get d "md5") as [md5|] eqn:Hm.
      * assert (Hc : cache w !! url_of name = None).
        { apply Hcache. exists d. auto. }
        rewrite (sync_file_eligible _ _ _ _ _ Hn Hm He).
        rewrite (sync_py_file_eligible _ _ _ _ _ Hn Hm He).
        pose proof (verify_trace_plain (target_of cp name) md5 w) as Hv.
        pose proof (verify_final (target_of cp name) md5 w) as Hfin.
        unfold bind, print, ret.
        destruct (verify_md5sum (target_of cp name) md5 w) as [[[[]|e] w1] t1];
          unfold outcome, final, trace in *; cbn [fst snd negb] in *; subst w1.
        -- rewrite without_redownload_app, Hv. repeat split; reflexivity.
        -- pose proof (download_trace_plain name (target_of cp name) w) as Hd.
           destruct (sync_download_miss name (target_of cp name) w Hc)
             as (Ho & Ht & Hf & Hr).
           destruct (download_file (JStr name) (target_of cp name) w)
             as [[[j|e] w2] t2];
             destruct (Sync.download_file (JStr name) (target_of cp name) w)
               as [[[j'|e'] w2'] t2'];
             unfold outcome, final, trace in *; cbn [fst snd app] in *;
             try discriminate Ho; subst t2';
             rewrite !without_redownload_app, Hv; cbn [without_redownload app];
             rewrite ?without_redownload_app, Hd; repeat split; congruence.
        -- repeat split. symmetry. exact Hv.
      * apply eligible_inv in He as [Hs Hx].
        unfold Downloader.sync_file, Sync.sync_file, getitem. rewrite Hn, Hm.
        rewrite !bind_ret_l. unfold py_in. rewrite !bind_ret_l, Hs.
        rewrite !bind_ret_l. unfold rpartition_tail. rewrite !bind_ret_l.
        fold (ext name). rewrite Hx. rewrite !bind_ret_l.
        unfold str_add. rewrite !bind_ret_l. repeat split; reflexivity.
    + unfold eligible in He.
      unfold Downloader.sync_file, Sync.sync_file, getitem. rewrite Hn.
      rewrite !bind_ret_l. unfold py_in. rewrite !bind_ret_l.
      destruct (PyStr.contains_char "/" name); cbn [negb andb] in He.
      { rewrite !bind_ret_l. repeat split; reflexivity. }
      rewrite !bind_ret_l. unfold rpartition_tail. rewrite !bind_ret_l.
      fold (ext name).
      destruct (PyStr.in_tuple (ext name) ["zip"; "bz2"]); [|discriminate He].
      repeat split; reflexivity.
  - unfold Downloader.sync_file, Sync.sync_file, getitem. rewrite Hn.
    rewrite !bind_ret_l. unfold py_in. rewrite !bind_ret_l.
    destruct (existsb _ l); rewrite !bind_ret_l; repeat split; reflexivity.
  - unfold Downloader.sync_file, Sync.sync_file, getitem. rewrite Hn.
    rewrite !bind_ret_l. unfold py_in. rewrite !bind_ret_l.
    destruct (existsb _ d'); rewrite !bind_ret_l; repeat split; reflexivity.
Qed.

(** ** [sync.py] stops at an unknown category *)

Lemma bind_assoc {A B C} (m : M A) (k : A -> M B) (k' : B -> M C) w :
  bind (bind m k) k' w = bind m (fun a => bind (k a) k') w.
Proof.
  unfold bind. destruct (m w) as [[[a|e] w1] t1]; [|reflexivity].
  destruct (k a w1) as [[[b|e] w2] t2]; [|reflexivity].
  destruct (k' b w2) as [[r w3] t3]. rewrite app_assoc. reflexivity.
Qed.

Lemma for_each_app {A} (body : A -> M unit) l1 l2 w :
  for_each body (l1 ++ l2) w
  = bind (for_each body l1) (fun _ => for_each body l2) w.
Proof.
  revert w. induction l1 as [|x l1 IH]; intros w.
  - cbn [app for_each]. rewrite bind_ret_l. reflexivity.
  - cbn [app for_each]. rewrite bind_assoc. apply bind_ext.
    intros _ w1. apply IH.
Qed.

(** X11. In [sync.py] a key outside the five known categories ends the
    run with [AssertionError] wherever it stands in the catalog: the
    categories before it have been synced by then, the categories after
    it play no part, and the run never ends normally. *)
Theorem sync_py_unknown_category_stops
    (c : string) (files : json) (before after : dict) (w : world) :
  PyStr.in_tuple c Sync.KNOWN = false ->
  Sync.sync_everything (before ++ (c, files) :: after) w
    = Sync.sync_everything (before ++ [(c, files)]) w
  /\ (outcome (Sync.sync_everything before w) = Ok tt ->
      outcome (Sync.sync_everything (before ++ (c, files) :: after) w)
        = Raise (AssertionError ("unknown category: " ++ c)%string)
      /\ final (Sync.sync_everything (before ++ (c, files) :: after) w)
         = final (Sync.sync_everything before w)
      /\ trace (Sync.sync_everything (before ++ (c, files) :: after) w)
         = trace (Sync.sync_everything before w))
  /\ outcome (Sync.sync_everything (before ++ (c, files) :: after) w) <> Ok tt.
Proof.
  intros Hc. unfold Sync.sync_everything. rewrite !for_each_app.
  assert (Hstop : forall l w1,
             for_each Sync.sync_category ((c, files) :: l) w1
             = (Raise (AssertionError ("unknown category: " ++ c)%string), w1, [])).
  { intros l w1. apply (sync_py_unknown_asserts c files l w1 Hc). }
  split; [apply bind_ext; intros _ w1; rewrite !Hstop; reflexivity|].
  unfold bind, outcome, final, trace.
  destruct (for_each Sync.sync_category before w) as [[[[]|e] w1] t1];
    cbn [fst snd]; rewrite ?Hstop; cbn [fst snd].
  - split; [|discriminate]. intros _. rewrite app_nil_r. repeat split.
  - split; [discriminate|discriminate].
Qed.

(** ** Nothing is ever removed *)

Lemma same_kind_refl n : same_kind n n.
Proof. destruct n; simpl; auto. Qed.

Lemma same_kind_trans n1 n2 n3 :
  same_kind n1 n2 -> same_kind n2 n3 -> same_kind n1 n3.
Proof.
  destruct n1, n2, n3; simpl; try tauto. intros [-> ->] [-> ->]. auto.
Qed.

Lemma persists_refl w : persists w w.
Proof. split; [reflexivity|]. eauto using same_kind_refl. Qed.

Lemma persists_trans w1 w2 w3 : persists w1 w2 -> persists w2 w3 -> persists w1 w3.
Proof.
  intros [Hr1 H1] [Hr2 H2]. split; [congruence|].
  intros p n Hp. destruct (H1 p n Hp) as (n' & Hp' & Hk).
  destruct (H2 p n' Hp') as (n'' & Hp'' & Hk').
  eauto using same_kind_trans.
Qed.

Lemma persists_insert w p n' :
  (forall n, fs w !! p = Some n -> same_kind n n') ->
  persists w (with_fs w (<[p := n']> (fs w))).
Proof.
  intros H. split; [reflexivity|]. intros q n Hq. cbn [fs with_fs].
  destruct (decide (q = p)) as [->|Hne].
  - exists n'. rewrite lookup_insert_eq. auto.
  - exists n. rewrite lookup_insert_ne by congruence. auto using same_kind_refl.
Qed.

Lemma stays_bind {A B} (m : M A) (k : A -> M B) :
  stays m -> (forall a, stays (k a)) -> stays (bind m k).
Proof. apply keeps_bind; [apply persists_trans | tauto]. Qed.

Lemma stays_for_each {A} (body : A -> M unit) l :
  (forall x, stays (body x)) -> stays (for_each body l).
Proof.
  apply keeps_for_each; [apply persists_refl | apply persists_trans | tauto..].
Qed.

Lemma stays_same {A} (m : M A) : (forall w, final (m w) = w) -> stays m.
Proof. intros H w. rewrite H. split; [apply persists_refl | exact I]. Qed.

Lemma stays_reads {A} (m : M A) : reads m -> stays m.
Proof. intros H. apply stays_same. intros w. apply (proj1 (H w)). Qed.

(** [os.mkdir] binds a spelling that was free. *)
Lemma mkdir_check_free f p k : mkdir_check f p = inr k -> f !! k = None.
Proof.
  assert (Hat : forall k0, mkdir_at f k0 = inr k -> f !! k = None).
  { intros k0. unfold mkdir_at, bound_at.
    destruct (name_too_long k0) eqn:Hl.
    - destruct (dir_of f (parent k0)) as [[]|]; discriminate.
    - destruct (f !! k0) eqn:Hk; [discriminate|].
      destruct (dir_of f (parent k0)) as [[]|]; try discriminate.
      intros [= <-]. exact Hk. }
  unfold mkdir_check. destruct (refused p); [discriminate|].
  destruct (is_special (basename p)); [|apply Hat].
  destruct (dot_tail p); [|apply Hat].
  destruct (bound_at f (core_of p)) as [[]|]; discriminate.
Qed.

Lemma stays_mkdir p : stays (mkdir p).
Proof.
  intros w. split; [|exact I]. unfold mkdir.
  destruct (mkdir_check (fs w) p) as [e|k] eqn:Hc; [apply persists_refl|].
  apply persists_insert. intros n Hn.
  rewrite (mkdir_check_free _ _ _ Hc) in Hn. discriminate.
Qed.

Lemma stays_open_wb p : stays (open_wb p).
Proof.
  intros w. split; [|exact I]. unfold open_wb.
  destruct (open_wb_check (fs w) p) as [e|r] eqn:Hc; [apply persists_refl|].
  apply persists_insert. intros n Hn.
  destruct (open_wb_check_inr _ _ _ Hc) as [_ [[Hnone _]|[data Hd]]];
    rewrite Hn in *; [discriminate|].
  injection Hd as ->. simpl. auto.
Qed.

Lemma stays_write p chunk : stays (write p chunk).
Proof.
  intros w. split; [|exact I]. unfold write.
  destruct (fs w !! p) as [[r wr data|]|] eqn:Hp; try apply persists_refl.
  apply persists_insert. intros n Hn. rewrite Hp in Hn.
  injection Hn as <-. simpl. auto.
Qed.

Lemma stays_download filename path : stays (download_file filename path).
Proof.
  unfold download_file.
  apply stays_bind; [destruct filename; apply stays_same; reflexivity|]. intros q.
  apply stays_bind; [apply stays_same; reflexivity|]. intros _.
  apply stays_bind; [apply stays_same; reflexivity|]. intros resp.
  destruct (negb (status_code resp =? 200)).
  - apply stays_reads. auto with frame.
  - apply stays_bind; [apply stays_reads; auto with frame|]. intros _.
    apply stays_bind; [apply stays_open_wb|]. intros _.
    apply stays_bind; [apply stays_for_each; intros c; apply stays_write|].
    intros _. apply stays_reads. auto with frame.
Qed.

Lemma stays_cached_get url : stays (Sync.requests_get url).
Proof.
  intros w. split; [|exact I]. unfold Sync.requests_get.
  destruct (cache w !! url); [apply persists_refl|].
  unfold final. cbn [fst snd].
  destruct (status_code (remote w url) =? 200); [|apply persists_refl].
  split; [reflexivity|]. intros p n Hp. exists n. auto using same_kind_refl.
Qed.

Lemma stays_sync_download filename path : stays (Sync.download_file filename path).
Proof.
  unfold Sync.download_file.
  apply stays_bind; [destruct filename; apply stays_same; reflexivity|]. intros q.
  apply stays_bind; [apply stays_same; reflexivity|]. intros _.
  apply stays_bind; [apply stays_cached_get|]. intros resp.
  destruct (negb (status_code resp =? 200)).
  - apply stays_reads. auto with frame.
  - apply stays_bind; [apply stays_reads; auto with frame|]. intros _.
    apply stays_bind; [apply stays_open_wb|]. intros _.
    apply stays_bind; [apply stays_for_each; intros c; apply stays_write|].
    intros _. apply stays_reads. auto with frame.
Qed.

Lemma getitem_same v key w : final (getitem v key w) = w.
Proof. destruct v; try reflexivity. simpl. destruct (dict_get d key); reflexivity. Qed.

Lemma stays_getitem v key : stays (getitem v key).
Proof. apply stays_same. intros w. apply getitem_same. Qed.

Lemma stays_print m : stays (print m).
Proof. apply stays_same. reflexivity. Qed.

Lemma stays_ret {A} (a : A) : stays (ret a).
Proof. apply stays_same. reflexivity. Qed.

Lemma stays_py_in c v : stays (py_in c v).
Proof. apply stays_same. destruct v; reflexivity. Qed.

Lemma stays_rpartition_tail v sep : stays (rpartition_tail v sep).
Proof. apply stays_same. destruct v; reflexivity. Qed.

Lemma stays_str_add prefix v : stays (str_add prefix v).
Proof. apply stays_same. destruct v; reflexivity. Qed.

Lemma stays_iter v : stays (iter v).
Proof. apply stays_same. destruct v; reflexivity. Qed.

Lemma stays_len v : stays (len v).
Proof. apply stays_same. destruct v; reflexivity. Qed.

Lemma stays_sequence_iter vs : stays (sequence (map iter vs)).
Proof.
  induction vs as [|v vs IH]; [apply stays_ret|]. cbn [map sequence].
  apply stays_bind; [apply stays_iter|]. intros a.
  apply stays_bind; [exact IH|]. intros r. apply stays_ret.
Qed.

Lemma stays_flatten files : stays (flatten files).
Proof.
  destruct files; try apply stays_ret. cbn [flatten]. unfold chain_values.
  apply stays_bind; [|intros l; apply stays_ret].
  apply stays_bind; [apply stays_sequence_iter | intros g; apply stays_ret].
Qed.

Create HintDb stays.

#[local] Hint Resolve stays_getitem stays_print stays_ret stays_py_in
  stays_rpartition_tail stays_str_add stays_iter stays_len stays_flatten
  stays_download stays_sync_download stays_mkdir : stays.

Ltac stays_step :=
  first [ solve [auto with stays]
        | apply stays_reads; solve [auto using reads_verify, reads_path_exists with frame]
        | apply stays_bind; [|intros ?]
        | apply stays_for_each; intros ?
        | match goal with
          | |- stays (if ?b then _ else _) => destruct b
          end ].

Lemma stays_sync_file cp file : stays (Downloader.sync_file cp file).
Proof. unfold Downloader.sync_file. repeat stays_step. Qed.

Lemma stays_sync_py_file c file : stays (Sync.sync_file c file).
Proof. unfold Sync.sync_file. repeat stays_step. Qed.

#[local] Hint Resolve stays_sync_file stays_sync_py_file : stays.

Lemma stays_sync_category DP item : stays (Downloader.sync_category DP item).
Proof.
  destruct item as [c files]. unfold Downloader.sync_category.
  destruct (negb (PyStr.in_tuple c Downloader.CATEGORIES)); [auto with stays|].
  repeat stays_step.
Qed.

Lemma stays_sync_py_category item : stays (Sync.sync_category item).
Proof.
  destruct item as [c files]. unfold Sync.sync_category.
  destruct (negb (PyStr.in_tuple c Sync.KNOWN)); [apply stays_same; reflexivity|].
  repeat stays_step.
Qed.

(** X12. A sync run of either script, on any catalog and from any world,
    whether it ends normally or with an exception, removes nothing:
    every path that existed is still there, a directory is still a
    directory, a file is still a file with the permissions it had, and
    the server answers as before. *)
Theorem sync_never_removes (DP : string) (all_files : dict) (w : world) :
  persists w (final (Downloader.sync_everything DP all_files w))
  /\ persists w (final (Sync.sync_everything all_files w)).
Proof.
  split.
  - apply (stays_for_each _ all_files (stays_sync_category DP) w).
  - apply (stays_for_each _ all_files stays_sync_py_category w).
Qed.

(** ** The category directory *)

Lemma components_nonempty p : components p <> [].
Proof.
  destruct p as [|a p]; [discriminate|]. cbn [components].
  destruct (Ascii.eqb a "/"); [discriminate|].
  destruct (components p); discriminate.
Qed.

Lemma components_plain name :
  PyStr.contains_char "/" name = false -> components name = [name].
Proof.
  induction name as [|a name IH]; [reflexivity|].
  cbn [PyStr.contains_char components].
  intros [Ha Hs]%orb_false_iff. rewrite Ha, (IH Hs). reflexivity.
Qed.

(** The components of [s + '/' + name]. *)
Lemma components_join s name :
  PyStr.contains_char "/" name = false ->
  components ((s ++ "/") ++ name)%string = components s ++ [name].
Proof.
  intros Hn. induction s as [|a s IH].
  - rewrite append_nil_l, append_cons, append_nil_l.
    cbn [components]. rewrite Ascii.eqb_refl, (components_plain _ Hn). reflexivity.
  - rewrite !append_cons. cbn [components]. rewrite IH.
    destruct (Ascii.eqb a "/"); [reflexivity|].
    pose proof (components_nonempty s) as Hne.
    destruct (components s); [congruence | reflexivity].
Qed.

Lemma concat_cons2 sep x y ys :
  String.concat sep (x :: y :: ys) = (x ++ sep ++ String.concat sep (y :: ys))%string.
Proof. reflexivity. Qed.

(** ['/'.join(p.split('/'))] is [p]. *)
Lemma concat_components p : String.concat "/" (components p) = p.
Proof.
  induction p as [|a p IH]; [reflexivity|].
  cbn [components]. pose proof (components_nonempty p) as Hne.
  destruct (components p) as [|c cs]; [congruence|].
  destruct (Ascii.eqb_spec a "/") as [->|Ha].
  - rewrite concat_cons2, IH, append_nil_l, append_cons, append_nil_l.
    reflexivity.
  - destruct cs as [|c' cs].
    + cbn [String.concat] in *. rewrite IH. reflexivity.
    + rewrite concat_cons2. rewrite concat_cons2 in IH.
      rewrite append_cons, IH. reflexivity.
Qed.

Lemma basename_join s name :
  PyStr.contains_char "/" name = false ->
  basename ((s ++ "/") ++ name)%string = name.
Proof.
  intros Hn. unfold basename. rewrite (components_join _ _ Hn).
  apply last_last.
Qed.

(** The trailing special components of [cp + '/' + name], for a special
    [name] after an ordinary [cp]. *)
Lemma drop_special_join cp name :
  PyStr.contains_char "/" name = false ->
  is_special name = true ->
  is_special (basename cp) = false ->
  drop_special (rev (components ((cp ++ "/") ++ name)%string))
  = ([name], rev (components cp)).
Proof.
  intros Hn Hs Hb. rewrite (components_join _ _ Hn), rev_unit.
  cbn [drop_special]. rewrite Hs.
  unfold basename in Hb.
  rewrite (app_removelast_last "" (components_nonempty cp)), rev_unit.
  cbn [drop_special]. rewrite Hb. reflexivity.
Qed.

(** A category path that the system calls accept is an ordinary one. *)
Lemma category_path_ordinary DP c :
  PyStr.in_tuple c Downloader.CATEGORIES = true ->
  refused (DP ++ "/" ++ c) = None ->
  ordinary (DP ++ "/" ++ c) = true.
Proof.
  intros Hc Hr. unfold ordinary, name_too_long. rewrite Hr.
  assert (Hsl : PyStr.contains_char "/" c = false).
  { revert Hc. unfold PyStr.in_tuple, Downloader.CATEGORIES. cbn [existsb].
    rewrite !orb_true_iff, !String.eqb_eq.
    intros [->|[->|[->|[->|H]]]]; try reflexivity. discriminate H. }
  rewrite <- string_app_assoc, (basename_join _ _ Hsl).
  revert Hc. unfold PyStr.in_tuple, Downloader.CATEGORIES. cbn [existsb].
  rewrite !orb_true_iff, !String.eqb_eq.
  intros [->|[->|[->|[->|H]]]]; try reflexivity. discriminate H.
Qed.

Lemma recognized_no_slash c :
  PyStr.in_tuple c Downloader.CATEGORIES = true ->
  PyStr.contains_char "/" c = false.
Proof.
  unfold PyStr.in_tuple, Downloader.CATEGORIES. cbn [existsb].
  rewrite !orb_true_iff, !String.eqb_eq.
  intros [->|[->|[->|[->|H]]]]; try reflexivity. discriminate H.
Qed.

Lemma parent_join DP c :
  DP <> "" ->
  PyStr.contains_char "/" c = false ->
  parent (DP ++ "/" ++ c) = DP.
Proof.
  intros Hdp Hc. unfold parent.
  rewrite <- string_app_assoc, (rpartition_app _ _ _ Hc).
  destruct DP; [congruence | reflexivity].
Qed.

Lemma stays_category_loop cp files :
  stays (let* files := flatten files in
         let* entries := iter files in
         for_each (Downloader.sync_file cp) entries ;;
         let* n := len files in
         print (MsgCategory cp n)).
Proof. repeat stays_step. Qed.

Lemma dir_of_nonempty f d : d <> "" -> dir_of f d = node_at f d.
Proof.
  intros H. unfold dir_of. destruct (String.eqb_spec d ""); [contradiction|].
  reflexivity.
Qed.

(** [os.mkdir] of an ordinary path at which nothing exists looks at the
    directory it is to create the entry in. *)
Lemma mkdir_ordinary f p :
  ordinary p = true ->
  node_at f p = None ->
  mkdir_check f p
  = match dir_of f (parent p) with
    | Some Dir => inr p
    | _ => inl (lookup_error f p)
    end.
Proof.
  intros Ho Hn. rewrite (node_at_ordinary _ _ Ho) in Hn.
  unfold mkdir_check, mkdir_at. rewrite (bound_at_ordinary _ _ Ho), Hn.
  unfold ordinary in Ho. destruct (refused p); [discriminate|].
  apply andb_true_iff in Ho as [Hs Hl]. apply negb_true_iff in Hs, Hl.
  rewrite Hs, Hl. reflexivity.
Qed.

(** The error under a regular file. *)
Lemma lookup_error_file f k r wr data :
  k <> "" ->
  dir_of f (parent k) = Some (File r wr data) ->
  lookup_error f k = NotADirectoryError.
Proof.
  intros Hk Hd. unfold lookup_error.
  destruct k as [|a k]; [congruence|].
  cbn [String.length ancestors why_missing]. rewrite Hd. reflexivity.
Qed.

(** The error in a missing directory that a directory holds. *)
Lemma lookup_error_missing f DP c :
  DP <> "" ->
  parent (DP ++ "/" ++ c) = DP ->
  dir_of f DP = None ->
  dir_of f (parent DP) = Some Dir ->
  name_too_long DP = false ->
  lookup_error f (DP ++ "/" ++ c) = FileNotFoundError.
Proof.
  intros Hdp Hpar Hroot Hup Hlen. unfold lookup_error.
  rewrite !length_app_string.
  destruct DP as [|a DP']; [congruence|].
  cbn [String.length Nat.add ancestors why_missing].
  rewrite Hpar, Hroot.
  destruct (String.eqb (String a DP') "" || String.eqb (String a DP') "/") eqn:Htop.
  - reflexivity.
  - rewrite Nat.add_comm. cbn [String.length Nat.add ancestors why_missing].
    rewrite Hup, Hlen. reflexivity.
Qed.

(** X13. For a recognized category whose directory does not exist yet:
    when [os.mkdir] refuses the category path outright (a NUL byte, or
    [PATH_MAX] characters and more), its exception ends the category
    before anything is printed or requested.  Otherwise, when the
    download root is missing the category raises in the same way, the
    exception that of the nearest ancestor there is: [FileNotFoundError]
    when the root is missing from a directory and its name is not too
    long; when the root is a regular file it raises
    [NotADirectoryError]; when the root is a directory the category
    directory is created, and it is still a directory when the category
    ends, however it ends. *)
Theorem category_directory_is_created
    (DP c : string) (files : json) (w : world) :
  PyStr.in_tuple c Downloader.CATEGORIES = true ->
  DP <> "" ->
  node_at (fs w) (DP ++ "/" ++ c)%string = None ->
  (forall e, refused (DP ++ "/" ++ c)%string = Some e ->
     Downloader.sync_category DP (c, files) w = (Raise e, w, []))
  /\ (refused (DP ++ "/" ++ c)%string = None ->
      (node_at (fs w) DP = None ->
         Downloader.sync_category DP (c, files) w
           = (Raise (lookup_error (fs w) (DP ++ "/" ++ c)%string), w, [])
         /\ (dir_of (fs w) (parent DP) = Some Dir -> name_too_long DP = false ->
             lookup_error (fs w) (DP ++ "/" ++ c)%string = FileNotFoundError))
      /\ (forall r wr data, node_at (fs w) DP = Some (File r wr data) ->
            Downloader.sync_category DP (c, files) w
              = (Raise NotADirectoryError, w, []))
      /\ (node_at (fs w) DP = Some Dir ->
          node_at (fs (final (Downloader.sync_category DP (c, files) w)))
            (DP ++ "/" ++ c)%string
            = Some Dir)).
Proof.
  intros Hc Hdp Hpath.
  pose proof (parent_join DP c Hdp (recognized_no_slash c Hc)) as Hpar.
  assert (Hstep : Downloader.sync_category DP (c, files) w
                  = bind (mkdir (DP ++ "/" ++ c))
                      (fun _ =>
                         let* files := flatten files in
                         let* entries := iter files in
                         for_each (Downloader.sync_file (DP ++ "/" ++ c)) entries ;;
                         let* n := len files in
                         print (MsgCategory (DP ++ "/" ++ c) n)) w).
  { unfold Downloader.sync_category. rewrite Hc. cbn [negb].
    rewrite (bind_ok _ _ _ _ _ _ (path_exists_none _ _ Hpath)). cbn [negb app].
    symmetry. apply run_eta. }
  rewrite Hstep. clear Hstep.
  split.
  { intros e He. apply bind_raise. unfold mkdir, mkdir_check. rewrite He.
    reflexivity. }
  intros Href. pose proof (category_path_ordinary DP c Hc Href) as Hord.
  pose proof (mkdir_ordinary (fs w) _ Hord Hpath) as Hchk.
  rewrite Hpar, (dir_of_nonempty _ _ Hdp) in Hchk.
  split; [|split].
  - intros Hroot. split.
    + apply bind_raise. unfold mkdir. rewrite Hchk, Hroot. reflexivity.
    + intros Hup Hlen. apply lookup_error_missing; try assumption.
      rewrite (dir_of_nonempty _ _ Hdp). exact Hroot.
  - intros r wr data Hroot. apply bind_raise.
    unfold mkdir. rewrite Hchk, Hroot.
    rewrite (lookup_error_file (fs w) (DP ++ "/" ++ c) r wr data); [reflexivity| |].
    + destruct DP; [congruence | discriminate].
    + rewrite Hpar, (dir_of_nonempty _ _ Hdp). exact Hroot.
  - intros Hroot.
    assert (Hmk : mkdir (DP ++ "/" ++ c) w
                  = (Ok tt, with_fs w (<[(DP ++ "/" ++ c)%string := Dir]> (fs w)), [])).
    { unfold mkdir. rewrite Hchk, Hroot. reflexivity. }
    rewrite (bind_ok _ _ _ _ _ _ Hmk). unfold final at 1. cbn [fst snd].
    rewrite (node_at_ordinary _ _ Hord).
    destruct (stays_category_loop (DP ++ "/" ++ c) files
                (with_fs w (<[(DP ++ "/" ++ c)%string := Dir]> (fs w))))
      as [[_ Hkeep] _].
    destruct (Hkeep (DP ++ "/" ++ c)%string Dir (lookup_insert_eq _ _ _))
      as (n' & Hn' & Hk).
    rewrite Hn'. destruct n'; [contradiction | reflexivity].
Qed.

(** ** Category values that cannot be iterated *)

Lemma iter_ok v w : iterable v = true -> exists l, iter v w = (Ok l, w, []).
Proof. destruct v; try discriminate; intros _; eexists; reflexivity. Qed.

Lemma sequence_iter_raises vs w :
  existsb (fun v => negb (iterable v)) vs = true ->
  sequence (map iter vs) w = (Raise TypeError, w, []).
Proof.
  induction vs as [|v vs IH]; [discriminate|].
  cbn [existsb map sequence]. destruct (iterable v) eqn:Hv; cbn [negb orb].
  - intros H. destruct (iter_ok v w Hv) as [l Hl].
    rewrite (bind_ok _ _ _ _ _ _ Hl).
    rewrite (bind_raise _ _ _ _ _ _ (IH H)). reflexivity.
  - intros _. apply bind_raise. destruct v; try discriminate; reflexivity.
Qed.

Lemma bad_shape_raises {A} files (k : json -> list json -> M A) w :
  bad_shape files = true ->
  (let* files := flatten files in let* entries := iter files in k files entries) w
    = (Raise TypeError, w, []).
Proof.
  intros H. destruct files as [| | | | |d]; try discriminate; try reflexivity.
  cbn [bad_shape] in H. apply bind_raise. cbn [flatten]. apply bind_raise.
  unfold chain_values. apply bind_raise. apply sequence_iter_raises, H.
Qed.

(** X14. When the value of a category is [None], a boolean or a number,
    or a dict one of whose groups is, a recognized category whose
    directory exists raises [TypeError] before any entry is looked at,
    and so does the patch indexer on a category whose name ends in
    [-patch]; nothing is printed, requested or written. *)
Theorem uniterable_category_raises
    (DP c : string) (files : json) (w : world) (n : node)
    (py_format : json -> string) (v2p : gmap string (list json)) :
  bad_shape files = true ->
  (PyStr.in_tuple c Downloader.CATEGORIES = true ->
   node_at (fs w) (DP ++ "/" ++ c)%string = Some n ->
   Downloader.sync_category DP (c, files) w = (Raise TypeError, w, []))
  /\ (patch_category c = true ->
      index_category py_format v2p (c, files) w = (Raise TypeError, w, [])).
Proof.
  intros Hbad. split.
  - intros Hc Hpath. unfold Downloader.sync_category. rewrite Hc. cbn [negb].
    rewrite (bind_ok _ _ _ _ _ _ (path_exists_some _ _ _ Hpath)). cbn [negb].
    rewrite bind_ret_l. cbn [app]. rewrite <- run_eta.
    apply (bad_shape_raises files
             (fun files entries =>
                for_each (Downloader.sync_file (DP ++ "/" ++ c)) entries ;;
                let* n := len files in
                print (MsgCategory (DP ++ "/" ++ c) n)) w Hbad).
  - intros Hc. unfold index_category. fold (patch_category c). rewrite Hc.
    cbn [negb].
    apply (bad_shape_raises files
             (fun _ entries => fold_m (index_file py_format) entries v2p) w Hbad).
Qed.

(** ** The patch index holds nothing but the catalog *)

Lemma fold_m_invariant {A S} (P : S -> Prop) (body : S -> A -> M S) l :
  (forall x, In x l ->
     forall s w s' w' t, P s -> body s x w = (Ok s', w', t) -> P s') ->
  forall s w s' w' t, P s -> fold_m body l s w = (Ok s', w', t) -> P s'.
Proof.
  induction l as [|x l IH]; intros Hb s w s' w' t Hs.
  - intros [= <- _ _]. exact Hs.
  - cbn [fold_m]. intros (s1 & w1 & t1 & t2 & H1 & H2 & _)%bind_inv_ok.
    eapply (IH (fun y Hy => Hb y (or_intror Hy))); [|exact H2].
    eapply (Hb x (or_introl eq_refl)); eassumption.
Qed.

Lemma set_add_elems x s w s' w' t :
  set_add x s w = (Ok s', w', t) ->
  forall y, In y s' -> In y s \/ y = x.
Proof.
  unfold set_add. destruct (hashable x); [|discriminate].
  unfold ret. intros [= <- _ _] y.
  destruct (set_mem x s); [auto|].
  rewrite in_app_iff. cbn [In]. intros [H|[->|[]]]; auto.
Qed.

Lemma add_patch_justified py_format classified d name v s w s' w' t :
  dict_get d "file_name" = Some name ->
  origin py_format classified v name ->
  justified py_format classified s ->
  add_patch (JObj d) s v w = (Ok s', w', t) ->
  justified py_format classified s'.
Proof.
  intros Hn Hor Hs. unfold add_patch, getitem. rewrite Hn, bind_ret_l.
  intros (ps & w1 & t1 & t2 & Hadd & Hret & _)%bind_inv_ok.
  unfold ret in Hret. injection Hret as <- _ _.
  intros k set x Hk Hx.
  destruct (decide (k = v)) as [->|Hne].
  - rewrite lookup_insert_eq in Hk. injection Hk as <-.
    destruct (set_add_elems _ _ _ _ _ _ Hadd x Hx) as [Hold | ->]; [|exact Hor].
    destruct (s !! v) as [old|] eqn:Hv; [|destruct Hold].
    exact (Hs v old x Hv Hold).
  - rewrite lookup_insert_ne in Hk by congruence. exact (Hs k set x Hk Hx).
Qed.

Lemma index_file_justified py_format classified c es e s w s' w' t :
  In (c, es) classified ->
  patch_category c = true ->
  In e es ->
  wf_patch e = true ->
  justified py_format classified s ->
  index_file py_format s e w = (Ok s', w', t) ->
  justified py_format classified s'.
Proof.
  intros Hc Hp He Hwf Hs.
  destruct e as [| | | | |d]; try discriminate. cbn [wf_patch] in Hwf.
  destruct (dict_get d "file_name") as [name|] eqn:Hn; [|discriminate].
  apply andb_true_iff in Hwf as [[_ Hee]%andb_true_iff Hce].
  unfold index_file.
  rewrite (bind_ok _ _ _ _ _ _ (version_keys_returns py_format "EE " d _ Hee w)).
  rewrite (bind_ok _ _ _ _ _ _ (version_keys_returns py_format "CE " d _ Hce w)).
  intros Hrun.
  rewrite (run_eta (fold_m _ _ _ _)) in Hrun.
  injection Hrun as Ho Hf Ht.
  rewrite (run_eta (fold_m _ _ _ _)) in Ho. unfold outcome in Ho. cbn [fst] in Ho.
  revert Ho.
  destruct (fold_m (add_patch (JObj d)) _ s w) as [[[s2|e2] w2] t2] eqn:Hfold;
    cbn [fst]; [|discriminate].
  intros [= ->].
  eapply (fold_m_invariant (justified py_format classified)); [|exact Hs|exact Hfold].
  intros v Hv s0 w0 s1 w1 t1 Hs0 Hadd.
  eapply add_patch_justified; [exact Hn| |exact Hs0|exact Hadd].
  apply in_app_iff in Hv as [Hv|Hv]; apply in_map_iff in Hv as (y & <- & Hy);
    exists c, es, d, y; repeat split; auto.
Qed.

(** X15. On a catalog whose patch entries are well formed, the index
    holds nothing that the catalog does not: every name in the set of a
    version key is the [file_name] of an entry of a [-patch] category
    that lists a version which formats to that key. *)
Theorem index_holds_only_catalog_pairs
    (py_format : json -> string) (classified : list (string * list json))
    (w w' : world) (t : list event) (v2p : gmap string (list json)) :
  wf_classified classified = true ->
  req_patches py_format (catalog_of classified) w = (Ok v2p, w', t) ->
  forall k s x,
    v2p !! k = Some s -> In x s ->
    exists c es d y,
      In (c, es) classified
      /\ patch_category c = true
      /\ In (JObj d) es
      /\ dict_get d "file_name" = Some x
      /\ ((In y (versions_of d "ee_versions") /\ k = ("EE " ++ py_format y)%string)
          \/ (In y (versions_of d "ce_versions") /\ k = ("CE " ++ py_format y)%string)).
Proof.
  intros Hwf Hrun. unfold req_patches in Hrun.
  change (justified py_format classified v2p).
  eapply (fold_m_invariant (justified py_format classified)); [| |exact Hrun].
  2:{ intros k s x Hk. rewrite lookup_empty in Hk. discriminate. }
  intros [c' files] Hin s0 w0 s1 w1 t1 Hs0.
  apply in_map_iff in Hin as ([c es] & [= <- <-] & Hin).
  unfold wf_classified in Hwf. rewrite forallb_forall in Hwf.
  specialize (Hwf _ Hin). cbn [fst snd] in Hwf.
  unfold index_category. fold (patch_category c).
  destruct (patch_category c) eqn:Hp; cbn [negb orb] in *.
  2:{ intros [= <- _ _]. exact Hs0. }
  rewrite forallb_forall in Hwf.
  cbn [flatten]. rewrite bind_ret_l. cbn [iter]. rewrite bind_ret_l.
  apply (fold_m_invariant (justified py_format classified)); [|exact Hs0].
  intros e He s2 w2 s3 w3 t3 Hs2.
  eapply index_file_justified; eauto.
Qed.


(** ** [main] *)

Lemma write_text_ok p text w :
  writable_target (fs w) p = true ->
  write_text p text w
    = (Ok tt,
       with_fs w (<[p := File (readable_after (fs w) p) true (bytes_of text)]> (fs w)),
       []).
Proof.
  intros H. unfold write_text.
  rewrite (bind_ok _ _ _ _ _ _ (open_wb_ok _ _ H)).
  unfold write, outcome, final, trace. cbn [fst snd fs with_fs remote app].
  rewrite lookup_insert_eq. cbn [fst snd fs with_fs remote app].
  rewrite insert_insert_eq. reflexivity.
Qed.

Lemma bind_requests_get {B} url (k : response -> M B) w :
  bind (requests_get url) k w
  = (outcome (k (remote w url) w), final (k (remote w url) w),
     Get url :: trace (k (remote w url) w)).
Proof.
  unfold bind, requests_get. destruct (k (remote w url) w) as [[r w2] t2].
  reflexivity.
Qed.

Lemma bind_cached_miss {B} url (k : response -> M B) w :
  cache w !! url = None ->
  bind (Sync.requests_get url) k w
  = (outcome (k (remote w url) (remember w url)),
     final (k (remote w url) (remember w url)),
     Get url :: trace (k (remote w url) (remember w url))).
Proof.
  intros Hc. unfold bind, Sync.requests_get. rewrite Hc. cbv zeta.
  fold (remember w url).
  destruct (k (remote w url) (remember w url)) as [[r w2] t2]. reflexivity.
Qed.

Lemma bind_cached_hit {B} url (k : response -> M B) w resp :
  cache w !! url = Some resp ->
  bind (Sync.requests_get url) k w = k resp w.
Proof.
  intros Hc. unfold bind, Sync.requests_get. rewrite Hc.
  destruct (k resp w) as [[r w2] t2]. reflexivity.
Qed.

Lemma mkdir_ok p w :
  outcome (mkdir p w) = Ok tt -> mkdir p w = (Ok tt, final (mkdir p w), []).
Proof.
  unfold mkdir. destruct (mkdir_check (fs w) p); [discriminate|]. reflexivity.
Qed.

Lemma mkdir_raise p w e :
  outcome (mkdir p w) = Raise e -> mkdir p w = (Raise e, w, []).
Proof.
  unfold mkdir. destruct (mkdir_check (fs w) p); [|discriminate].
  intros [= ->]. reflexivity.
Qed.

Lemma items_not_dict v w :
  (forall d, v <> JObj d) -> items v w = (Raise AttributeError, w, []).
Proof.
  intros Hv. destruct v as [| | | | |d]; try reflexivity.
  exfalso. exact (Hv d eq_refl).
Qed.

Section MainProperties.

Variable json_loads : list byte -> option json.
Variable json_dumps : json -> string.

(** X17. When the body of the catalog response parses to a dict, [main]
    of [downloader.py], with its download root in place and [info.json]
    writable, is one catalog request, the dump of the catalog in place
    of what [info.json] held, and [sync_everything] on that dict; the
    status code of the catalog response is never looked at.  [main] of
    [sync.py] with no catalog in its cache is one catalog request and
    [sync_everything] in the world that remembers the answer; with a
    catalog in its cache it sends no catalog request and syncs the
    cached catalog, whatever the server would answer. *)
Theorem main_is_fetch_then_sync (DP : string) (d : dict) (w : world) :
  (forall n,
     json_loads (body (remote w INFO_URL)) = Some (JObj d) ->
     node_at (fs w) DP = Some n ->
     writable_target (fs w) "info.json" = true ->
     let run := Downloader.sync_everything DP d
                  (with_snapshot w (json_dumps (JObj d))) in
     downloader_main json_loads json_dumps DP w
       = (outcome run, final run, Get INFO_URL :: trace run))
  /\ (cache w !! INFO_URL = None ->
      json_loads (body (remote w INFO_URL)) = Some (JObj d) ->
      let run := Sync.sync_everything d (remember w INFO_URL) in
      sync_main json_loads w = (outcome run, final run, Get INFO_URL :: trace run))
  /\ (forall resp,
        cache w !! INFO_URL = Some resp ->
        json_loads (body resp) = Some (JObj d) ->
        sync_main json_loads w = Sync.sync_everything d w).
Proof.
  split; [|split].
  - intros n Hload Hroot Hwr. cbv zeta. unfold downloader_main, response_json.
    rewrite (bind_ok_nil _ _ _ _ _ (path_exists_some _ _ _ Hroot)). cbn [negb].
    rewrite bind_ret_l, bind_requests_get, Hload, bind_ret_l.
    rewrite (bind_ok_nil _ _ _ _ _ (write_text_ok "info.json" _ w Hwr)).
    cbn [items]. rewrite bind_ret_l. reflexivity.
  - intros Hc Hload. cbv zeta. unfold sync_main, response_json.
    rewrite (bind_cached_miss _ _ _ Hc), Hload, bind_ret_l.
    cbn [items]. rewrite bind_ret_l. reflexivity.
  - intros resp Hc Hload. unfold sync_main, response_json.
    rewrite (bind_cached_hit _ _ _ _ Hc), Hload, bind_ret_l.
    cbn [items]. rewrite bind_ret_l. reflexivity.
Qed.


End MainProperties.

(** ** Digests that can never match *)

Lemma str_eq_false s v : v <> JStr s -> str_eq s v = false.
Proof.
  intros H. destruct (str_eq s v) eqn:E; [|reflexivity].
  apply str_eq_true in E. contradiction.
Qed.

(** X19. A digest that is not [None] or empty and is not a string of 32
    lower-case hex digits (upper-case hex, a number, a truncated digest)
    never matches: on every readable file the verifier prints the
    checksum line and returns [False], so the file is downloaded again on
    every run. *)
Theorem malformed_digest_never_matches
    (path : string) (want : json) (w : world) (wr : bool) (data : list byte) :
  node_at (fs w) path = Some (File true wr data) ->
  truthy want = true ->
  (forall s, want = JStr s -> lower_hex s = false \/ String.length s <> 32%nat) ->
  verify_md5sum path want w
    = (Ok false, w, [Print (MsgChecksum path (MD5.hexdigest data))]).
Proof.
  intros Hp Hw Hbad. rewrite (verify_readable _ _ _ _ _ Hp Hw).
  rewrite str_eq_false; [reflexivity|].
  intros Heq. destruct (hexdigest_ok data) as [Hhex Hlen].
  destruct (Hbad _ Heq) as [H|H]; congruence.
Qed.

(** ** The target line *)

(** X20. For an eligible entry with a digest field, whenever the loop
    body ends without an exception the last thing it prints is the
    target path, whether the file was already in place, was downloaded,
    or was refused by the server. *)
Theorem target_line_closes_entry
    (cp : string) (d : dict) (name : string) (md5 : json) (w : world) :
  dict_get d "file_name" = Some (JStr name) ->
  dict_get d "md5" = Some md5 ->
  eligible name = true ->
  outcome (Downloader.sync_file cp (JObj d) w) = Ok tt ->
  last (trace (Downloader.sync_file cp (JObj d) w))
    = Some (Print (MsgTarget (target_of cp name))).
Proof.
  intros Hn Hm He. rewrite (sync_file_eligible _ _ _ _ _ Hn Hm He).
  unfold bind, print, ret.
  destruct (verify_md5sum (target_of cp name) md5 w) as [[[[]|e] w1] t1];
    unfold outcome, trace; cbn [fst snd negb]; [| |discriminate].
  - intros _. rewrite app_nil_l. apply last_snoc.
  - destruct (download_file (JStr name) (target_of cp name) w1) as [[[j|e] w2] t2];
      cbn [fst snd]; [|discriminate].
    intros _. rewrite !app_assoc. apply last_snoc.
Qed.

(** ** Targets that cannot be opened *)

Lemma download_unopenable name path w e :
  status_code (remote w (url_of name)) = 200 ->
  length_ok (remote w (url_of name)) = true ->
  open_wb_check (fs w) path = inl e ->
  download_file (JStr name) path w
    = (Raise e, w, [Print (MsgDownloading (url_of name)); Get (url_of name)]).
Proof.
  intros Hs Hl Ho. rewrite download_file_unfold. unfold after_get.
  rewrite Hs. cbn [Z.eqb Pos.eqb negb].
  unfold length_ok in Hl. unfold py_int.
  destruct (content_length (remote w (url_of name))) as [s|]; [|discriminate].
  destruct (PyInt.parse s) as [n|]; [|discriminate].
  rewrite bind_ret_l.
  assert (Hopen : open_wb path w = (Raise e, w, [])).
  { unfold open_wb. rewrite Ho. reflexivity. }
  rewrite (bind_raise _ _ _ _ _ _ Hopen). reflexivity.
Qed.

Lemma has_nul_target cp name :
  has_nul name = true -> refused (target_of cp name) = Some ValueError.
Proof.
  intros H. unfold refused, target_of, has_nul in *.
  rewrite !contains_char_app, H, !orb_true_r. reflexivity.
Qed.

(** X21. When an eligible entry fails verification, the server answers
    200 with a length [int] accepts, and [open] refuses the target with
    an exception, that exception ends the loop: the request has been
    sent by then, nothing is written, and the entries after it are not
    processed.  A name with a NUL byte is such a target: nothing is found
    at it, and [open] raises [ValueError]. *)
Theorem unopenable_target_ends_run
    (cp : string) (d : dict) (name : string) (md5 : json)
    (rest : list json) (w : world) :
  dict_get d "file_name" = Some (JStr name) ->
  dict_get d "md5" = Some md5 ->
  eligible name = true ->
  status_code (remote w (url_of name)) = 200 ->
  length_ok (remote w (url_of name)) = true ->
  (forall e,
     outcome (verify_md5sum (target_of cp name) md5 w) = Ok false ->
     open_wb_check (fs w) (target_of cp name) = inl e ->
     for_each (Downloader.sync_file cp) (JObj d :: rest) w
       = (Raise e, w,
          trace (verify_md5sum (target_of cp name) md5 w)
          ++ [Print (MsgRedownload (JStr name));
              Print (MsgDownloading (url_of name)); Get (url_of name)]))
  /\ (has_nul name = true ->
      for_each (Downloader.sync_file cp) (JObj d :: rest) w
        = (Raise ValueError, w,
           [Print (MsgNotExist (target_of cp name));
            Print (MsgRedownload (JStr name));
            Print (MsgDownloading (url_of name)); Get (url_of name)])).
Proof.
  intros Hn Hm He Hs Hl.
  assert (Hgen : forall e,
            outcome (verify_md5sum (target_of cp name) md5 w) = Ok false ->
            open_wb_check (fs w) (target_of cp name) = inl e ->
            for_each (Downloader.sync_file cp) (JObj d :: rest) w
              = (Raise e, w,
                 trace (verify_md5sum (target_of cp name) md5 w)
                 ++ [Print (MsgRedownload (JStr name));
                     Print (MsgDownloading (url_of name)); Get (url_of name)])).
  { intros e Hv Ho. cbn [for_each]. apply bind_raise.
    assert (Hrun : verify_md5sum (target_of cp name) md5 w
                   = (Ok false, w, trace (verify_md5sum (target_of cp name) md5 w))).
    { rewrite (run_eta (verify_md5sum _ _ _)) at 1.
      rewrite Hv, verify_final. reflexivity. }
    rewrite (sync_file_eligible _ _ _ _ _ Hn Hm He).
    rewrite (bind_ok _ _ _ _ _ _ Hrun). cbn [negb].
    unfold bind, print, ret. rewrite (download_unopenable _ _ _ _ Hs Hl Ho).
    reflexivity. }
  split; [exact Hgen|].
  intros Hnul. pose proof (has_nul_target cp name Hnul) as Href.
  assert (Hnone : node_at (fs w) (target_of cp name) = None)
    by (unfold node_at; rewrite Href; reflexivity).
  rewrite (Hgen ValueError).
  - rewrite (verify_missing _ _ _ Hnone). reflexivity.
  - rewrite (verify_missing _ _ _ Hnone). reflexivity.
  - unfold open_wb_check. rewrite Href. reflexivity.
Qed.

(** ** Names that are a directory *)

Lemma node_at_dot_name f cp name :
  name = "" \/ name = "." \/ name = ".." ->
  ordinary cp = true ->
  (String.length cp + 3 < PATH_MAX)%nat ->
  f !! cp = Some Dir ->
  node_at f (target_of cp name) = Some Dir.
Proof.
  intros Hname Ho Hlen Hdir.
  assert (Hsl : PyStr.contains_char "/" name = false)
    by (destruct Hname as [->|[->| ->]]; reflexivity).
  assert (Hsp : is_special name = true)
    by (destruct Hname as [->|[->| ->]]; reflexivity).
  assert (Hshort : (String.length name <= 2)%nat)
    by (destruct Hname as [->|[->| ->]]; cbn; lia).
  pose proof (bound_at_ordinary f cp Ho) as Hb.
  unfold ordinary in Ho. destruct (refused cp) eqn:Hr; [discriminate|].
  apply andb_true_iff in Ho as [Hbase _]. apply negb_true_iff in Hbase.
  assert (Hnul : has_nul cp = false).
  { unfold refused in Hr. destruct (has_nul cp); [discriminate | reflexivity]. }
  assert (Hne : cp <> "").
  { intros ->. discriminate Hr. }
  unfold node_at, target_of.
  assert (Href : refused ((cp ++ "/") ++ name) = None).
  { unfold refused, has_nul in *. rewrite !contains_char_app, Hnul.
    assert (Hn0 : PyStr.contains_char "000" name = false)
      by (destruct Hname as [->|[->| ->]]; reflexivity).
    rewrite Hn0. cbn [PyStr.contains_char Ascii.eqb Bool.eqb orb].
    destruct cp as [|a cp']; [congruence|]. rewrite !append_cons.
    cbn [String.eqb].
    rewrite <- !append_cons, !length_app_string.
    destruct (Nat.leb_spec PATH_MAX
                (String.length (String a cp') + String.length "/" + String.length name));
      [cbn [String.length] in *; lia | reflexivity]. }
  rewrite Href, (basename_join _ _ Hsl), Hsp.
  assert (Hcore : core_of ((cp ++ "/") ++ name) = cp).
  { unfold core_of. rewrite (drop_special_join _ _ Hsl Hsp Hbase).
    cbn [snd]. rewrite rev_involutive, concat_components.
    destruct cp; [congruence | reflexivity]. }
  rewrite Hcore, Hb, Hdir. reflexivity.
Qed.


(** ** The cache of [sync.py] *)

Lemma same_cache_after_get resp url path w :
  cache (final (after_get resp url path w)) = cache w.
Proof.
  pose proof (blind_after_get resp url path w (cache w)) as H.
  assert (Hw : with_cache w (cache w) = w) by (destruct w; reflexivity).
  rewrite Hw in H. rewrite H at 1. reflexivity.
Qed.


(** ** The further properties at concrete inputs *)

Lemma download_file_writes_body_witness :
  let w := mkWorld empty_category ok_server in
  download_file (JStr "a.bin") a_bin_path w
    = (Ok JNull,
       with_fs w (<[a_bin_path := File true true (bytes_of "x")]> (fs w)),
       [Print (MsgDownloading (url_of "a.bin")); Get (url_of "a.bin");
        Print (MsgSaved a_bin_path)]).
Proof.
  apply (download_file_writes_body "a.bin" a_bin_path
           (mkWorld empty_category ok_server)); vm_compute; reflexivity.
Defined.

Lemma download_file_failure_leaves_target_witness :
  let w := mkWorld stale_a_bin not_found_server in
  final (download_file (JStr "a.bin") a_bin_path w) = w
  /\ outcome (download_file (JStr "a.bin") a_bin_path w) <> Ok JNull
  /\ requests (trace (download_file (JStr "a.bin") a_bin_path w)) = [url_of "a.bin"].
Proof.
  apply (download_file_failure_leaves_target "a.bin" a_bin_path
           (mkWorld stale_a_bin not_found_server)).
  left. vm_compute. discriminate.
Defined.

Lemma download_file_one_request_one_path_witness :
  let w := mkWorld stale_a_bin ok_server in
  fs (final (download_file (JStr "a.bin") a_bin_path w)) !! "/srv/downloaded"
  = fs w !! "/srv/downloaded".
Proof.
  apply (proj2 (proj2 (download_file_one_request_one_path "a.bin" a_bin_path
                         (mkWorld stale_a_bin ok_server)))).
  vm_compute. discriminate.
Defined.

Lemma url_of_inj_witness : "a b.bin" = "a b.bin".
Proof. apply (url_of_inj "a b.bin" "a b.bin"). vm_compute. reflexivity. Defined.

Lemma sync_file_converges_witness :
  let w := mkWorld stale_a_bin ok_server in
  let first := Downloader.sync_file ce_full (JObj a_bin) w in
  outcome first = Ok tt
  /\ fs (final first) !! target_of ce_full "a.bin"
     = Some (File true true (body (remote w (url_of "a.bin"))))
  /\ (forall p, p <> target_of ce_full "a.bin" -> fs (final first) !! p = fs w !! p)
  /\ requests (trace first) = [url_of "a.bin"]
  /\ Downloader.sync_file ce_full (JObj a_bin) (final first)
     = (Ok tt, final first, [Print (MsgTarget (target_of ce_full "a.bin"))]).
Proof.
  apply (sync_file_converges ce_full a_bin "a.bin"
           "9dd4e461268c8034f5c8564e155c67a6" (mkWorld stale_a_bin ok_server));
    vm_compute; reflexivity.
Defined.

Lemma malformed_entry_aborts_loop_witness :
  let w := mkWorld empty_category ok_server in
  (for_each (Downloader.sync_file ce_full) [JObj [("md5", JStr "")]; JObj a_bin] w
     = (Raise (KeyError "file_name"), w, [])
   /\ for_each (Sync.sync_file ce_full) [JObj [("md5", JStr "")]; JObj a_bin] w
      = (Raise (KeyError "file_name"), w, []))
  /\ (for_each (Downloader.sync_file ce_full) [JStr "a.bin"; JObj a_bin] w
        = (Raise TypeError, w, [])
      /\ for_each (Sync.sync_file ce_full) [JStr "a.bin"; JObj a_bin] w
         = (Raise TypeError, w, [])).
Proof.
  cbv zeta. split.
  - apply (proj1 (malformed_entry_aborts_loop ce_full (JObj [("md5", JStr "")])
                    [JObj a_bin] (mkWorld empty_category ok_server))
             [("md5", JStr "")] eq_refl eq_refl).
  - apply (proj2 (malformed_entry_aborts_loop ce_full (JStr "a.bin")
                    [JObj a_bin] (mkWorld empty_category ok_server))).
    intros d. discriminate.
Defined.

Lemma archive_suffix_skipped_witness :
  let w := mkWorld empty_category ok_server in
  (Downloader.sync_file ce_full (JObj [("file_name", JStr "a.tar.bz2")]) w
     = (Ok tt, w, [])
   /\ Sync.sync_file ce_full (JObj [("file_name", JStr "a.tar.bz2")]) w
      = (Ok tt, w, []))
  /\ Downloader.sync_file ce_full (JObj [("file_name", JStr "x/a.zip")]) w
     = (Ok tt, w, [Print (MsgDeepPath (JStr "x/a.zip"))]).
Proof.
  cbv zeta. split.
  - apply (proj1 (archive_suffix_skipped ce_full [("file_name", JStr "a.tar.bz2")]
                    "a.tar" "bz2" (mkWorld empty_category ok_server)
                    eq_refl (or_intror eq_refl))).
    reflexivity.
  - apply (proj2 (archive_suffix_skipped ce_full [("file_name", JStr "x/a.zip")]
                    "x/a" "zip" (mkWorld empty_category ok_server)
                    eq_refl (or_introl eq_refl))).
    reflexivity.
Defined.

Lemma scripts_agree_on_entry_witness :
  let w := mkWorld stale_a_bin ok_server in
  outcome (Sync.sync_file ce_full (JObj a_bin) w)
    = outcome (Downloader.sync_file ce_full (JObj a_bin) w)
  /\ fs (final (Sync.sync_file ce_full (JObj a_bin) w))
     = fs (final (Downloader.sync_file ce_full (JObj a_bin) w))
  /\ remote (final (Sync.sync_file ce_full (JObj a_bin) w))
     = remote (final (Downloader.sync_file ce_full (JObj a_bin) w))
  /\ trace (Sync.sync_file ce_full (JObj a_bin) w)
     = without_redownload (trace (Downloader.sync_file ce_full (JObj a_bin) w)).
Proof.
  apply (scripts_agree_on_entry ce_full (JObj a_bin) (mkWorld stale_a_bin ok_server)).
  intros name _. vm_compute. reflexivity.
Defined.

Lemma sync_py_unknown_category_stops_witness :
  let w := mkWorld empty_cwd ok_server in
  let before := [("other", JArr [JObj a_bin])] in
  Sync.sync_everything (before ++ ("legacy", JArr []) :: [("ce-full", JArr [JObj a_bin])]) w
    = Sync.sync_everything (before ++ [("legacy", JArr [])]) w
  /\ outcome (Sync.sync_everything
                (before ++ ("legacy", JArr []) :: [("ce-full", JArr [JObj a_bin])]) w)
     = Raise (AssertionError "unknown category: legacy")
  /\ requests (trace (Sync.sync_everything
                        (before ++ ("legacy", JArr []) :: [("ce-full", JArr [JObj a_bin])]) w))
     = [url_of "a.bin"].
Proof.
  cbv zeta.
  destruct (sync_py_unknown_category_stops "legacy" (JArr [])
              [("other", JArr [JObj a_bin])] [("ce-full", JArr [JObj a_bin])]
              (mkWorld empty_cwd ok_server) eq_refl) as (Heq & Hrun & _).
  split; [exact Heq|].
  destruct Hrun as (Ho & _ & Ht); [vm_compute; reflexivity|].
  split; [exact Ho|]. rewrite Ht. vm_compute. reflexivity.
Defined.

Lemma category_directory_is_created_witness :
  (let w := mkWorld fresh_root ok_server in
   node_at (fs (final (Downloader.sync_category "/srv/downloaded"
                         ("ce-full", JArr [JObj a_bin]) w)))
     "/srv/downloaded/ce-full"
   = Some Dir)
  /\ (let w := mkWorld fresh_root ok_server in
      Downloader.sync_category "/srv/staging" ("ce-full", JArr [JObj a_bin]) w
      = (Raise FileNotFoundError, w, []))
  /\ (let w := mkWorld fresh_root ok_server in
      Downloader.sync_category (String "000" "") ("ce-full", JArr [JObj a_bin]) w
      = (Raise ValueError, w, [])).
Proof.
  cbv zeta. split; [|split].
  - apply (proj2 (proj2 (proj2 (category_directory_is_created "/srv/downloaded" "ce-full"
                                  (JArr [JObj a_bin]) (mkWorld fresh_root ok_server)
                                  eq_refl ltac:(discriminate) eq_refl) eq_refl))).
    vm_compute. reflexivity.
  - destruct (proj1 (proj2 (category_directory_is_created "/srv/staging" "ce-full"
                              (JArr [JObj a_bin]) (mkWorld fresh_root ok_server)
                              eq_refl ltac:(discriminate) eq_refl) eq_refl) eq_refl)
      as (Hrun & He).
    rewrite Hrun, (He eq_refl eq_refl). reflexivity.
  - apply (proj1 (category_directory_is_created (String "000" "") "ce-full"
                    (JArr [JObj a_bin]) (mkWorld fresh_root ok_server)
                    eq_refl ltac:(discriminate) eq_refl)).
    reflexivity.
Defined.

Lemma uniterable_category_raises_witness :
  let w := mkWorld empty_category ok_server in
  Downloader.sync_category "/srv/downloaded"
    ("ce-full", JObj [("1.9", JArr [JObj a_bin]); ("1.10", JNull)]) w
    = (Raise TypeError, w, [])
  /\ index_category format_str ∅ ("ce-patch", JNum 3) w = (Raise TypeError, w, []).
Proof.
  cbv zeta. split.
  - apply (proj1 (uniterable_category_raises "/srv/downloaded" "ce-full"
                    (JObj [("1.9", JArr [JObj a_bin]); ("1.10", JNull)])
                    (mkWorld empty_category ok_server) Dir format_str ∅ eq_refl));
      vm_compute; reflexivity.
  - apply (proj2 (uniterable_category_raises "/srv/downloaded" "ce-patch"
                    (JNum 3) (mkWorld empty_category ok_server) Dir format_str ∅
                    eq_refl)).
    reflexivity.
Defined.

Lemma index_holds_only_catalog_pairs_witness :
  exists v2p,
    req_patches format_str (catalog_of patch_example)
      (mkWorld empty_category ok_server)
      = (Ok v2p, mkWorld empty_category ok_server, [])
    /\ forall k s x,
         v2p !! k = Some s -> In x s ->
         exists c es d y,
           In (c, es) patch_example
           /\ patch_category c = true
           /\ In (JObj d) es
           /\ dict_get d "file_name" = Some x
           /\ ((In y (versions_of d "ee_versions")
                /\ k = ("EE " ++ format_str y)%string)
               \/ (In y (versions_of d "ce_versions")
                   /\ k = ("CE " ++ format_str y)%string)).
Proof.
  destruct (req_patches_returns format_str patch_example eq_refl) as [v2p Hret].
  exists v2p. split; [apply Hret|].
  apply (index_holds_only_catalog_pairs format_str patch_example
           (mkWorld empty_category ok_server) (mkWorld empty_category ok_server)
           [] v2p eq_refl (Hret _)).
Defined.


Lemma main_is_fetch_then_sync_witness :
  (let w := mkWorld fresh_root not_found_server in
   let run := Downloader.sync_everything "/srv/downloaded" two_files
                (with_snapshot w (dumps_braces (JObj two_files))) in
   downloader_main loads_two_files dumps_braces "/srv/downloaded" w
     = (outcome run, final run, Get INFO_URL :: trace run))
  /\ (let w := mkWorld fresh_root ok_server in
      let run := Sync.sync_everything two_files (remember w INFO_URL) in
      sync_main loads_two_files w = (outcome run, final run, Get INFO_URL :: trace run))
  /\ (let w := World fresh_root not_found_server {[ INFO_URL := ok_server INFO_URL ]} in
      sync_main loads_two_files w = Sync.sync_everything two_files w).
Proof.
  cbv zeta. split; [|split].
  - apply (proj1 (main_is_fetch_then_sync loads_two_files dumps_braces
                    "/srv/downloaded" two_files
                    (mkWorld fresh_root not_found_server)) Dir);
      vm_compute; reflexivity.
  - apply (proj1 (proj2 (main_is_fetch_then_sync loads_two_files dumps_braces
                           "/srv/downloaded" two_files
                           (mkWorld fresh_root ok_server)))); reflexivity.
  - apply (proj2 (proj2 (main_is_fetch_then_sync loads_two_files dumps_braces
                           "/srv/downloaded" two_files
                           (World fresh_root not_found_server
                              {[ INFO_URL := ok_server INFO_URL ]})))
             (ok_server INFO_URL)); reflexivity.
Defined.


Lemma malformed_digest_never_matches_witness :
  let w := mkWorld a_bin_on_disk ok_server in
  verify_md5sum a_bin_path (JStr "9DD4E461268C8034F5C8564E155C67A6") w
    = (Ok false, w,
       [Print (MsgChecksum a_bin_path (MD5.hexdigest (bytes_of "x")))]).
Proof.
  apply (malformed_digest_never_matches a_bin_path
           (JStr "9DD4E461268C8034F5C8564E155C67A6")
           (mkWorld a_bin_on_disk ok_server) true (bytes_of "x")).
  - vm_compute. reflexivity.
  - reflexivity.
  - intros s [= <-]. left. reflexivity.
Defined.

Lemma target_line_closes_entry_witness :
  let w := mkWorld empty_category not_found_server in
  last (trace (Downloader.sync_file ce_full (JObj a_bin) w))
    = Some (Print (MsgTarget (target_of ce_full "a.bin"))).
Proof.
  apply (target_line_closes_entry ce_full a_bin "a.bin"
           (JStr "9dd4e461268c8034f5c8564e155c67a6")
           (mkWorld empty_category not_found_server));
    vm_compute; reflexivity.
Defined.

Lemma unopenable_target_ends_run_witness :
  let w := mkWorld a_bin_on_disk ok_server in
  let name := String "000" ".bin" in
  let long := string_of_list_ascii (repeat "a"%char 256) in
  for_each (Downloader.sync_file ce_full)
    [JObj [("file_name", JStr name); ("md5", JStr "abc")]; JObj a_bin] w
    = (Raise ValueError, w,
       [Print (MsgNotExist (target_of ce_full name));
        Print (MsgRedownload (JStr name));
        Print (MsgDownloading (url_of name)); Get (url_of name)])
  /\ for_each (Downloader.sync_file ce_full)
       [JObj [("file_name", JStr long); ("md5", JStr "abc")]; JObj a_bin] w
     = (Raise OSError, w,
        [Print (MsgNotExist (target_of ce_full long));
         Print (MsgRedownload (JStr long));
         Print (MsgDownloading (url_of long)); Get (url_of long)]).
Proof.
  cbv zeta. split.
  - apply (proj2 (unopenable_target_ends_run ce_full
                    [("file_name", JStr (String "000" ".bin")); ("md5", JStr "abc")]
                    (String "000" ".bin") (JStr "abc") [JObj a_bin]
                    (mkWorld a_bin_on_disk ok_server)
                    eq_refl eq_refl eq_refl eq_refl eq_refl)).
    reflexivity.
  - rewrite (proj1 (unopenable_target_ends_run ce_full
                      [("file_name", JStr (string_of_list_ascii (repeat "a"%char 256)));
                       ("md5", JStr "abc")]
                      (string_of_list_ascii (repeat "a"%char 256))
                      (JStr "abc") [JObj a_bin]
                      (mkWorld a_bin_on_disk ok_server)
                      eq_refl eq_refl ltac:(vm_compute; reflexivity) eq_refl eq_refl)
               OSError
               ltac:(vm_compute; reflexivity) ltac:(vm_compute; reflexivity)).
    vm_compute. reflexivity.
Defined.


